(** * QGrain: the mixture-layout kernel, the single-sample resolver and the
      joint (UDM) resolver, embedded shallowly and checked against the
      specification.

    Sources embedded here:
    - [algorithms.py]           (module [algorithms])
    - [resolvers/resolver.py]   (module [Resolver])
    - [QGrain/udm/_resolver.py] (module [UDMResolver])

    Numbers.  The Python code computes with IEEE doubles (numpy / torch
    scalars).  The embedding is parametric in an arithmetic interface
    [arith]: a carrier with the operations the code calls, a NaN test and the
    comparisons [<] and [==].  Nothing is assumed about the operations; every
    algebraic law a theorem needs is an explicit hypothesis of that theorem.
    [QN] is an executable instance (exact rationals extended with NaN),
    [QC] the same in lowest terms, and [F64] the IEEE doubles themselves. *)

From Stdlib Require Import ZArith QArith Qround List String Ascii Bool Lia Lqa.
From Stdlib Require Import Permutation Sorted.
From Stdlib Require Import DecimalString DecimalZ.
From Stdlib Require Qcanon.
From Stdlib Require Floats.PrimFloat Floats.SpecFloat Floats.FloatOps.
Import ListNotations.

Local Open Scope string_scope.
Local Open Scope list_scope.
Local Open Scope Z_scope.

Set Implicit Arguments.

(* ===================================================================== *)
(** * Python runtime: exceptions, results, indexing, slicing, formatting  *)
(* ===================================================================== *)

(** The exception classes the embedded code can raise.  [DataInvalidError]
    is the class declared in [resolver.py]; it carries the positional
    arguments passed to its constructor (here: the message). *)
Inductive exn : Type :=
| TypeError
| ValueError
| IndexError
| AssertionError
| AttributeError
| NameError
| NotImplementedError
| DataInvalidError (args : list string).

Inductive result (T : Type) : Type :=
| Ok (v : T)
| Raise (e : exn).

Arguments Ok {T} v.
Arguments Raise {T} e.

Definition bind {T U : Type} (m : result T) (f : T -> result U) : result U :=
  match m with
  | Ok v => f v
  | Raise e => Raise e
  end.

Notation "'do' x <- m ; f" := (bind m (fun x => f))
  (at level 10, x name, m at level 100, f at level 200).

Fixpoint mapM {T U : Type} (f : T -> result U) (l : list T) : result (list U) :=
  match l with
  | [] => Ok []
  | x :: r => do y <- f x; do ys <- mapM f r; Ok (y :: ys)
  end.

Module Py.

(** [len(l)] as a Python int. *)
Definition len {T : Type} (l : list T) : Z := Z.of_nat (List.length l).

(** [range(n)]: empty when [n <= 0]. *)
Definition range (n : Z) : list Z := map Z.of_nat (seq 0 (Z.to_nat n)).

(** [l[i]]: negative indices count from the end; out of range raises
    [IndexError]. *)
Definition getitem {T : Type} (l : list T) (i : Z) : result T :=
  let j := if i <? 0 then i + len l else i in
  if (j <? 0) || (len l <=? j) then Raise IndexError
  else match nth_error l (Z.to_nat j) with
       | Some v => Ok v
       | None => Raise IndexError
       end.

Fixpoint set_nth {T : Type} (n : nat) (v : T) (l : list T) : list T :=
  match l, n with
  | [], _ => []
  | _ :: r, O => v :: r
  | x :: r, S m => x :: set_nth m v r
  end.

(** [l[i] = v]: same index rule as [getitem]. *)
Definition setitem {T : Type} (l : list T) (i : Z) (v : T) : result (list T) :=
  let j := if i <? 0 then i + len l else i in
  if (j <? 0) || (len l <=? j) then Raise IndexError
  else Ok (set_nth (Z.to_nat j) v l).

(** Clamping of one slice bound ([PySlice_AdjustIndices], step 1). *)
Definition clamp (n : Z) (i : Z) : Z :=
  if i <? 0 then Z.max (i + n) 0 else Z.min i n.

(** [l[lo:hi]]; [None] stands for an omitted bound. *)
Definition slice {T : Type} (l : list T) (lo hi : option Z) : list T :=
  let n := len l in
  let a := match lo with Some i => clamp n i | None => 0 end in
  let b := match hi with Some i => clamp n i | None => n end in
  firstn (Z.to_nat (b - a)) (skipn (Z.to_nat a) l).

(** ["{0}".format(i)] for an int: its decimal spelling. *)
Definition format_int (i : Z) : string := NilZero.string_of_int (Z.to_int i).

(** [int(s)] on a decimal spelling (optional leading minus sign).  The other
    spellings Python accepts (a plus sign, surrounding blanks, underscores)
    never occur in parameter names and are rejected here like any other
    malformed text. *)
Definition int_of_str (s : string) : result Z :=
  match NilZero.int_of_string s with
  | Some d => Ok (Z.of_int d)
  | None => Raise ValueError
  end.

(** [s[n:]] on a string. *)
Fixpoint str_drop (n : nat) (s : string) : string :=
  match n, s with
  | O, _ => s
  | S m, EmptyString => EmptyString
  | S m, String _ r => str_drop m r
  end.

(** [s.startswith(p)]. *)
Definition startswith (s p : string) : bool := String.prefix p s.

(** [sep.join(l)]. *)
Definition join (sep : string) (l : list string) : string := String.concat sep l.

(** [i] is the first index at or after [lo] whose element satisfies [p]. *)
Definition first_index_from {T : Type} (p : T -> bool) (l : list T)
  (lo i : Z) : Prop :=
  lo <= i
  /\ (exists v, nth_error l (Z.to_nat i) = Some v /\ p v = true)
  /\ forall j v, lo <= j < i -> nth_error l (Z.to_nat j) = Some v -> p v = false.

Section Sort.

Variables (T K : Type).
Variable lt : K -> K -> bool.

(** Insertion of a decorated element behind every element that does not
    compare greater: equal keys keep their arrival order. *)
Fixpoint insert_keyed (x : K * T) (l : list (K * T)) : list (K * T) :=
  match l with
  | [] => [x]
  | y :: r => if lt (fst x) (fst y) then x :: y :: r else y :: insert_keyed x r
  end.

Definition sort_keyed (l : list (K * T)) : list (K * T) :=
  fold_left (fun acc x => insert_keyed x acc) l [].

(** [key_le a b]: the key of [b] does not compare smaller than the key of
    [a]. *)
Definition key_le (a b : K * T) : Prop := lt (fst b) (fst a) = false.

(** [l.sort(key=key)]: the keys are computed once per element (an exception
    in [key] aborts the sort), the elements are ordered by [<] on the keys,
    and the sort is stable. *)
Definition sort_by (key : T -> result K) (l : list T) : result (list T) :=
  do ks <- mapM key l;
  Ok (map snd (sort_keyed (combine ks l))).

End Sort.

End Py.

(* ===================================================================== *)
(** * Arithmetic interface                                                *)
(* ===================================================================== *)

(** What the code asks of its floating-point numbers.  [of_Q] turns a
    numeric literal (or an int) into a number. *)
Class arith : Type := {
  num : Type;
  of_Q : Q -> num;
  add : num -> num -> num;
  sub : num -> num -> num;
  mul : num -> num -> num;
  div : num -> num -> num;
  pow : num -> num -> num;
  neg : num -> num;
  exp : num -> num;
  gamma : num -> num;
  ltb : num -> num -> bool;
  eqb : num -> num -> bool;
  isnan : num -> bool
}.

Definition of_Z {A : arith} (z : Z) : num := of_Q (inject_Z z).

(** [np.sum] of a one-dimensional array: accumulation from [0.0]. *)
Definition np_sum {A : arith} (l : list num) : num := fold_left add l (of_Z 0).

(** [np.mean]: the sum divided by the element count (for an empty array this
    is the division [0.0 / 0], whatever the arithmetic makes of it). *)
Definition np_mean {A : arith} (l : list num) : num :=
  div (np_sum l) (of_Z (Py.len l)).

(** A binary operation on two one-dimensional arrays: entry by entry when
    the lengths agree, an array of length [1] is stretched to the other's
    length, and any other pair of lengths raises [ValueError] ("operands
    could not be broadcast together"). *)
Definition np_binary {A : arith} (f : num -> num -> num) (a b : list num)
  : result (list num) :=
  if Nat.eqb (List.length a) (List.length b)
  then Ok (map (fun p => f (fst p) (snd p)) (combine a b))
  else match a, b with
       | [u], _ => Ok (map (f u) b)
       | _, [v] => Ok (map (fun x => f x v) a)
       | _, _ => Raise ValueError
       end.

(** [np.square]: each entry times itself. *)
Definition np_square {A : arith} (l : list num) : list num :=
  map (fun v => mul v v) l.

(** ** An executable instance: exact rationals with NaN

    [None] is NaN.  The field operations are exact; an operation whose exact
    value the instance cannot represent answers NaN: division by zero,
    [exp] away from [0], a power with a non-integer exponent, and [gamma]
    below [1].  [gamma] is the factorial at the integers ([gamma n = (n-1)!])
    and is interpolated linearly between consecutive integers. *)
Module QN.

Definition t : Type := option Q.

Definition lift1 (f : Q -> Q) (a : t) : t :=
  match a with Some x => Some (f x) | None => None end.

Definition lift2 (f : Q -> Q -> Q) (a b : t) : t :=
  match a, b with Some x, Some y => Some (f x y) | _, _ => None end.

Definition qdiv (a b : t) : t :=
  match a, b with
  | Some x, Some y => if Qeq_bool y 0 then None else Some (Qred (x / y))
  | _, _ => None
  end.

Definition qpow (a b : t) : t :=
  match a, b with
  | Some x, Some y =>
      if negb (Pos.eqb (Qden y) 1) then None
      else if Qeq_bool x 0 && (Qnum y <? 0) then None
      else Some (Qred (Qpower x (Qnum y)))
  | _, _ => None
  end.

Definition qexp (a : t) : t :=
  match a with
  | Some x => if Qeq_bool x 0 then Some 1%Q else None
  | None => None
  end.

Fixpoint fact (n : nat) : Z :=
  match n with
  | O => 1
  | S m => Z.of_nat n * fact m
  end.

Definition qgamma (a : t) : t :=
  match a with
  | Some x =>
      if Qle_bool 1 x then
        let n := Qfloor x in
        let lo := inject_Z (fact (Z.to_nat (n - 1))) in
        let hi := inject_Z (fact (Z.to_nat n)) in
        Some (Qred (lo + (x - inject_Z n) * (hi - lo)))%Q
      else None
  | None => None
  end.

Definition qltb (a b : t) : bool :=
  match a, b with
  | Some x, Some y => negb (Qle_bool y x)
  | _, _ => false
  end.

Definition qeqb (a b : t) : bool :=
  match a, b with
  | Some x, Some y => Qeq_bool x y
  | _, _ => false
  end.

Definition qisnan (a : t) : bool :=
  match a with Some _ => false | None => true end.

Definition model : arith := {|
  num := t;
  of_Q := fun q => Some q;
  add := lift2 Qplus;
  sub := lift2 Qminus;
  mul := lift2 Qmult;
  div := qdiv;
  pow := qpow;
  neg := lift1 Qopp;
  exp := qexp;
  gamma := qgamma;
  ltb := qltb;
  eqb := qeqb;
  isnan := qisnan
|}.

Definition rat (x : Q) : @num model := Some x.
Definition nan : @num model := None.

End QN.

(** ** A second instance: rationals in lowest terms

    [QN] keeps a fraction as the operations leave it, so two equal numbers
    can be different terms.  [QC] keeps every number in lowest terms: equal
    numbers are equal terms, and the laws of exact arithmetic hold as
    equations between numbers that are not NaN.  Apart from that the
    operations are those of [QN]. *)
Module QC.

Definition t : Type := option Qcanon.Qc.

Definition of_QN (a : QN.t) : t := option_map Qcanon.Q2Qc a.

Definition to_QN (a : t) : QN.t := option_map Qcanon.this a.

Definition lift1 (f : Qcanon.Qc -> Qcanon.Qc) (a : t) : t :=
  match a with Some x => Some (f x) | None => None end.

Definition lift2 (f : Qcanon.Qc -> Qcanon.Qc -> Qcanon.Qc) (a b : t) : t :=
  match a, b with Some x, Some y => Some (f x y) | _, _ => None end.

Definition model : arith := {|
  num := t;
  of_Q := fun q => Some (Qcanon.Q2Qc q);
  add := lift2 Qcanon.Qcplus;
  sub := lift2 Qcanon.Qcminus;
  mul := lift2 Qcanon.Qcmult;
  div := fun a b => of_QN (QN.qdiv (to_QN a) (to_QN b));
  pow := fun a b => of_QN (QN.qpow (to_QN a) (to_QN b));
  neg := lift1 Qcanon.Qcopp;
  exp := fun a => of_QN (QN.qexp (to_QN a));
  gamma := fun a => of_QN (QN.qgamma (to_QN a));
  ltb := fun a b => QN.qltb (to_QN a) (to_QN b);
  eqb := fun a b => QN.qeqb (to_QN a) (to_QN b);
  isnan := fun a => QN.qisnan (to_QN a)
|}.

Definition rat (x : Q) : @num model := Some (Qcanon.Q2Qc x).

End QC.

(** ** A third instance: IEEE binary64

    The numbers are the machine's double-precision floats, which are the
    floats of Python and numpy's [float64].  [add], [sub], [mul], [div],
    [neg] and the two comparisons are the IEEE operations (round to nearest,
    ties to even; [==] holds between [0.0] and [-0.0] and fails on NaN).  A
    literal or an int is the correctly rounded quotient of its numerator by
    its denominator, each first rounded to the nearest double; that is the
    double Python reads whenever both are below [2**53], and also for the
    literal [1e-100].

    [pow], [exp] and [gamma] are library functions.  The instance gives
    their value at the arguments where the library returns the exact one,
    [x**0 = 1], [x**1 = x], [exp(0) = 1] and [gamma(1) = gamma(2) = 1],
    and answers NaN everywhere else; it is used below on one input only, on
    which no other argument occurs and every value computed is a number. *)
Module F64.

Definition t : Type := PrimFloat.float.

(** An int, rounded to the nearest double. *)
Definition of_int (z : Z) : t :=
  FloatOps.SF2Prim (SpecFloat.binary_normalize 53 1024 z 0 false).

Definition zero : t := of_int 0.
Definition one : t := of_int 1.
Definition nan : t := PrimFloat.div zero zero.

Definition fisnan (a : t) : bool := negb (PrimFloat.eqb a a).

Definition fpow (a b : t) : t :=
  if PrimFloat.eqb b zero then one
  else if PrimFloat.eqb b one then a
  else nan.

Definition fexp (a : t) : t :=
  if PrimFloat.eqb a zero then one else nan.

Definition fgamma (a : t) : t :=
  if PrimFloat.eqb a one || PrimFloat.eqb a (of_int 2) then one else nan.

Definition model : arith := {|
  num := t;
  of_Q := fun q => PrimFloat.div (of_int (Qnum q)) (of_int (Zpos (Qden q)));
  add := PrimFloat.add;
  sub := PrimFloat.sub;
  mul := PrimFloat.mul;
  div := PrimFloat.div;
  pow := fpow;
  neg := PrimFloat.opp;
  exp := fexp;
  gamma := fgamma;
  ltb := PrimFloat.ltb;
  eqb := PrimFloat.eqb;
  isnan := fisnan
|}.

Definition rat (x : Q) : @num model := @of_Q model x.

(** [0.5], and the double next below it, [0.49999999999999994]. *)
Definition half : @num model := rat (1 # 2).
Definition below_half : @num model := PrimFloat.next_down half.

End F64.

(** The family selector [DistributionType].  Its declaration is not part of
    the embedded sources; the members are those the callers name. *)
Inductive DistributionType : Type :=
| Normal
| SkewNormal
| Weibull
| GeneralWeibull.

(** Python values as far as the embedded code inspects their type.
    [VArray] is a one-dimensional [ndarray] of floats. *)
Inductive value {A : arith} : Type :=
| VNone
| VBool (b : bool)
| VInt (z : Z)
| VFloat (x : num)
| VStr (s : string)
| VDist (d : DistributionType)
| VArray (a : list num)
| VStrTuple (items : list string).

(* ===================================================================== *)
(** * algorithms.py                                                       *)
(* ===================================================================== *)

Module algorithms.

(** The literal [1e-100]. *)
Definition INFINITESIMAL_literal : Q := 1 # (10 ^ 100)%positive.

Section Defs.

Context {A : arith}.

Definition INFINITESIMAL : num := of_Q INFINITESIMAL_literal.

(** [beta/eta*(x / eta)**(beta-1) * np.exp(-(x/eta)**beta)] *)
Definition weibull (x beta eta : num) : num :=
  mul (mul (div beta eta) (pow (div x eta) (sub beta (of_Z 1))))
      (exp (neg (pow (div x eta) beta))).

Definition _check_ncomp (ncomp : value) : result Z :=
  match ncomp with
  | VInt n => if n <=? 0 then Raise ValueError else Ok n
  | _ => Raise TypeError
  end.

(** One entry of the parameter layout (a dict in the source). *)
Record param : Type := {
  name : string;
  default : value;
  location : Z;
  bounds : value * value
}.

Definition shape_scale_pair (i : Z) : list param :=
  [ {| name := "beta" ++ Py.format_int (i + 1); default := VInt 1;
       location := i * 2; bounds := (VFloat INFINITESIMAL, VNone) |};
    {| name := "eta" ++ Py.format_int (i + 1); default := VInt 1;
       location := i * 2 + 1; bounds := (VFloat INFINITESIMAL, VNone) |} ].

Definition fraction_param (ncomp i : Z) : param :=
  {| name := "f" ++ Py.format_int (i + 1);
     default := VFloat (div (of_Z 1) (of_Z ncomp));
     location := ncomp * 2 + i; bounds := (VInt 0, VInt 1) |}.

Definition _get_params (ncomp : Z) : result (list param) :=
  if ncomp =? 1 then
    Ok [ {| name := "beta"; default := VInt 1; location := 0;
            bounds := (VFloat INFINITESIMAL, VNone) |};
         {| name := "eta"; default := VInt 1; location := 1;
            bounds := (VFloat INFINITESIMAL, VNone) |} ]
  else if 1 <? ncomp then
    Ok (flat_map shape_scale_pair (Py.range ncomp)
        ++ map (fraction_param ncomp) (Py.range (ncomp - 1)))
  else Raise ValueError.

(** [params.sort(key=lambda element: element["location"])] *)
Definition _sort_params_by_location_in_place (params : list param)
  : result (list param) :=
  Py.sort_by Z.ltb (fun p => Ok (location p)) params.

Definition _get_bounds (params : list param) : list (value * value) :=
  map bounds params.

(** One constraint dict: its ['type'] and its ['fun']. *)
Record constraint : Type := {
  ctype : string;
  cfun : list num -> num
}.

(** [lambda args: 1 - np.sum(args[1-ncomp:]) + INFINITESIMAL] *)
Definition _get_constrains (ncomp : Z) : list constraint :=
  [ {| ctype := "ineq";
       cfun := fun args =>
         add (sub (of_Z 1) (np_sum (Py.slice args (Some (1 - ncomp)) None)))
             INFINITESIMAL |} ].

Definition _get_defaults (params : list param) : list value :=
  map default params.

(** ** The mixture function

    [_get_lambda_string] spells a lambda as text and [get_mixed_weibull]
    turns the text into a function with [exec].  The text is kept as it is
    built ([_get_lambda_string]); the function [exec] yields is kept as the
    syntax tree of that text ([_get_lambda]); [unparse_lambda] prints a tree
    back to its text, and the two are shown to agree. *)

Inductive expr : Type :=
| EName (s : string)
| EInt (z : Z)
| EAdd (a b : expr)
| ESub (a b : expr)
| EMul (a b : expr)
| EDiv (a b : expr)
| EPow (a b : expr)
| ENeg (a : expr)
| ENpExp (a : expr)
| EWeibull (x b e : expr).

Record lambda : Type := {
  lam_params : list string;
  lam_body : expr
}.

Definition weibull_call (i : Z) : expr :=
  EWeibull (EName "x") (EName ("beta" ++ Py.format_int i))
           (EName ("eta" ++ Py.format_int i)).

(** ["-".join(["1"] + ["f1", ...])], read as Python reads it: a chain of
    subtractions grouped to the left. *)
Definition last_fraction (ncomp : Z) : expr :=
  fold_left (fun acc i => ESub acc (EName ("f" ++ Py.format_int (i + 1))))
            (Py.range (ncomp - 1)) (EInt 1).

Definition mixture_terms (ncomp : Z) : list expr :=
  map (fun i => EMul (EName ("f" ++ Py.format_int (i + 1))) (weibull_call (i + 1)))
      (Py.range (ncomp - 1))
  ++ [EMul (last_fraction ncomp) (weibull_call ncomp)].

(** [" + ".join(terms)], grouped to the left. *)
Definition sum_of_terms (terms : list expr) : expr :=
  match terms with
  | [] => EInt 0
  | t :: r => fold_left EAdd r t
  end.

Definition single_body : expr :=
  EMul (EMul (EDiv (EName "beta") (EName "eta"))
             (EPow (EDiv (EName "x") (EName "eta")) (ESub (EName "beta") (EInt 1))))
       (ENpExp (ENeg (EPow (EDiv (EName "x") (EName "eta")) (EName "beta")))).

Definition _get_lambda (ncomp : Z) (params : list param) : result lambda :=
  if ncomp =? 1 then
    Ok {| lam_params := ["x"; "beta"; "eta"]; lam_body := single_body |}
  else if 1 <? ncomp then
    Ok {| lam_params := "x" :: map name params;
          lam_body := sum_of_terms (mixture_terms ncomp) |}
  else Raise ValueError.

Definition fraction_name (i : Z) : string := "f" ++ Py.format_int (i + 1).

(** ["f{0}*weibull(x, beta{0}, eta{0})".format(i+1)] *)
Definition term_string (i : Z) : string :=
  "f" ++ Py.format_int (i + 1) ++ "*weibull(x, beta" ++ Py.format_int (i + 1)
      ++ ", eta" ++ Py.format_int (i + 1) ++ ")".

(** ["({0})*weibull(x, beta{1}, eta{1})".format("-".join(...), ncomp)] *)
Definition last_term_string (ncomp : Z) : string :=
  "(" ++ Py.join "-" ("1" :: map fraction_name (Py.range (ncomp - 1)))
      ++ ")*weibull(x, beta" ++ Py.format_int ncomp
      ++ ", eta" ++ Py.format_int ncomp ++ ")".

Definition _get_lambda_string (ncomp : Z) (params : list param) : result string :=
  if ncomp =? 1 then
    Ok "lambda x, beta, eta: beta/eta*(x / eta)**(beta-1) * np.exp(-(x/eta)**beta)"
  else if 1 <? ncomp then
    let parameter_list := Py.join ", " ("x" :: map name params) in
    let expression :=
      Py.join " + " (List.app (map term_string (Py.range (ncomp - 1)))
                         [last_term_string ncomp]) in
    Ok ("lambda " ++ parameter_list ++ ": " ++ expression)%string
  else Raise ValueError.

(** The text of a tree, with Python's precedences ([+ -] below [* /] below
    unary minus below [**]) and no more parentheses than they require. *)
Definition wrap (own level : nat) (s : string) : string :=
  if (own <? level)%nat then "(" ++ s ++ ")" else s.

Fixpoint unparse (level : nat) (e : expr) : string :=
  match e with
  | EName s => s
  | EInt z => Py.format_int z
  | EAdd a b => wrap 0 level (unparse 0 a ++ " + " ++ unparse 1 b)
  | ESub a b => wrap 0 level (unparse 0 a ++ "-" ++ unparse 1 b)
  | EMul a b => wrap 1 level (unparse 1 a ++ "*" ++ unparse 2 b)
  | EDiv a b => wrap 1 level (unparse 1 a ++ "/" ++ unparse 2 b)
  | ENeg a => wrap 2 level ("-" ++ unparse 2 a)
  | EPow a b => wrap 3 level (unparse 4 a ++ "**" ++ unparse 2 b)
  | ENpExp a => "np.exp(" ++ unparse 0 a ++ ")"
  | EWeibull x b e =>
      "weibull(" ++ unparse 0 x ++ ", " ++ unparse 0 b ++ ", "
                 ++ unparse 0 e ++ ")"
  end.

Definition unparse_lambda (f : lambda) : string :=
  "lambda " ++ Py.join ", " (lam_params f) ++ ": " ++ unparse 0 (lam_body f).

(** A text without its blanks. *)
Fixpoint strip_blanks (s : string) : string :=
  match s with
  | EmptyString => EmptyString
  | String c r => if Ascii.eqb c " " then strip_blanks r
                  else String c (strip_blanks r)
  end.

Fixpoint lookup (env : list (string * num)) (s : string) : result num :=
  match env with
  | [] => Raise NameError
  | (k, v) :: r => if String.eqb k s then Ok v else lookup r s
  end.

Fixpoint eval (env : list (string * num)) (e : expr) : result num :=
  match e with
  | EName s => lookup env s
  | EInt z => Ok (of_Z z)
  | EAdd a b => do u <- eval env a; do v <- eval env b; Ok (add u v)
  | ESub a b => do u <- eval env a; do v <- eval env b; Ok (sub u v)
  | EMul a b => do u <- eval env a; do v <- eval env b; Ok (mul u v)
  | EDiv a b => do u <- eval env a; do v <- eval env b; Ok (div u v)
  | EPow a b => do u <- eval env a; do v <- eval env b; Ok (pow u v)
  | ENeg a => do u <- eval env a; Ok (neg u)
  | ENpExp a => do u <- eval env a; Ok (exp u)
  | EWeibull x b e =>
      do u <- eval env x; do v <- eval env b; do w <- eval env e;
      Ok (weibull u v w)
  end.

(** Calling the lambda with positional arguments. *)
Definition call (f : lambda) (args : list num) : result num :=
  if Nat.eqb (List.length args) (List.length (lam_params f))
  then eval (combine (lam_params f) args) (lam_body f)
  else Raise TypeError.

(** [mixed_func] called with [x] followed by the entries of [fitted_params]. *)
Definition mixed_call (f : lambda) (x : num) (fitted_params : list num)
  : result num :=
  call f (x :: fitted_params).

Definition get_mixed_weibull (ncomp : value)
  : result (lambda * list (value * value) * list constraint * list value
            * list param) :=
  do n <- _check_ncomp ncomp;
  do func_params0 <- _get_params n;
  do func_params <- _sort_params_by_location_in_place func_params0;
  do mixed <- _get_lambda n func_params;
  let bounds := _get_bounds func_params in
  let constrains := _get_constrains n in
  let defaults := _get_defaults func_params in
  Ok (mixed, bounds, constrains, defaults, func_params).

(** ** Decoding a fitted vector *)

Definition weibull_mean (beta eta : num) : num :=
  mul eta (gamma (add (div (of_Z 1) beta) (of_Z 1))).

(** [processed[comp_index][slot] = v] *)
Definition set_slot (processed : list (list value)) (comp_index : Z)
  (slot : Z) (v : value) : result (list (list value)) :=
  do row <- Py.getitem processed comp_index;
  do row' <- Py.setitem row slot v;
  Py.setitem processed comp_index row'.

(** [a - b] with [b] a float. *)
Definition value_sub (a : value) (b : num) : result value :=
  match a with
  | VInt z => Ok (VFloat (sub (of_Z z) b))
  | VFloat u => Ok (VFloat (sub u b))
  | _ => Raise TypeError
  end.

(** The body of the loop over [func_params]. *)
Definition process_one (fitted_params : list num)
  (processed : list (list value)) (func_param : param)
  : result (list (list value)) :=
  let name := name func_param in
  if Py.startswith name "beta" then
    do n <- Py.int_of_str (Py.str_drop 4 name);
    do v <- Py.getitem fitted_params (location func_param);
    set_slot processed (n - 1) 0 (VFloat v)
  else if Py.startswith name "eta" then
    do n <- Py.int_of_str (Py.str_drop 3 name);
    do v <- Py.getitem fitted_params (location func_param);
    set_slot processed (n - 1) 1 (VFloat v)
  else if Py.startswith name "f" then
    do n <- Py.int_of_str (Py.str_drop 1 name);
    do v <- Py.getitem fitted_params (location func_param);
    do processed1 <- set_slot processed (n - 1) 2 (VFloat v);
    do last <- Py.getitem processed1 (-1);
    do w <- Py.getitem last 2;
    do v' <- Py.getitem fitted_params (location func_param);
    do w' <- value_sub w v';
    set_slot processed1 (-1) 2 w'
  else Raise ValueError.

Fixpoint process_loop (fitted_params : list num)
  (func_params : list param) (processed : list (list value))
  : result (list (list value)) :=
  match func_params with
  | [] => Ok processed
  | p :: r =>
      do processed' <- process_one fitted_params processed p;
      process_loop fitted_params r processed'
  end.

(** The sort key: [weibull_mean] applied to the entries of [element[:-1]]. *)
Definition mean_key (element : list value) : result num :=
  match Py.slice element None (Some (-1)) with
  | [VFloat beta; VFloat eta] => Ok (weibull_mean beta eta)
  | _ => Raise TypeError
  end.

Definition process_params (ncomp : Z) (func_params : list param)
  (fitted_params : list num) : result (list (list value)) :=
  if ncomp =? 1 then
    if Py.len fitted_params =? 2 then Ok [map VFloat fitted_params]
    else Raise AssertionError
  else if 1 <? ncomp then
    let processed := map (fun _ => [VNone; VNone; VInt 1]) (Py.range ncomp) in
    do processed' <- process_loop fitted_params func_params processed;
    Py.sort_by ltb mean_key processed'
  else Raise ValueError.

(** ** Reading decoded entries

    What follows is used to state what [process_params] returns. *)

(** The mean of a decoded entry, from its shape and scale. *)
Definition entry_mean (entry : list value) : option num :=
  match entry with
  | VFloat beta :: VFloat eta :: _ => Some (weibull_mean beta eta)
  | _ => None
  end.

(** [mean_le e1 e2]: both entries have a mean, and the mean of [e2] does not
    compare smaller than the mean of [e1]. *)
Definition mean_le (e1 e2 : list value) : Prop :=
  exists m1 m2,
    entry_mean e1 = Some m1 /\ entry_mean e2 = Some m2 /\ ltb m2 m1 = false.

(** The free fractions of a [k]-component vector: its entries from location
    [2k] on. *)
Definition fractions (k : nat) (fitted : list num) : list num :=
  skipn (2 * k) fitted.

(** The triple of component [i] (counted from [0]) of a [k]-component
    vector: shape and scale from locations [2i] and [2i+1]; the weight from
    location [2k+i], and for the last component [1 - f1 - ... - f(k-1)]. *)
Definition layout_triple (k : nat) (fitted : list num) (i : nat) : list value :=
  [ VFloat (nth (2 * i) fitted (of_Z 0));
    VFloat (nth (2 * i + 1) fitted (of_Z 0));
    VFloat (if (S i <? k)%nat then nth (2 * k + i) fitted (of_Z 0)
            else fold_left sub (fractions k fitted) (of_Z 1)) ].

(** The rows of [processed] while the shape and scale entries of the
    components below [j] have been stored. *)
Definition row_shape (fitted : list num) (j x : nat) : list value :=
  if (x <? j)%nat
  then [VFloat (nth (2 * x) fitted (of_Z 0));
        VFloat (nth (2 * x + 1) fitted (of_Z 0)); VInt 1]
  else [VNone; VNone; VInt 1].

(** The running weight of the last component after [j] fractions. *)
Definition running_weight (k : nat) (fitted : list num) (j : nat) : value :=
  match j with
  | O => VInt 1
  | S _ => VFloat (fold_left sub (firstn j (fractions k fitted)) (of_Z 1))
  end.

(** The rows of [processed] while the fractions below [j] have been
    stored. *)
Definition row_fraction (k : nat) (fitted : list num) (j x : nat)
  : list value :=
  [ VFloat (nth (2 * x) fitted (of_Z 0));
    VFloat (nth (2 * x + 1) fitted (of_Z 0));
    if (x <? j)%nat then VFloat (nth (2 * k + x) fitted (of_Z 0))
    else if (x =? k - 1)%nat then running_weight k fitted j
    else VInt 1 ].

(** ** The hand-written mixtures *)

(** [f*weibull(x, beta1, eta1) + (1-f)*weibull(x, beta2, eta2)] *)
Definition double_weibull (x beta1 eta1 beta2 eta2 f : num) : num :=
  add (mul f (weibull x beta1 eta1))
      (mul (sub (of_Z 1) f) (weibull x beta2 eta2)).

(** [f1*weibull(x, beta1, eta1) + f2*weibull(x, beta2, eta2)
     + (1-f1-f2)*weibull(x, beta3, eta3)] *)
Definition triple_weibull (x beta1 eta1 beta2 eta2 beta3 eta3 f1 f2 : num)
  : num :=
  add (add (mul f1 (weibull x beta1 eta1)) (mul f2 (weibull x beta2 eta2)))
      (mul (sub (sub (of_Z 1) f1) f2) (weibull x beta3 eta3)).

(** [f1*weibull(x, beta1, eta1) + f2*weibull(x, beta2, eta2)
     + f3*weibull(x, beta3, eta3) + (1-f1-f2-f3)*weibull(x, beta4, eta4)] *)
Definition quadruple_weibull
  (x beta1 eta1 beta2 eta2 beta3 eta3 beta4 eta4 f1 f2 f3 : num) : num :=
  add (add (add (mul f1 (weibull x beta1 eta1))
                (mul f2 (weibull x beta2 eta2)))
           (mul f3 (weibull x beta3 eta3)))
      (mul (sub (sub (sub (of_Z 1) f1) f2) f3) (weibull x beta4 eta4)).

(** ** Reading a layout and a decoded list

    What follows is used to state what the optimizer is handed and what
    [process_params] returns. *)

(** The weight of a decoded entry: its third slot. *)
Definition entry_weight (entry : list value) : option num :=
  match entry with
  | [_; _; VFloat w] => Some w
  | [_; _; VInt z] => Some (of_Z z)
  | _ => None
  end.

(** The initial guess as the float vector the optimizer starts from
    ([np.asarray(x0)] on a list of ints and floats). *)
Definition as_floats (l : list value) : result (list num) :=
  mapM (fun v => match v with
                 | VInt z => Ok (of_Z z)
                 | VFloat x => Ok x
                 | _ => Raise TypeError
                 end) l.

(** One side of a bounds pair: [None] is no bound. *)
Definition bound_of (v : value) : option num :=
  match v with
  | VInt z => Some (of_Z z)
  | VFloat x => Some x
  | _ => None
  end.

(** [a <= b] on floats. *)
Definition leb (a b : num) : bool := ltb a b || eqb a b.

(** [lo <= v <= hi] for a bounds pair [(lo, hi)]. *)
Definition within (b : value * value) (v : num) : bool :=
  match bound_of (fst b) with Some lo => leb lo v | None => true end
  && match bound_of (snd b) with Some hi => leb v hi | None => true end.

(** ** The decoded sum of the specification

    The specification compares the value of the mixture function with the
    sum, over the entries [process_params] returns and in their order, of
    [weight * weibull(x, shape, scale)].  The entry of a one-component
    result is the pair [(shape, scale)]: its weight is the implicit [1] and
    its term [weibull(x, shape, scale)]. *)
Definition decoded_term (x : num) (entry : list value) : result num :=
  match entry with
  | [VFloat beta; VFloat eta] => Ok (weibull x beta eta)
  | [VFloat beta; VFloat eta; VFloat w] => Ok (mul w (weibull x beta eta))
  | [VFloat beta; VFloat eta; VInt w] =>
      Ok (mul (of_Z w) (weibull x beta eta))
  | _ => Raise TypeError
  end.

(** The terms added up as [sum] adds: from [0], in list order. *)
Definition decoded_sum (x : num) (processed : list (list value))
  : result num :=
  do terms <- mapM (decoded_term x) processed;
  Ok (np_sum terms).

End Defs.

(** A three-component vector over the doubles: shapes [1.0], scales
    [1.0, 4.0, 2.0], fractions [0.1, 0.2]. *)
Definition rounding_vector : list (@num F64.model) :=
  map F64.rat [1; 1; 1; 4; 1; 2; 1 # 10; 2 # 10]%Q.

End algorithms.

(* ===================================================================== *)
(** * resolvers/resolver.py                                               *)
(* ===================================================================== *)

Module Resolver.

(** The functions a resolver stores in its attributes. *)
Inductive mixed_builder : Type :=
| get_mixed_weibull_ref.

Inductive kernel_function : Type :=
| weibull_ref
| weibull_mean_ref
| weibull_median_ref
| weibull_mode_ref
| weibull_variance_ref
| weibull_std_deviation_ref
| weibull_skewness_ref
| weibull_kurtosis_ref.

Section Defs.

Context {A : arith}.

(** The attributes of a [Resolver] instance once [__init__] has run. *)
Record t : Type := {
  distribution_type : DistributionType;
  ncomp : Z;
  get_mixed_func : mixed_builder;
  single_func : kernel_function;
  mean_func : kernel_function;
  median_func : kernel_function;
  mode_func : kernel_function;
  variance_func : kernel_function;
  std_deviation_func : kernel_function;
  skewness_func : kernel_function;
  kurtosis_func : kernel_function;
  mixed_func : algorithms.lambda;
  bounds : list (value * value);
  constrains : list algorithms.constraint;
  defaults : list value;
  params : list algorithms.param;
  initial_guess : list value;
  global_optimization_maxiter : value;
  global_optimization_success_iter : value;
  final_tolerance : value;
  final_maxiter : value;
  minimizer_tolerance : value;
  minimizer_maxiter : value;
  real_x : option (list num);
  y_data : option (list num);
  start_index : option Z;
  end_index : option Z;
  x_to_fit : option (list Z);
  y_to_fit : option (list num)
}.

(** A method: it returns or raises, and leaves the instance in some state
    either way. *)
Definition method (T : Type) : Type := t -> result T * t.

Definition with_ncomp (r : t) (n : Z) : t :=
  {| distribution_type := distribution_type r; ncomp := n;
     get_mixed_func := get_mixed_func r; single_func := single_func r;
     mean_func := mean_func r; median_func := median_func r;
     mode_func := mode_func r; variance_func := variance_func r;
     std_deviation_func := std_deviation_func r;
     skewness_func := skewness_func r; kurtosis_func := kurtosis_func r;
     mixed_func := mixed_func r; bounds := bounds r;
     constrains := constrains r; defaults := defaults r; params := params r;
     initial_guess := initial_guess r;
     global_optimization_maxiter := global_optimization_maxiter r;
     global_optimization_success_iter := global_optimization_success_iter r;
     final_tolerance := final_tolerance r; final_maxiter := final_maxiter r;
     minimizer_tolerance := minimizer_tolerance r;
     minimizer_maxiter := minimizer_maxiter r;
     real_x := real_x r; y_data := y_data r; start_index := start_index r;
     end_index := end_index r; x_to_fit := x_to_fit r; y_to_fit := y_to_fit r |}.

Definition with_distribution_type (r : t) (d : DistributionType) : t :=
  {| distribution_type := d; ncomp := ncomp r;
     get_mixed_func := get_mixed_func r; single_func := single_func r;
     mean_func := mean_func r; median_func := median_func r;
     mode_func := mode_func r; variance_func := variance_func r;
     std_deviation_func := std_deviation_func r;
     skewness_func := skewness_func r; kurtosis_func := kurtosis_func r;
     mixed_func := mixed_func r; bounds := bounds r;
     constrains := constrains r; defaults := defaults r; params := params r;
     initial_guess := initial_guess r;
     global_optimization_maxiter := global_optimization_maxiter r;
     global_optimization_success_iter := global_optimization_success_iter r;
     final_tolerance := final_tolerance r; final_maxiter := final_maxiter r;
     minimizer_tolerance := minimizer_tolerance r;
     minimizer_maxiter := minimizer_maxiter r;
     real_x := real_x r; y_data := y_data r; start_index := start_index r;
     end_index := end_index r; x_to_fit := x_to_fit r; y_to_fit := y_to_fit r |}.

Definition with_weibull_functions (r : t) : t :=
  {| distribution_type := distribution_type r; ncomp := ncomp r;
     get_mixed_func := get_mixed_weibull_ref; single_func := weibull_ref;
     mean_func := weibull_mean_ref; median_func := weibull_median_ref;
     mode_func := weibull_mode_ref; variance_func := weibull_variance_ref;
     std_deviation_func := weibull_std_deviation_ref;
     skewness_func := weibull_skewness_ref;
     kurtosis_func := weibull_kurtosis_ref;
     mixed_func := mixed_func r; bounds := bounds r;
     constrains := constrains r; defaults := defaults r; params := params r;
     initial_guess := initial_guess r;
     global_optimization_maxiter := global_optimization_maxiter r;
     global_optimization_success_iter := global_optimization_success_iter r;
     final_tolerance := final_tolerance r; final_maxiter := final_maxiter r;
     minimizer_tolerance := minimizer_tolerance r;
     minimizer_maxiter := minimizer_maxiter r;
     real_x := real_x r; y_data := y_data r; start_index := start_index r;
     end_index := end_index r; x_to_fit := x_to_fit r; y_to_fit := y_to_fit r |}.

Definition with_layout (r : t) (f : algorithms.lambda)
  (b : list (value * value)) (c : list algorithms.constraint)
  (d : list value) (p : list algorithms.param) : t :=
  {| distribution_type := distribution_type r; ncomp := ncomp r;
     get_mixed_func := get_mixed_func r; single_func := single_func r;
     mean_func := mean_func r; median_func := median_func r;
     mode_func := mode_func r; variance_func := variance_func r;
     std_deviation_func := std_deviation_func r;
     skewness_func := skewness_func r; kurtosis_func := kurtosis_func r;
     mixed_func := f; bounds := b; constrains := c; defaults := d;
     params := p; initial_guess := d;
     global_optimization_maxiter := global_optimization_maxiter r;
     global_optimization_success_iter := global_optimization_success_iter r;
     final_tolerance := final_tolerance r; final_maxiter := final_maxiter r;
     minimizer_tolerance := minimizer_tolerance r;
     minimizer_maxiter := minimizer_maxiter r;
     real_x := real_x r; y_data := y_data r; start_index := start_index r;
     end_index := end_index r; x_to_fit := x_to_fit r; y_to_fit := y_to_fit r |}.

Definition with_data (r : t) (x y : option (list num)) : t :=
  {| distribution_type := distribution_type r; ncomp := ncomp r;
     get_mixed_func := get_mixed_func r; single_func := single_func r;
     mean_func := mean_func r; median_func := median_func r;
     mode_func := mode_func r; variance_func := variance_func r;
     std_deviation_func := std_deviation_func r;
     skewness_func := skewness_func r; kurtosis_func := kurtosis_func r;
     mixed_func := mixed_func r; bounds := bounds r;
     constrains := constrains r; defaults := defaults r; params := params r;
     initial_guess := initial_guess r;
     global_optimization_maxiter := global_optimization_maxiter r;
     global_optimization_success_iter := global_optimization_success_iter r;
     final_tolerance := final_tolerance r; final_maxiter := final_maxiter r;
     minimizer_tolerance := minimizer_tolerance r;
     minimizer_maxiter := minimizer_maxiter r;
     real_x := x; y_data := y; start_index := start_index r;
     end_index := end_index r; x_to_fit := x_to_fit r; y_to_fit := y_to_fit r |}.

Definition with_range (r : t) (s e : option Z) : t :=
  {| distribution_type := distribution_type r; ncomp := ncomp r;
     get_mixed_func := get_mixed_func r; single_func := single_func r;
     mean_func := mean_func r; median_func := median_func r;
     mode_func := mode_func r; variance_func := variance_func r;
     std_deviation_func := std_deviation_func r;
     skewness_func := skewness_func r; kurtosis_func := kurtosis_func r;
     mixed_func := mixed_func r; bounds := bounds r;
     constrains := constrains r; defaults := defaults r; params := params r;
     initial_guess := initial_guess r;
     global_optimization_maxiter := global_optimization_maxiter r;
     global_optimization_success_iter := global_optimization_success_iter r;
     final_tolerance := final_tolerance r; final_maxiter := final_maxiter r;
     minimizer_tolerance := minimizer_tolerance r;
     minimizer_maxiter := minimizer_maxiter r;
     real_x := real_x r; y_data := y_data r; start_index := s;
     end_index := e; x_to_fit := x_to_fit r; y_to_fit := y_to_fit r |}.

Definition with_window (r : t) (x : option (list Z)) (y : option (list num))
  : t :=
  {| distribution_type := distribution_type r; ncomp := ncomp r;
     get_mixed_func := get_mixed_func r; single_func := single_func r;
     mean_func := mean_func r; median_func := median_func r;
     mode_func := mode_func r; variance_func := variance_func r;
     std_deviation_func := std_deviation_func r;
     skewness_func := skewness_func r; kurtosis_func := kurtosis_func r;
     mixed_func := mixed_func r; bounds := bounds r;
     constrains := constrains r; defaults := defaults r; params := params r;
     initial_guess := initial_guess r;
     global_optimization_maxiter := global_optimization_maxiter r;
     global_optimization_success_iter := global_optimization_success_iter r;
     final_tolerance := final_tolerance r; final_maxiter := final_maxiter r;
     minimizer_tolerance := minimizer_tolerance r;
     minimizer_maxiter := minimizer_maxiter r;
     real_x := real_x r; y_data := y_data r; start_index := start_index r;
     end_index := end_index r; x_to_fit := x; y_to_fit := y |}.

(** ** Property setters and layout refresh *)

Definition refresh_by_ncomp : method unit := fun r =>
  match get_mixed_func r with
  | get_mixed_weibull_ref =>
      match algorithms.get_mixed_weibull (VInt (ncomp r)) with
      | Ok (f, b, c, d, p) => (Ok tt, with_layout r f b c d p)
      | Raise e => (Raise e, r)
      end
  end.

Definition refresh_by_distribution_type : method unit := fun r =>
  match distribution_type r with
  | Weibull => (Ok tt, with_weibull_functions r)
  | _ => (Raise NotImplementedError, r)
  end.

Definition distribution_type_setter (v : value) : method unit := fun r =>
  match v with
  | VDist d => refresh_by_distribution_type (with_distribution_type r d)
  | _ => (Ok tt, r)
  end.

Definition ncomp_setter (v : value) : method unit := fun r =>
  match v with
  | VInt n => if n <=? 1 then (Ok tt, r)
              else refresh_by_ncomp (with_ncomp r n)
  | _ => (Ok tt, r)
  end.

(** ** Data intake *)

Fixpoint find_from (p : num -> bool) (l : list num) (i : Z) : option Z :=
  match l with
  | [] => None
  | v :: r => if p v then Some i else find_from p r (i + 1)
  end.

Definition get_valid_data_range (y_data : list num) : Z * Z :=
  let start_index :=
    match find_from (fun v => ltb (of_Q 0) v) y_data 0 with
    | Some i => i
    | None => 0
    end in
  let end_index :=
    match find_from (fun v => eqb v (of_Q 0))
                    (Py.slice y_data (Some (start_index + 1)) None)
                    (start_index + 1) with
    | Some i => i
    | None => -1
    end in
  (start_index, end_index).

Definition validate_data (x y : value) : result unit :=
  match x, y with
  | VNone, _ => Raise (DataInvalidError ["`x` is `None`."])
  | _, VNone => Raise (DataInvalidError ["`y` is `None`."])
  | VArray xs, VArray ys =>
      if negb (Py.len xs =? Py.len ys)
      then Raise (DataInvalidError ["The lengths of `x` and `y` are not equal."])
      else if existsb isnan xs
      then Raise (DataInvalidError ["There is `nan` in `x`."])
      else if existsb isnan ys
      then Raise (DataInvalidError ["There is `nan` in `y`."])
      else Ok tt
  | VArray _, _ => Raise (DataInvalidError ["Type of `y` is not `numpy.ndarray`."])
  | _, _ => Raise (DataInvalidError ["Type of `x` is not `numpy.ndarray`."])
  end.

(** Attribute lookup on an exception instance.  [BaseException.__init__]
    stores the constructor arguments as [args]; [DataInvalidError.__init__]
    only forwards to it, so the instance has no other data attribute and
    any other name raises [AttributeError]. *)
Definition exn_getattr (e : exn) (attr : string) : result value :=
  match e with
  | DataInvalidError args =>
      if String.eqb attr "args" then Ok (VStrTuple args)
      else Raise AttributeError
  | _ => if String.eqb attr "args" then Ok (VStrTuple [])
         else Raise AttributeError
  end.

Definition preprocess_data : method unit := fun r =>
  match y_data r with
  | None => (Raise TypeError, r)
  | Some y =>
      let (s, e) := get_valid_data_range y in
      let r1 := with_range r (Some s) (Some e) in
      match distribution_type r1 with
      | Weibull =>
          (Ok tt,
           with_window r1 (Some (map (fun i => i + 1) (Py.range (e - s))))
                          (Some (Py.slice y (Some s) (Some e))))
      | _ => (Raise NotImplementedError, r1)
      end
  end.

(** The overridable hooks; the base class leaves both empty. *)
Variable on_data_invalid : value -> value -> value -> method unit.
Variable on_data_fed : method unit.

Definition array_of (v : value) : option (list num) :=
  match v with
  | VArray a => Some a
  | _ => None
  end.

Definition feed_data (x y : value) : method unit := fun r =>
  match validate_data x y with
  | Raise (DataInvalidError args) =>
      match exn_getattr (DataInvalidError args) "message" with
      | Ok message => 
          match on_data_invalid x y message r with
          | (Ok _, r') => (Ok tt, r')
          | (Raise e, r') => (Raise e, r')
          end
      | Raise e => (Raise e, r)
      end
  | Raise e => (Raise e, r)
  | Ok _ =>
      let r1 := with_data r (array_of x) (array_of y) in
      match preprocess_data r1 with
      | (Ok _, r2) => on_data_fed r2
      | (Raise e, r2) => (Raise e, r2)
      end
  end.

(** ** Error measures and the objective of the fit *)

(** [np.sum(np.square(values - targets))] *)
Definition get_squared_sum_of_residual_errors (values targets : list num)
  : result num :=
  do d <- np_binary sub values targets;
  Ok (np_sum (np_square d)).

(** [np.mean(np.square(values - targets))] *)
Definition get_mean_squared_errors (values targets : list num)
  : result num :=
  do d <- np_binary sub values targets;
  Ok (np_mean (np_square d)).

(** [mixed_func(x, *args)] with [x] an array: the argument count is checked
    once, and every operation of the body acts entry by entry, so the result
    has one value for each entry of [x]. *)
Definition mixed_call_array (f : algorithms.lambda) (xs : list num)
  (args : list num) : result (list num) :=
  if Nat.eqb (S (List.length args)) (List.length (algorithms.lam_params f))
  then mapM (fun x => algorithms.mixed_call f x args) xs
  else Raise TypeError.

(** The function [closure] that [try_fit] hands to the optimizers:
    [get_squared_sum_of_residual_errors(mixed_func(x_to_fit, *args),
    y_to_fit)*100]. *)
Definition closure (r : t) (args : list num) : result num :=
  match x_to_fit r, y_to_fit r with
  | Some xs, Some ys =>
      do current_values <- mixed_call_array (mixed_func r) (map of_Z xs) args;
      do errors <- get_squared_sum_of_residual_errors current_values ys;
      Ok (mul errors (of_Z 100))
  | _, _ => Raise TypeError
  end.

(** The layout attributes are in step with the component count: they are
    what [get_mixed_func] builds for [ncomp], the initial guess is the
    default vector, and there are at least two components. *)
Definition layout_in_step (r : t) : Prop :=
  algorithms.get_mixed_weibull (VInt (ncomp r))
  = Ok (mixed_func r, bounds r, constrains r, defaults r, params r)
  /\ initial_guess r = defaults r
  /\ 2 <= ncomp r.

End Defs.

(** The hooks as the base class defines them: [pass]. *)
Definition on_data_invalid {A : arith} (x y message : value) : method unit :=
  fun r => (Ok tt, r).

Definition on_data_fed {A : arith} : method unit := fun r => (Ok tt, r).

(** ** The fit

    [scipy.optimize] is taken as given: [basinhopping] and [minimize] are
    functions of the arguments [try_fit] passes them (the objective, the
    start vector, the bounds, the constraints and the iteration and
    tolerance settings), and [result_x] reads the attribute [x] of what they
    return.  The iteration callbacks are the hooks of the base class, which
    do nothing. *)
Section Fit.

Context {A : arith}.

Variable optimize_result : Type.
Variable result_x : optimize_result -> list num.

(** [dict(method="SLSQP", bounds=..., constraints=..., options={"maxiter":
    ..., "ftol": ...})] *)
Record minimizer_kwargs : Type := {
  kw_method : string;
  kw_bounds : list (value * value);
  kw_constraints : list algorithms.constraint;
  kw_maxiter : value;
  kw_ftol : value
}.

Variable basinhopping :
  (list num -> result num) -> list value -> minimizer_kwargs ->
  value -> value -> result optimize_result.

(** [minimize(fun, method=..., x0=..., bounds=..., constraints=...,
    options={"maxiter": ..., "ftol": ...})] *)
Variable minimize :
  (list num -> result num) -> string -> list num -> list (value * value) ->
  list algorithms.constraint -> value -> value -> result optimize_result.

(** [try_fit]: [None] stands for the bare [return]. *)
Definition try_fit : method (option optimize_result) := fun r =>
  match x_to_fit r, y_to_fit r with
  | Some _, Some _ =>
      let minimizer_kwargs :=
        {| kw_method := "SLSQP"; kw_bounds := bounds r;
           kw_constraints := constrains r;
           kw_maxiter := minimizer_maxiter r;
           kw_ftol := minimizer_tolerance r |} in
      match basinhopping (closure r) (initial_guess r) minimizer_kwargs
                         (global_optimization_success_iter r)
                         (global_optimization_maxiter r) with
      | Ok global_fitted_result =>
          match minimize (closure r) "SLSQP" (result_x global_fitted_result)
                  (bounds r) (constrains r) (final_maxiter r)
                  (final_tolerance r) with
          | Ok fitted_result => (Ok (Some fitted_result), r)
          | Raise e => (Raise e, r)
          end
      | Raise e => (Raise e, r)
      end
  | _, _ => (Ok None, r)
  end.

End Fit.

(** Two distribution vectors over the rational instance: the one the
    specification gives as an example, and one without any zero. *)
Definition example_distribution : list (@num QN.model) :=
  map QN.rat [0; 0; 0; 2; 5; 3; 0; 0; 1; 0]%Q.

Definition even_distribution : list (@num QN.model) :=
  map QN.rat [1 # 2; 1 # 2]%Q.

(** [Resolver()] with the default arguments of [__init__]. *)
Definition init {A : arith} : result t :=
  let r0 :=
    {| distribution_type := Weibull; ncomp := 2;
       get_mixed_func := get_mixed_weibull_ref; single_func := weibull_ref;
       mean_func := weibull_mean_ref; median_func := weibull_median_ref;
       mode_func := weibull_mode_ref; variance_func := weibull_variance_ref;
       std_deviation_func := weibull_std_deviation_ref;
       skewness_func := weibull_skewness_ref;
       kurtosis_func := weibull_kurtosis_ref;
       mixed_func := {| algorithms.lam_params := [];
                        algorithms.lam_body := algorithms.EInt 0 |};
       bounds := []; constrains := []; defaults := []; params := [];
       initial_guess := [];
       global_optimization_maxiter := VInt 100;
       global_optimization_success_iter := VInt 3;
       final_tolerance := VFloat algorithms.INFINITESIMAL;
       final_maxiter := VInt 1000;
       minimizer_tolerance := VFloat (of_Q (1 # 100000000));
       minimizer_maxiter := VInt 500;
       real_x := None; y_data := None; start_index := None;
       end_index := None; x_to_fit := None; y_to_fit := None |} in
  match refresh_by_distribution_type r0 with
  | (Ok _, r1) =>
      match refresh_by_ncomp r1 with
      | (Ok _, r2) => Ok r2
      | (Raise e, _) => Raise e
      end
  | (Raise e, _) => Raise e
  end.

End Resolver.

(* ===================================================================== *)
(** * QGrain/udm/_resolver.py                                             *)
(* ===================================================================== *)

Module UDMResolver.

Section Defs.

Context {A : arith}.

(** The fields of [UDMAlgorithmSetting] that [try_fit] reads in its two
    loops.  The class is declared outside the embedded sources. *)
Record UDMAlgorithmSetting : Type := {
  pretrain_epochs : Z;
  max_epochs : Z;
  min_epochs : Z;
  constraint_level : num;
  precision : num
}.

(** The torch side of [try_fit] is taken as given: [module_state] is the
    [UDMModule] together with its Adam optimizer, and the other fields are
    what one loop body computes from it.
    - [params_of]: [torch.cat([udm.components.params,
      udm.proportions.params], dim=1).detach().cpu().numpy()], a fresh array
      at every call;
    - [pretrain_distribution_loss], [pretrain_step]: in the pretrain body,
      [log10(mean(square(X - X_hat)))] as a Python float, and the state
      after [zero_grad(); backward(); step()] with the component parameters
      frozen;
    - [distribution_loss], [component_loss], [train_step]: in the main body,
      the two losses as Python floats and the state after one optimizer step
      on the total loss. *)
Class training : Type := {
  module_state : Type;
  snapshot : Type;
  params_of : module_state -> snapshot;
  pretrain_distribution_loss : module_state -> num;
  pretrain_step : module_state -> module_state;
  distribution_loss : module_state -> num;
  component_loss : module_state -> num;
  train_step : module_state -> module_state
}.

Context {M : training}.

(** The local variables both loops update. *)
Record fit_state : Type := {
  udm : module_state;
  distribution_loss_series : list num;
  component_loss_series : list num;
  history : list snapshot
}.

Definition pretrain_body (st : fit_state) : fit_state :=
  let udm' := pretrain_step (udm st) in
  {| udm := udm';
     distribution_loss_series :=
       distribution_loss_series st ++ [pretrain_distribution_loss (udm st)];
     component_loss_series := component_loss_series st ++ [of_Q 0];
     history := history st ++ [params_of udm'] |}.

Fixpoint pretrain_loop (n : nat) (st : fit_state) : fit_state :=
  match n with
  | O => st
  | S k => pretrain_loop k (pretrain_body st)
  end.

(** [10**s.constraint_level] and [10**(-s.precision)]. *)
Definition constraint_weight (s : UDMAlgorithmSetting) : num :=
  pow (of_Z 10) (constraint_level s).

Definition threshold (s : UDMAlgorithmSetting) : num :=
  pow (of_Z 10) (neg (precision s)).

Definition total_loss (s : UDMAlgorithmSetting) (m : module_state) : num :=
  add (distribution_loss m) (mul (constraint_weight s) (component_loss m)).

(** [np.mean(series[-100:-80]) - np.mean(series[-20:])] *)
Definition delta_loss (series : list num) : num :=
  sub (np_mean (Py.slice series (Some (-100)) (Some (-80))))
      (np_mean (Py.slice series (Some (-20)) None)).

Definition early_stop (s : UDMAlgorithmSetting) (epoch : Z)
  (series : list num) : bool :=
  if min_epochs s <? epoch then ltb (delta_loss series) (threshold s)
  else false.

(** How one pass through the main loop body ends. *)
Inductive outcome : Type :=
| Continue (st : fit_state)
| BreakNaN (st : fit_state)
| BreakEarly (st : fit_state).

(** What the main loop body records once the total loss is not NaN: the
    two losses of the current module, then the optimizer step, then the
    snapshot of the stepped module. *)
Definition train_update (s : UDMAlgorithmSetting) (st : fit_state)
  : fit_state :=
  let udm' := train_step (udm st) in
  {| udm := udm';
     distribution_loss_series :=
       distribution_loss_series st ++ [distribution_loss (udm st)];
     component_loss_series :=
       component_loss_series st
       ++ [mul (constraint_weight s) (component_loss (udm st))];
     history := history st ++ [params_of udm'] |}.

Definition train_body (s : UDMAlgorithmSetting) (epoch : Z) (st : fit_state)
  : outcome :=
  if isnan (total_loss s (udm st)) then BreakNaN st
  else
    let st' := train_update s st in
    if early_stop s epoch (distribution_loss_series st') then BreakEarly st'
    else Continue st'.

(** [for epoch in range(s.max_epochs)], started at [epoch] with [n] epochs
    left. *)
Fixpoint train_loop (s : UDMAlgorithmSetting) (n : nat) (epoch : Z)
  (st : fit_state) : fit_state :=
  match n with
  | O => st
  | S k =>
      match train_body s epoch st with
      | Continue st' => train_loop s k (epoch + 1) st'
      | BreakNaN st' => st'
      | BreakEarly st' => st'
      end
  end.

(** The fields of [UDMResult] that [try_fit] fills from its loops. *)
Record UDMResult : Type := {
  result_distribution_loss_series : list num;
  result_component_loss_series : list num;
  final_params : snapshot;
  result_history : list snapshot
}.

Definition initial_state (udm0 : module_state) : fit_state :=
  {| udm := udm0; distribution_loss_series := [];
     component_loss_series := []; history := [] |}.

Definition after_pretrain (s : UDMAlgorithmSetting) (udm0 : module_state)
  : fit_state :=
  pretrain_loop (Z.to_nat (pretrain_epochs s)) (initial_state udm0).

Definition final_state (s : UDMAlgorithmSetting) (udm0 : module_state)
  : fit_state :=
  train_loop s (Z.to_nat (max_epochs s)) 0 (after_pretrain s udm0).

(** [try_fit], from the freshly built module [udm0] on. *)
Definition try_fit (s : UDMAlgorithmSetting) (udm0 : module_state)
  : UDMResult :=
  let st := final_state s udm0 in
  {| result_distribution_loss_series := distribution_loss_series st;
     result_component_loss_series := component_loss_series st;
     final_params := params_of (udm st);
     result_history := history st |}.

(** Modelled from the spec: [UDMResult.n_iterations] is declared in
    [_result.py], which is not among the embedded sources.  The spec makes
    the result carry one loss entry and one snapshot per training iteration
    (pretrain iterations included) and a total iteration count; the count is
    taken as the number of recorded snapshots. *)
Definition n_iterations (r : UDMResult) : Z := Py.len (result_history r).

(** The state in which the main loop begins epoch [i], if it gets there. *)
Fixpoint state_at (s : UDMAlgorithmSetting) (i : nat) (st0 : fit_state)
  : option fit_state :=
  match i with
  | O => Some st0
  | S k =>
      match state_at s k st0 with
      | Some st =>
          match train_body s (Z.of_nat k) st with
          | Continue st' => Some st'
          | _ => None
          end
      | None => None
      end
  end.

(** [recorded step dl cl st0 n st]: [st] is [st0] after [n] more
    iterations, each of which appended the losses [dl], [cl] of the module
    it started from, stepped the module with [step] and appended the
    snapshot of the stepped module -- in iteration order. *)
Definition recorded (step : module_state -> module_state)
  (dl cl : module_state -> num) (st0 : fit_state) (n : nat) (st : fit_state)
  : Prop :=
  udm st = Nat.iter n step (udm st0)
  /\ distribution_loss_series st
     = distribution_loss_series st0
       ++ map (fun j => dl (Nat.iter j step (udm st0))) (seq 0 n)
  /\ component_loss_series st
     = component_loss_series st0
       ++ map (fun j => cl (Nat.iter j step (udm st0))) (seq 0 n)
  /\ history st
     = history st0
       ++ map (fun j => params_of (Nat.iter j step (udm st0))) (seq 1 n).

(** The module after [p] pretrain steps and [n] main steps. *)
Definition trajectory (udm0 : module_state) (p n : nat) : module_state :=
  Nat.iter n train_step (Nat.iter p pretrain_step udm0).

(** The distribution-loss series once [p] pretrain iterations and [n] main
    iterations have been recorded. *)
Definition series_after (udm0 : module_state) (p n : nat) : list num :=
  map (fun j => pretrain_distribution_loss (trajectory udm0 j 0)) (seq 0 p)
  ++ map (fun j => distribution_loss (trajectory udm0 p j)) (seq 0 n).

End Defs.

(** ** Two runnable trainings over the rational instance

    The module state is the number of optimizer steps taken so far and a
    snapshot is that number. *)

(** The reconstruction loss turns NaN once three steps have been taken. *)
Definition diverging : @training QN.model := {|
  module_state := nat;
  snapshot := nat;
  params_of := fun m => m;
  pretrain_distribution_loss := fun _ => QN.rat 1;
  pretrain_step := S;
  distribution_loss := fun m => if (3 <=? m)%nat then QN.nan else QN.rat (1 # 2);
  component_loss := fun _ => QN.rat 0;
  train_step := S
|}.

(** The reconstruction loss never moves. *)
Definition plateau : @training QN.model := {|
  module_state := nat;
  snapshot := nat;
  params_of := fun m => m;
  pretrain_distribution_loss := fun _ => QN.rat 5;
  pretrain_step := S;
  distribution_loss := fun _ => QN.rat (1 # 2);
  component_loss := fun _ => QN.rat 0;
  train_step := S
|}.

(** The freshly built module: no step taken. *)
Definition diverging_start : @module_state QN.model diverging := 0%nat.
Definition plateau_start : @module_state QN.model plateau := 0%nat.

Definition short_setting : @UDMAlgorithmSetting QN.model := {|
  pretrain_epochs := 1;
  max_epochs := 10;
  min_epochs := 5;
  constraint_level := QN.rat 0;
  precision := QN.rat 6
|}.

Definition long_setting : @UDMAlgorithmSetting QN.model := {|
  pretrain_epochs := 3;
  max_epochs := 500;
  min_epochs := 10;
  constraint_level := QN.rat 0;
  precision := QN.rat 6
|}.

(** A setting without pretrain phase whose floor is negative. *)
Definition negative_floor_setting : @UDMAlgorithmSetting QN.model := {|
  pretrain_epochs := 0;
  max_epochs := 500;
  min_epochs := -50;
  constraint_level := QN.rat 0;
  precision := QN.rat 6
|}.

End UDMResolver.

(* ===================================================================== *)
(** * Facts about the Python runtime model                                *)
(* ===================================================================== *)

Section SortFacts.

Variables (T K : Type).
Variable lt : K -> K -> bool.

Lemma insert_keyed_last (x : K * T) (l : list (K * T)) :
  Forall (fun y => Py.key_le lt y x) l ->
  Py.insert_keyed lt x l = l ++ [x].
Proof.
  induction 1 as [|y r Hy _ IH]; simpl.
  - reflexivity.
  - unfold Py.key_le in Hy. rewrite Hy, IH. reflexivity.
Qed.

Lemma fold_insert_ascending (l acc : list (K * T)) :
  StronglySorted (Py.key_le lt) (acc ++ l) ->
  fold_left (fun a x => Py.insert_keyed lt x a) l acc = acc ++ l.
Proof.
  revert acc. induction l as [|x l IH]; intros acc Hs; simpl.
  - now rewrite app_nil_r.
  - rewrite insert_keyed_last.
    + rewrite IH; rewrite <- app_assoc; simpl; auto.
    + clear IH. induction acc as [|a acc IHa]; constructor.
      * simpl in Hs. inversion Hs as [|? ? _ Hall]; subst.
        rewrite Forall_app in Hall. destruct Hall as [_ Hall].
        now inversion Hall.
      * apply IHa. simpl in Hs. now inversion Hs.
Qed.

(** Sorting a list that is already in ascending key order returns it. *)
Lemma sort_keyed_ascending (l : list (K * T)) :
  StronglySorted (Py.key_le lt) l -> Py.sort_keyed lt l = l.
Proof.
  intros Hs. unfold Py.sort_keyed. now rewrite fold_insert_ascending.
Qed.

Lemma insert_keyed_perm (x : K * T) (l : list (K * T)) :
  Permutation (Py.insert_keyed lt x l) (x :: l).
Proof.
  induction l as [|y r IH]; simpl.
  - apply Permutation_refl.
  - destruct (lt (fst x) (fst y)).
    + apply Permutation_refl.
    + eapply Permutation_trans; [apply perm_skip, IH | apply perm_swap].
Qed.

Lemma fold_insert_perm (l acc : list (K * T)) :
  Permutation (fold_left (fun a x => Py.insert_keyed lt x a) l acc) (acc ++ l).
Proof.
  revert acc. induction l as [|x l IH]; intros acc; simpl.
  - rewrite app_nil_r. apply Permutation_refl.
  - eapply Permutation_trans; [apply IH|].
    eapply Permutation_trans.
    + apply Permutation_app_tail, insert_keyed_perm.
    + simpl. apply Permutation_middle.
Qed.

Lemma sort_keyed_perm (l : list (K * T)) : Permutation (Py.sort_keyed lt l) l.
Proof. apply (fold_insert_perm l []). Qed.

(** The order laws under which the insertion order is a sorted order: [<]
    is asymmetric, and "not smaller" is transitive through every key that
    satisfies [ok] (for floats: every key that is not NaN). *)
Variable ok : K -> bool.
Hypothesis lt_asym : forall a b, lt a b = true -> lt b a = false.
Hypothesis le_trans : forall a b c,
  ok b = true -> lt b a = false -> lt c b = false -> lt c a = false.

Lemma insert_keyed_sorted (x : K * T) (l : list (K * T)) :
  Forall (fun y => ok (fst y) = true) l ->
  StronglySorted (Py.key_le lt) l ->
  StronglySorted (Py.key_le lt) (Py.insert_keyed lt x l).
Proof.
  intros Hok Hs. induction Hs as [|y r Hs IH Hall]; simpl.
  - repeat constructor.
  - inversion Hok as [|? ? Hy Hr]; subst.
    destruct (lt (fst x) (fst y)) eqn:E.
    + constructor; [now constructor|].
      constructor; [unfold Py.key_le; now apply lt_asym|].
      rewrite Forall_forall in Hall |- *. intros z Hz.
      unfold Py.key_le. apply le_trans with (b := fst y); auto.
      apply (Hall z Hz).
    + constructor; [now apply IH|].
      apply (Permutation_Forall (Permutation_sym (insert_keyed_perm x r))).
      constructor; auto.
Qed.

Lemma fold_insert_sorted (l acc : list (K * T)) :
  Forall (fun y => ok (fst y) = true) (acc ++ l) ->
  StronglySorted (Py.key_le lt) acc ->
  StronglySorted (Py.key_le lt) (fold_left (fun a x => Py.insert_keyed lt x a) l acc).
Proof.
  revert acc. induction l as [|x l IH]; intros acc Hok Hs; simpl; auto.
  apply IH.
  - assert (Hp : Permutation (x :: acc ++ l) (Py.insert_keyed lt x acc ++ l))
      by apply (Permutation_app_tail l (Permutation_sym (insert_keyed_perm x acc))).
    apply (Permutation_Forall Hp).
    + constructor.
      * rewrite Forall_app in Hok. destruct Hok as [_ Hx]. now inversion Hx.
      * rewrite Forall_app in Hok |- *. destruct Hok as [Ha Hx].
        split; auto. now inversion Hx.
  - apply insert_keyed_sorted; auto.
    rewrite Forall_app in Hok. tauto.
Qed.

Lemma sort_keyed_sorted (l : list (K * T)) :
  Forall (fun y => ok (fst y) = true) l ->
  StronglySorted (Py.key_le lt) (Py.sort_keyed lt l).
Proof.
  intros Hok. apply fold_insert_sorted; [exact Hok | constructor].
Qed.

End SortFacts.

Section ResultFacts.

Variables (T U : Type).

Lemma mapM_pure (g : T -> U) (l : list T) :
  mapM (fun x => Ok (g x)) l = Ok (map g l).
Proof.
  induction l as [|x r IH]; simpl; [reflexivity|]. now rewrite IH.
Qed.

Lemma mapM_length (f : T -> result U) (l : list T) (ks : list U) :
  mapM f l = Ok ks -> List.length ks = List.length l.
Proof.
  revert ks. induction l as [|x r IH]; simpl; intros ks H.
  - injection H as <-. reflexivity.
  - destruct (f x); simpl in H; [|discriminate].
    destruct (mapM f r); simpl in H; [|discriminate].
    injection H as <-. simpl. f_equal. now apply IH.
Qed.

Lemma mapM_ok_all (f : T -> result U) (g : T -> U) (l : list T) :
  Forall (fun x => f x = Ok (g x)) l -> mapM f l = Ok (map g l).
Proof.
  induction 1 as [|x r Hx _ IH]; simpl; [reflexivity|].
  now rewrite Hx, IH.
Qed.

End ResultFacts.

Section IndexFacts.

Variable T : Type.

Lemma getitem_nth (l : list T) (i : Z) (v : T) :
  0 <= i -> nth_error l (Z.to_nat i) = Some v -> Py.getitem l i = Ok v.
Proof.
  intros Hi Hn. unfold Py.getitem, Py.len.
  assert (Hlt : (Z.to_nat i < List.length l)%nat)
    by (apply nth_error_Some; congruence).
  destruct (Z.ltb_spec i 0); [lia|].
  destruct (Z.ltb_spec i 0); [lia|].
  destruct (Z.leb_spec (Z.of_nat (List.length l)) i); [lia|].
  simpl. now rewrite Hn.
Qed.

Lemma slice_all_from (l : list T) (a : Z) :
  0 <= a <= Py.len l ->
  Py.slice l (Some a) None = skipn (Z.to_nat a) l.
Proof.
  intros Ha. unfold Py.slice, Py.clamp, Py.len in *.
  destruct (Z.ltb_spec a 0); [lia|].
  rewrite Z.min_l by lia.
  apply firstn_all2. rewrite length_skipn. lia.
Qed.

Lemma slice_tail (l : list T) (m : Z) :
  0 < m <= Py.len l ->
  Py.slice l (Some (- m)) None = skipn (Z.to_nat (Py.len l - m)) l.
Proof.
  intros Hm. unfold Py.slice, Py.clamp, Py.len in *.
  destruct (Z.ltb_spec (- m) 0); [|lia].
  rewrite Z.max_l by lia.
  replace (- m + Z.of_nat (List.length l)) with (Z.of_nat (List.length l) - m) by lia.
  apply firstn_all2. rewrite length_skipn. lia.
Qed.

Lemma slice_between (l : list T) (a b : Z) :
  0 <= a -> a <= b -> b <= Py.len l ->
  Py.slice l (Some a) (Some b)
  = firstn (Z.to_nat (b - a)) (skipn (Z.to_nat a) l).
Proof.
  intros Ha Hab Hb. unfold Py.slice, Py.clamp, Py.len in *.
  destruct (Z.ltb_spec a 0); [lia|].
  destruct (Z.ltb_spec b 0); [lia|].
  now rewrite !Z.min_l by lia.
Qed.

End IndexFacts.

Section TextFacts.

(** Formatting an int and reading it back. *)
Lemma int_of_str_format (z : Z) : Py.int_of_str (Py.format_int z) = Ok z.
Proof.
  unfold Py.int_of_str, Py.format_int.
  rewrite NilZero.isi.
  - now rewrite DecimalZ.of_to.
  - destruct z; simpl; try discriminate.
    intros [= H]. now apply (DecimalPos.Unsigned.to_uint_nonnil p).
  - destruct z; simpl; try discriminate.
    intros [= H]. now apply (DecimalPos.Unsigned.to_uint_nonnil p).
Qed.

Lemma startswith_beta (s : string) : Py.startswith ("beta" ++ s) "beta" = true.
Proof. destruct s; reflexivity. Qed.

Lemma startswith_eta (s : string) : Py.startswith ("eta" ++ s) "eta" = true.
Proof. destruct s; reflexivity. Qed.

Lemma startswith_f (s : string) : Py.startswith ("f" ++ s) "f" = true.
Proof. destruct s; reflexivity. Qed.

Lemma eta_not_beta (s : string) : Py.startswith ("eta" ++ s) "beta" = false.
Proof. reflexivity. Qed.

Lemma f_not_beta (s : string) : Py.startswith ("f" ++ s) "beta" = false.
Proof. reflexivity. Qed.

Lemma f_not_eta (s : string) : Py.startswith ("f" ++ s) "eta" = false.
Proof. reflexivity. Qed.

End TextFacts.

Section UpdateFacts.

Variable T : Type.

Lemma getitem_in_range (l : list T) (i : nat) (d : T) :
  (i < List.length l)%nat -> Py.getitem l (Z.of_nat i) = Ok (nth i l d).
Proof.
  intros Hi. apply getitem_nth; [lia|].
  rewrite Nat2Z.id. now apply nth_error_nth'.
Qed.

Lemma nth_error_map_seq (g : nat -> T) (a n i : nat) :
  (i < n)%nat -> nth_error (map g (seq a n)) i = Some (g (a + i)%nat).
Proof.
  intros Hi. rewrite nth_error_map, nth_error_seq.
  destruct (Nat.ltb_spec i n); [reflexivity|lia].
Qed.

Lemma set_nth_map_seq (g : nat -> T) (a n i : nat) (v : T) :
  (i < n)%nat ->
  Py.set_nth i v (map g (seq a n))
  = map (fun x => if (x =? a + i)%nat then v else g x) (seq a n).
Proof.
  revert a i. induction n as [|n IH]; intros a i Hi; [lia|].
  destruct i as [|i]; cbn [seq map Py.set_nth].
  - rewrite Nat.add_0_r, Nat.eqb_refl. f_equal.
    apply map_ext_in. intros x Hx. apply in_seq in Hx.
    destruct (Nat.eqb_spec x a); [lia|reflexivity].
  - destruct (Nat.eqb_spec a (a + S i)); [lia|]. f_equal.
    rewrite IH by lia. apply map_ext. intros x.
    now replace (S a + i)%nat with (a + S i)%nat by lia.
Qed.

Lemma getitem_last (l : list T) :
  0 < Py.len l -> Py.getitem l (-1) = Py.getitem l (Py.len l - 1).
Proof.
  intros Hl. unfold Py.getitem. cbv zeta.
  change (-1 <? 0) with true. cbv iota.
  destruct (Z.ltb_spec (Py.len l - 1) 0); [lia|].
  now replace (-1 + Py.len l) with (Py.len l - 1) by lia.
Qed.

Lemma setitem_last (l : list T) (v : T) :
  0 < Py.len l -> Py.setitem l (-1) v = Py.setitem l (Py.len l - 1) v.
Proof.
  intros Hl. unfold Py.setitem. cbv zeta.
  change (-1 <? 0) with true. cbv iota.
  destruct (Z.ltb_spec (Py.len l - 1) 0); [lia|].
  now replace (-1 + Py.len l) with (Py.len l - 1) by lia.
Qed.

End UpdateFacts.

(* ===================================================================== *)
(** * The rational instance satisfies the laws assumed below              *)
(* ===================================================================== *)

Section RationalInstance.

Local Open Scope Q_scope.

Lemma QN_add_comm (a b : @num QN.model) : add a b = add b a.
Proof.
  destruct a as [[xn xd]|], b as [[yn yd]|]; try reflexivity.
  cbn. unfold Qplus. cbn. f_equal. f_equal; [ring|apply Pos.mul_comm].
Qed.

Lemma QN_add_assoc (a b c : @num QN.model) :
  add a (add b c) = add (add a b) c.
Proof.
  destruct a as [[xn xd]|], b as [[yn yd]|], c as [[zn zd]|]; try reflexivity.
  cbn. unfold Qplus. cbn. f_equal. f_equal.
  - rewrite !Pos2Z.inj_mul. ring.
  - apply Pos.mul_assoc.
Qed.

Lemma QN_add_0_l (a : @num QN.model) : add (of_Z 0) a = a.
Proof.
  destruct a as [[xn xd]|]; [|reflexivity].
  cbn. unfold Qplus. cbn. now rewrite Z.mul_1_r.
Qed.

Lemma qltb_spec (x y : Q) : QN.qltb (Some x) (Some y) = true <-> x < y.
Proof.
  cbn. rewrite negb_true_iff. split.
  - intros H. apply Qnot_le_lt. intros Hle.
    apply Qle_bool_iff in Hle. congruence.
  - intros H. destruct (Qle_bool y x) eqn:E; [|reflexivity].
    apply Qle_bool_iff in E. lra.
Qed.

Lemma qltb_false (x y : Q) : QN.qltb (Some x) (Some y) = false <-> y <= x.
Proof.
  cbn. rewrite negb_false_iff. apply Qle_bool_iff.
Qed.

Lemma QN_lt_asym (a b : @num QN.model) : ltb a b = true -> ltb b a = false.
Proof.
  destruct a as [x|], b as [y|]; try reflexivity; try discriminate.
  change (QN.qltb (Some x) (Some y) = true -> QN.qltb (Some y) (Some x) = false).
  rewrite qltb_spec, qltb_false. lra.
Qed.

Lemma QN_le_trans (a b c : @num QN.model) :
  isnan b = false -> ltb b a = false -> ltb c b = false -> ltb c a = false.
Proof.
  destruct b as [y|]; [|discriminate]. intros _.
  destruct a as [x|], c as [z|]; try reflexivity.
  change (QN.qltb (Some y) (Some x) = false ->
          QN.qltb (Some z) (Some y) = false ->
          QN.qltb (Some z) (Some x) = false).
  rewrite !qltb_false. lra.
Qed.

Lemma QN_mean_defined (beta eta : @num QN.model) :
  ltb (of_Q 0) beta = true -> ltb (of_Q 0) eta = true ->
  isnan (algorithms.weibull_mean beta eta) = false.
Proof.
  destruct beta as [b|], eta as [e|]; try discriminate.
  change (QN.qltb (Some 0) (Some b) = true ->
          QN.qltb (Some 0) (Some e) = true ->
          isnan (algorithms.weibull_mean (A := QN.model) (Some b) (Some e))
          = false).
  rewrite !qltb_spec. intros Hb He.
  unfold algorithms.weibull_mean. cbn [QN.model mul gamma add div of_Z of_Q].
  unfold QN.qdiv.
  destruct (Qeq_bool b 0) eqn:Eb.
  { apply Qeq_bool_iff in Eb. lra. }
  cbn [QN.lift2 QN.qgamma].
  assert (Hinv : 0 < / b) by now apply Qinv_lt_0_compat.
  assert (Hle : 1 <= Qred (inject_Z 1 / b) + inject_Z 1).
  { rewrite Qred_correct. unfold Qdiv.
    change (inject_Z 1) with 1. lra. }
  apply Qle_bool_iff in Hle. rewrite Hle. reflexivity.
Qed.

End RationalInstance.

(* ===================================================================== *)
(** * The parameter layout (algorithms.py)                                *)
(* ===================================================================== *)

Section LayoutFacts.

Context {A : arith}.

Import algorithms.

Lemma shape_scale_locations (n a : nat) :
  map location (flat_map shape_scale_pair (map Z.of_nat (seq a n)))
  = map Z.of_nat (seq (2 * a) (2 * n)).
Proof.
  revert a. induction n as [|n IH]; intros a; [reflexivity|].
  replace (2 * S n)%nat with (S (S (2 * n))) by lia.
  cbn [seq map flat_map app shape_scale_pair location].
  rewrite IH. replace (2 * S a)%nat with (S (S (2 * a))) by lia.
  f_equal; [lia|]. f_equal. lia.
Qed.

Lemma fraction_locations (k : Z) (n a : nat) :
  0 <= k ->
  map location (map (fraction_param k) (map Z.of_nat (seq a n)))
  = map Z.of_nat (seq (Z.to_nat (2 * k) + a) n).
Proof.
  intros Hk. revert a. induction n as [|n IH]; intros a; [reflexivity|].
  cbn [seq map fraction_param location]. rewrite IH.
  f_equal; [lia|]. f_equal. f_equal. lia.
Qed.

Lemma shape_scale_length (l : list Z) :
  List.length (flat_map shape_scale_pair l) = (2 * List.length l)%nat.
Proof.
  induction l as [|x r IH]; simpl; [reflexivity|]. rewrite IH. lia.
Qed.

Lemma range_length (n : Z) : List.length (Py.range n) = Z.to_nat n.
Proof. unfold Py.range. now rewrite length_map, length_seq. Qed.

(** The entries of a layout for [k > 1], as one list. *)
Lemma _get_params_many (k : Z) :
  1 < k ->
  _get_params k
  = Ok (flat_map shape_scale_pair (Py.range k)
        ++ map (fraction_param k) (Py.range (k - 1))).
Proof.
  intros Hk. unfold _get_params.
  destruct (Z.eqb_spec k 1); [lia|].
  destruct (Z.ltb_spec 1 k); [reflexivity|lia].
Qed.

Lemma _get_params_length (k : Z) (ps : list param) :
  _get_params k = Ok ps -> Py.len ps = 2 * k + Z.max (k - 1) 0.
Proof.
  unfold _get_params.
  destruct (Z.eqb_spec k 1) as [->|Hne].
  - intros [= <-]. reflexivity.
  - destruct (Z.ltb_spec 1 k); [|discriminate].
    intros [= <-]. unfold Py.len.
    rewrite length_app, shape_scale_length, length_map, !range_length. lia.
Qed.

Lemma _get_params_locations (k : Z) (ps : list param) :
  _get_params k = Ok ps -> map location ps = Py.range (Py.len ps).
Proof.
  intros H. rewrite (_get_params_length _ H). revert H. unfold _get_params.
  destruct (Z.eqb_spec k 1) as [->|Hne].
  - intros [= <-]. reflexivity.
  - destruct (Z.ltb_spec 1 k); [|discriminate].
    intros [= <-]. unfold Py.range.
    rewrite map_app, shape_scale_locations, fraction_locations by lia.
    rewrite <- map_app. f_equal.
    replace (Z.to_nat (2 * k + Z.max (k - 1) 0))
      with (2 * Z.to_nat k + Z.to_nat (k - 1))%nat by lia.
    rewrite seq_app. f_equal. f_equal. lia.
Qed.

Lemma keys_bounded_below (l : list param) (a b : nat) :
  (a <= b)%nat ->
  Forall (fun y : Z * param => Z.of_nat a <= fst y)
         (combine (map Z.of_nat (seq b (List.length l))) l).
Proof.
  revert b. induction l as [|x r IH]; intros b Hab; simpl; constructor.
  - simpl. lia.
  - apply IH. lia.
Qed.

Lemma combine_seq_ascending (l : list param) (a : nat) :
  StronglySorted (Py.key_le Z.ltb)
    (combine (map Z.of_nat (seq a (List.length l))) l).
Proof.
  revert a. induction l as [|x r IH]; intros a; simpl; constructor.
  - apply IH.
  - assert (Hb := @keys_bounded_below r (S a) (S a) (le_n _)).
    eapply Forall_impl; [|exact Hb].
    intros y Hy. unfold Py.key_le. simpl in *. apply Z.ltb_ge. lia.
Qed.

Lemma map_snd_combine (T U : Type) (ks : list T) (l : list U) :
  List.length ks = List.length l -> map snd (combine ks l) = l.
Proof.
  revert ks. induction l as [|x r IH]; intros [|k ks] H; simpl in *;
    try discriminate; auto.
  f_equal. apply IH. lia.
Qed.

(** The layout is built in location order, so the in-place sort leaves it
    as it is. *)
Lemma _get_params_sorted (k : Z) (ps : list param) :
  _get_params k = Ok ps -> _sort_params_by_location_in_place ps = Ok ps.
Proof.
  intros H. unfold _sort_params_by_location_in_place, Py.sort_by.
  rewrite mapM_pure. simpl.
  rewrite (_get_params_locations _ H). unfold Py.range, Py.len.
  rewrite Nat2Z.id, sort_keyed_ascending by apply combine_seq_ascending.
  now rewrite map_snd_combine by now rewrite length_map, length_seq.
Qed.

Lemma shape_scale_nth (n a j : nat) (rest : list param) :
  (j < n)%nat ->
  nth_error (flat_map shape_scale_pair (map Z.of_nat (seq a n)) ++ rest)
            (2 * j)
  = nth_error (shape_scale_pair (Z.of_nat (a + j))) 0
  /\ nth_error (flat_map shape_scale_pair (map Z.of_nat (seq a n)) ++ rest)
               (2 * j + 1)
     = nth_error (shape_scale_pair (Z.of_nat (a + j))) 1.
Proof.
  revert a j. induction n as [|n IH]; intros a j Hj; [lia|].
  destruct j as [|j].
  - rewrite Nat.add_0_r. split; reflexivity.
  - replace (2 * S j)%nat with (S (S (2 * j))) by lia.
    replace (a + S j)%nat with (S a + j)%nat by lia.
    cbn [seq map flat_map app shape_scale_pair Nat.add nth_error].
    apply (IH (S a) j). lia.
Qed.

Lemma fraction_nth (k : Z) (n j : nat) (front : list param) :
  (j < n)%nat ->
  nth_error (front ++ map (fraction_param k) (map Z.of_nat (seq 0 n)))
            (List.length front + j)
  = Some (fraction_param k (Z.of_nat j)).
Proof.
  intros Hj. rewrite nth_error_app2 by lia.
  replace (List.length front + j - List.length front)%nat with j by lia.
  rewrite map_map.
  rewrite (nth_error_map (fun x => fraction_param k (Z.of_nat x))).
  rewrite nth_error_seq.
  destruct (Nat.ltb_spec j n); [reflexivity|lia].
Qed.

(** For every positive count the builder returns, and what it returns is
    made of the layout of [_get_params] and the lambda of [_get_lambda]. *)
Lemma get_mixed_weibull_ok (k : Z) :
  1 <= k ->
  exists mixed ps,
    _get_params k = Ok ps /\ _get_lambda k ps = Ok mixed
    /\ get_mixed_weibull (VInt k)
       = Ok (mixed, map bounds ps, _get_constrains k, map default ps, ps).
Proof.
  intros Hk. unfold get_mixed_weibull, _check_ncomp.
  destruct (Z.leb_spec k 0); [lia|]. cbn [bind].
  unfold _get_params, _get_lambda.
  destruct (Z.eqb_spec k 1) as [->|Hne].
  - do 2 eexists. split; [reflexivity|]. split; reflexivity.
  - destruct (Z.ltb_spec 1 k); [|lia].
    do 2 eexists. split; [reflexivity|]. split; [reflexivity|].
    cbn [bind].
    rewrite (@_get_params_sorted k _); [reflexivity|].
    now apply _get_params_many.
Qed.

End LayoutFacts.

Section LayoutTheorem.

Context {A : arith}.

Import algorithms.

(** C1.  For every positive component count [k], [get_mixed_weibull]
    returns a layout of exactly [2k + max(k-1, 0)] entries whose locations
    are [0, 1, 2, ...] in list order.  For [k = 1] the entries are [beta] and
    [eta] and nothing else.  For [k > 1] entry [2i] is [beta(i+1)] and entry
    [2i+1] is [eta(i+1)] for each component, and entries [2k .. 3k-2] are the
    [k-1] fractions [f1 ..].  Every shape/scale entry has bounds
    [(INFINITESIMAL, None)] and default [1]; every fraction has bounds
    [(0, 1)] and default [1/k]; [INFINITESIMAL] is the literal [1e-100],
    which is positive.  The returned bounds and defaults are those of the
    entries, in the same order. *)
Theorem get_mixed_weibull_layout (k : Z) :
  1 <= k ->
  exists mixed params,
    get_mixed_weibull (VInt k)
    = Ok (mixed, map bounds params, _get_constrains k, map default params,
          params)
    /\ Py.len params = 2 * k + Z.max (k - 1) 0
    /\ map location params = Py.range (Py.len params)
    /\ (k = 1 ->
        params
        = [ {| name := "beta"; default := VInt 1; location := 0;
               bounds := (VFloat INFINITESIMAL, VNone) |};
            {| name := "eta"; default := VInt 1; location := 1;
               bounds := (VFloat INFINITESIMAL, VNone) |} ])
    /\ (1 < k ->
        (forall i, 0 <= i < k ->
           Py.getitem params (2 * i)
           = Ok {| name := "beta" ++ Py.format_int (i + 1);
                   default := VInt 1; location := 2 * i;
                   bounds := (VFloat INFINITESIMAL, VNone) |}
           /\ Py.getitem params (2 * i + 1)
              = Ok {| name := "eta" ++ Py.format_int (i + 1);
                      default := VInt 1; location := 2 * i + 1;
                      bounds := (VFloat INFINITESIMAL, VNone) |})
        /\ (forall i, 0 <= i < k - 1 ->
              Py.getitem params (2 * k + i)
              = Ok {| name := "f" ++ Py.format_int (i + 1);
                      default := VFloat (div (of_Z 1) (of_Z k));
                      location := 2 * k + i;
                      bounds := (VInt 0, VInt 1) |}))
    /\ INFINITESIMAL = of_Q INFINITESIMAL_literal
    /\ (0 < INFINITESIMAL_literal)%Q.
Proof.
  intros Hk.
  destruct (_get_params k) as [ps|e] eqn:Hps.
  2:{ exfalso. revert Hps. unfold _get_params.
      destruct (Z.eqb_spec k 1); [discriminate|].
      destruct (Z.ltb_spec 1 k); [discriminate|lia]. }
  assert (Hlam : exists mixed, _get_lambda k ps = Ok mixed).
  { unfold _get_lambda. destruct (Z.eqb_spec k 1); [eauto|].
    destruct (Z.ltb_spec 1 k); [eauto|lia]. }
  destruct Hlam as [mixed Hlam].
  exists mixed, ps. split; [|split; [|split; [|split; [|split; [|split]]]]].
  - unfold get_mixed_weibull, _check_ncomp.
    destruct (Z.leb_spec k 0); [lia|]. simpl.
    rewrite Hps. simpl. rewrite (_get_params_sorted _ Hps). simpl.
    rewrite Hlam. reflexivity.
  - apply (_get_params_length _ Hps).
  - apply (_get_params_locations _ Hps).
  - intros ->. now injection Hps as <-.
  - intros Hk1. rewrite (_get_params_many Hk1) in Hps. injection Hps as <-.
    split.
    + intros i Hi.
      destruct (@shape_scale_nth A (Z.to_nat k) 0%nat (Z.to_nat i)
                  (map (fraction_param k) (Py.range (k - 1)))) as [Hb He];
        [lia|].
      rewrite Nat.add_0_l, Z2Nat.id in Hb, He by lia.
      split; apply getitem_nth; try lia.
      * replace (Z.to_nat (2 * i)) with (2 * Z.to_nat i)%nat by lia.
        unfold Py.range in *. rewrite Hb.
        unfold shape_scale_pair. cbn [nth_error]. do 2 f_equal. lia.
      * replace (Z.to_nat (2 * i + 1)) with (2 * Z.to_nat i + 1)%nat by lia.
        unfold Py.range in *. rewrite He.
        unfold shape_scale_pair. cbn [nth_error]. do 2 f_equal. lia.
    + intros i Hi. apply getitem_nth; [lia|].
      replace (Z.to_nat (2 * k + i))
        with (List.length (flat_map shape_scale_pair (Py.range k))
              + Z.to_nat i)%nat
        by (rewrite shape_scale_length, range_length; lia).
      unfold Py.range at 2. rewrite fraction_nth by lia.
      unfold fraction_param. rewrite Z2Nat.id by lia.
      do 2 f_equal. lia.
  - reflexivity.
  - reflexivity.
Qed.

End LayoutTheorem.

(** The theorem at [k = 3], in the rational instance. *)
Lemma get_mixed_weibull_layout_witness :
  1 <= 3
  /\ exists mixed params,
       algorithms.get_mixed_weibull (A := QN.model) (VInt 3)
       = Ok (mixed, map algorithms.bounds params,
             algorithms._get_constrains 3,
             map algorithms.default params, params)
       /\ Py.len params = 8.
Proof.
  assert (H : 1 <= 3) by lia.
  split; [exact H|].
  destruct (get_mixed_weibull_layout (A := QN.model) H)
    as (mixed & params & H1 & H2 & _).
  exists mixed, params. split; [exact H1 | exact H2].
Defined.

(* ===================================================================== *)
(** * The lambda's text and its tree                                      *)
(* ===================================================================== *)

Section TextOfLambda.

Context {A : arith}.

Import algorithms.

Local Open Scope string_scope.

Lemma str_app_assoc (a b c : string) : (a ++ b) ++ c = a ++ (b ++ c).
Proof. induction a as [|ch a IH]; cbn; [reflexivity|]. now rewrite IH. Qed.

Lemma concat_head (sep a y : string) (l : list string) :
  String.concat sep ((a ++ sep ++ y) :: l)
  = a ++ sep ++ String.concat sep (y :: l).
Proof.
  destruct l as [|z l]; cbn [String.concat]; [reflexivity|].
  now rewrite !str_app_assoc.
Qed.

Lemma fold_join (sep : string) (l : list string) (s0 : string) :
  fold_left (fun acc t => acc ++ sep ++ t) l s0 = String.concat sep (s0 :: l).
Proof.
  revert s0. induction l as [|y l IH]; intros s0; [reflexivity|].
  cbn [fold_left]. rewrite IH. apply concat_head.
Qed.

Lemma unparse_fold_add (r : list expr) (t0 : expr) :
  unparse 0 (fold_left EAdd r t0)
  = fold_left (fun acc t => acc ++ " + " ++ t) (map (unparse 1) r)
              (unparse 0 t0).
Proof.
  revert t0. induction r as [|t r IH]; intros t0; [reflexivity|].
  cbn [fold_left map]. now rewrite IH.
Qed.

Lemma unparse_fold_sub (idx : list Z) (t0 : expr) :
  unparse 0 (fold_left (fun acc i => ESub acc (EName (fraction_name i)))
                       idx t0)
  = fold_left (fun acc t => acc ++ "-" ++ t) (map fraction_name idx)
              (unparse 0 t0).
Proof.
  revert t0. induction idx as [|i idx IH]; intros t0; [reflexivity|].
  cbn [fold_left map]. now rewrite IH.
Qed.

Lemma unparse_term (level : nat) (i : Z) :
  (level <= 1)%nat ->
  unparse level (EMul (EName ("f" ++ Py.format_int (i + 1)))
                      (weibull_call (i + 1)))
  = term_string i.
Proof.
  intros Hl. unfold term_string, weibull_call. cbn [unparse].
  unfold wrap. destruct (Nat.ltb_spec 1 level); [lia|].
  rewrite !str_app_assoc. reflexivity.
Qed.

Lemma unparse_parenthesised (idx : list Z) (t0 : expr) (i : Z) :
  unparse 1 (fold_left (fun acc j => ESub acc (EName (fraction_name j)))
                       idx (ESub t0 (EName (fraction_name i))))
  = "(" ++ unparse 0 (fold_left (fun acc j => ESub acc
                                   (EName (fraction_name j)))
                                idx (ESub t0 (EName (fraction_name i))))
        ++ ")".
Proof.
  revert t0 i. induction idx as [|j idx IH]; intros t0 i; [reflexivity|].
  cbn [fold_left]. apply IH.
Qed.

Lemma range_nonempty (k : Z) : 1 < k -> Py.range (k - 1) <> [].
Proof.
  intros Hk E. apply (f_equal (@List.length Z)) in E.
  rewrite range_length in E. cbn [List.length] in E. lia.
Qed.

Lemma unparse_last_term (k : Z) :
  1 < k ->
  unparse 1 (EMul (last_fraction k) (weibull_call k)) = last_term_string k.
Proof.
  intros Hk. pose proof (range_nonempty Hk) as Hne.
  unfold last_term_string, weibull_call, last_fraction. cbn [unparse].
  change (fun acc i => ESub acc (EName ("f" ++ Py.format_int (i + 1))))
    with (fun acc i => ESub acc (EName (fraction_name i))).
  destruct (Py.range (k - 1)) as [|i idx]; [contradiction|].
  cbn [fold_left]. rewrite unparse_parenthesised, unparse_fold_sub, fold_join.
  cbn [unparse map]. unfold wrap, Py.join. cbn [Nat.ltb Nat.leb].
  change (Py.format_int 1) with "1".
  rewrite concat_head, !str_app_assoc. reflexivity.
Qed.

(** For two or more components the text built by [_get_lambda_string] is
    the text of the tree built by [_get_lambda]. *)
Theorem lambda_text_many (k : Z) (ps : list param) (f : lambda) :
  1 < k -> _get_lambda k ps = Ok f ->
  _get_lambda_string k ps = Ok (unparse_lambda f).
Proof.
  intros Hk. pose proof (range_nonempty Hk) as Hne.
  unfold _get_lambda, _get_lambda_string.
  destruct (Z.eqb_spec k 1); [lia|].
  destruct (Z.ltb_spec 1 k); [|lia].
  intros [= <-]. unfold unparse_lambda. cbn [lam_params lam_body].
  do 4 f_equal. unfold mixture_terms, Py.join.
  destruct (Py.range (k - 1)) as [|i idx]; [contradiction|].
  cbn [map app sum_of_terms].
  rewrite unparse_fold_add, fold_join, map_app, map_map. cbn [map].
  rewrite unparse_last_term, unparse_term by lia.
  f_equal.
Qed.

(** For one component the two texts differ in blanks only. *)
Theorem lambda_text_single (ps : list param) :
  exists f text,
    _get_lambda 1 ps = Ok f /\ _get_lambda_string 1 ps = Ok text
    /\ strip_blanks text = strip_blanks (unparse_lambda f).
Proof.
  do 2 eexists. split; [reflexivity|]. split; [reflexivity|].
  vm_compute. reflexivity.
Qed.

End TextOfLambda.

(** The text for three components, as Python builds it. *)
Example lambda_text_of_three :
  forall ps, algorithms._get_params (A := QN.model) 3 = Ok ps ->
  algorithms._get_lambda_string 3 ps
  = Ok "lambda x, beta1, eta1, beta2, eta2, beta3, eta3, f1, f2: f1*weibull(x, beta1, eta1) + f2*weibull(x, beta2, eta2) + (1-f1-f2)*weibull(x, beta3, eta3)".
Proof. intros ps [= <-]. reflexivity. Qed.

(* ===================================================================== *)
(** * The inequality constraint (algorithms.py)                           *)
(* ===================================================================== *)

Section ConstraintFacts.

Context {A : arith}.

Import algorithms.

(** For [k > 1] and a vector of the layout's length, the constraint is
    [1 - sum(fractions) + INFINITESIMAL], the fractions being the entries
    from location [2k] on. *)
Lemma constraint_many (k : Z) (args : list num) :
  1 < k -> Py.len args = 3 * k - 1 ->
  map (fun c => (ctype c, cfun c args)) (_get_constrains k)
  = [("ineq",
      add (sub (of_Z 1) (np_sum (skipn (Z.to_nat (2 * k)) args)))
          INFINITESIMAL)].
Proof.
  intros Hk Hlen. unfold _get_constrains. cbn [map ctype cfun].
  replace (1 - k) with (- (k - 1)) by lia.
  rewrite slice_tail by lia. rewrite Hlen.
  do 6 f_equal. lia.
Qed.

(** For [k = 1] the slice [args[0:]] is the whole vector: the constraint is
    [1 - (beta + eta) + INFINITESIMAL]. *)
Lemma constraint_single (beta eta : num) :
  map (fun c => cfun c [beta; eta]) (_get_constrains 1)
  = [add (sub (of_Z 1) (add (add (of_Z 0) beta) eta)) INFINITESIMAL].
Proof. reflexivity. Qed.

End ConstraintFacts.

(** C2 (at the failing input).  With one component the layout is
    [beta, eta]; at [beta = 2], [eta = 3], both inside their bounds
    [(INFINITESIMAL, None)], the returned constraint evaluates to
    [1 - (2 + 3) + 1e-100], which is negative: the constraint rejects a
    vector that the bounds admit. *)
Theorem constraint_single_component_rejects :
  map (fun c => algorithms.cfun c [QN.rat 2; QN.rat 3])
      (algorithms._get_constrains 1)
  = [QN.rat (1 - (0 + 2 + 3) + algorithms.INFINITESIMAL_literal)]
  /\ Forall (fun c => ltb (algorithms.cfun c [QN.rat 2; QN.rat 3])
                          (QN.rat 0) = true)
            (algorithms._get_constrains 1)
  /\ ltb algorithms.INFINITESIMAL (QN.rat 2) = true
  /\ ltb algorithms.INFINITESIMAL (QN.rat 3) = true.
Proof.
  split; [reflexivity|]. split; [|split]; try reflexivity.
  repeat constructor.
Qed.

(* ===================================================================== *)
(** * Decoding a fitted vector (algorithms.py)                            *)
(* ===================================================================== *)

Section DecodeFacts.

Context {A : arith}.

Import algorithms.

Variable k : nat.
Variable fitted : list num.

Hypothesis many : (2 <= k)%nat.
Hypothesis fitted_length : List.length fitted = (3 * k - 1)%nat.

Local Notation "'entry' i" := (nth i fitted (of_Z 0)) (at level 9, i at level 9).
Local Notation "'shaped'" := (row_shape fitted).
Local Notation "'weighted'" := (row_fraction k fitted).
Local Notation "'running'" := (running_weight k fitted).

Lemma set_slot_row (g : nat -> list value) (i slot : nat) (v : value) :
  (i < k)%nat -> (slot < List.length (g i))%nat ->
  set_slot (map g (seq 0 k)) (Z.of_nat i) (Z.of_nat slot) v
  = Ok (map (fun x => if (x =? i)%nat then Py.set_nth slot v (g i) else g x)
            (seq 0 k)).
Proof.
  intros Hi Hs. unfold set_slot.
  rewrite (@getitem_nth _ _ _ (g i)); [|lia|].
  2:{ rewrite Nat2Z.id. now rewrite nth_error_map_seq. }
  cbn [bind]. unfold Py.setitem at 1. unfold Py.len.
  destruct (Z.ltb_spec (Z.of_nat slot) 0); [lia|].
  destruct (Z.ltb_spec (Z.of_nat slot) 0); [lia|].
  destruct (Z.leb_spec (Z.of_nat (List.length (g i))) (Z.of_nat slot)); [lia|].
  cbn [orb bind]. unfold Py.setitem, Py.len.
  rewrite length_map, length_seq.
  destruct (Z.ltb_spec (Z.of_nat i) 0); [lia|].
  destruct (Z.ltb_spec (Z.of_nat i) 0); [lia|].
  destruct (Z.leb_spec (Z.of_nat k) (Z.of_nat i)); [lia|].
  cbn [orb]. rewrite !Nat2Z.id. now rewrite set_nth_map_seq.
Qed.

Lemma set_slot_last_row (g : nat -> list value) (slot : nat) (v : value) :
  (slot < List.length (g (k - 1)%nat))%nat ->
  set_slot (map g (seq 0 k)) (-1) (Z.of_nat slot) v
  = Ok (map (fun x => if (x =? k - 1)%nat
                      then Py.set_nth slot v (g (k - 1)%nat) else g x)
            (seq 0 k)).
Proof.
  intros Hs.
  rewrite <- (@set_slot_row g (k - 1) slot v) by (auto; lia).
  assert (Hlen : Py.len (map g (seq 0 k)) = Z.of_nat k)
    by (unfold Py.len; now rewrite length_map, length_seq).
  unfold set_slot.
  rewrite getitem_last, Hlen by lia.
  replace (Z.of_nat k - 1) with (Z.of_nat (k - 1)) by lia.
  destruct (Py.getitem (map g (seq 0 k)) (Z.of_nat (k - 1))) as [row|];
    cbn [bind]; [|reflexivity].
  destruct (Py.setitem row (Z.of_nat slot) v) as [row'|];
    cbn [bind]; [|reflexivity].
  rewrite setitem_last, Hlen by lia.
  now replace (Z.of_nat k - 1) with (Z.of_nat (k - 1)) by lia.
Qed.

Lemma entry_at (i : nat) :
  (i < 3 * k - 1)%nat -> Py.getitem fitted (Z.of_nat i) = Ok (entry i).
Proof. intros Hi. apply getitem_in_range. lia. Qed.

(** Storing the shape and the scale of component [a]. *)
Lemma shape_pair_step (a : nat) (rest : list param) :
  (a < k)%nat ->
  process_loop fitted (shape_scale_pair (Z.of_nat a) ++ rest)
               (map (shaped a) (seq 0 k))
  = process_loop fitted rest (map (shaped (S a)) (seq 0 k)).
Proof.
  intros Ha. unfold shape_scale_pair.
  cbn [app process_loop]. unfold process_one at 1.
  cbn [name location].
  rewrite startswith_beta.
  change (Py.str_drop 4 ("beta" ++ Py.format_int (Z.of_nat a + 1)))
    with (Py.format_int (Z.of_nat a + 1)).
  rewrite int_of_str_format. cbn [bind].
  replace (Z.of_nat a * 2) with (Z.of_nat (2 * a)) by lia.
  rewrite entry_at by lia. cbn [bind].
  replace (Z.of_nat a + 1 - 1) with (Z.of_nat a) by lia.
  rewrite (@set_slot_row (shaped a) a 0)
    by (auto; unfold row_shape; destruct (a <? a)%nat; simpl; lia).
  cbn [bind]. unfold process_one at 1. cbn [name location].
  rewrite eta_not_beta, startswith_eta.
  change (Py.str_drop 3 ("eta" ++ Py.format_int (Z.of_nat a + 1)))
    with (Py.format_int (Z.of_nat a + 1)).
  rewrite int_of_str_format. cbn [bind].
  replace (Z.of_nat (2 * a) + 1) with (Z.of_nat (2 * a + 1)) by lia.
  rewrite entry_at by lia. cbn [bind].
  replace (Z.of_nat a + 1 - 1) with (Z.of_nat a) by lia.
  rewrite (@set_slot_row _ a 1).
  2:{ exact Ha. }
  2:{ rewrite Nat.eqb_refl. unfold row_shape.
      destruct (a <? a)%nat; simpl; lia. }
  cbn [bind]. f_equal.
  apply map_ext_in. intros x Hx. rewrite Nat.eqb_refl.
  unfold row_shape. rewrite Nat.ltb_irrefl.
  destruct (Nat.eqb_spec x a) as [->|Hne].
  - destruct (Nat.ltb_spec a (S a)); [reflexivity|lia].
  - destruct (Nat.ltb_spec x a); destruct (Nat.ltb_spec x (S a));
      try reflexivity; lia.
Qed.

Lemma shape_loop (n a : nat) (rest : list param) :
  (a + n <= k)%nat ->
  process_loop fitted
    (flat_map shape_scale_pair (map Z.of_nat (seq a n)) ++ rest)
    (map (shaped a) (seq 0 k))
  = process_loop fitted rest (map (shaped (a + n)) (seq 0 k)).
Proof.
  revert a. induction n as [|n IH]; intros a Han.
  - now rewrite Nat.add_0_r.
  - cbn [seq map flat_map]. rewrite <- app_assoc.
    rewrite shape_pair_step by lia. rewrite IH by lia.
    now replace (S a + n)%nat with (a + S n)%nat by lia.
Qed.

Lemma fractions_length : List.length (fractions k fitted) = (k - 1)%nat.
Proof. unfold fractions. rewrite length_skipn. lia. Qed.

Lemma fractions_nth (j : nat) :
  nth j (fractions k fitted) (of_Z 0) = entry (2 * k + j).
Proof.
  unfold fractions. revert j. generalize (2 * k)%nat as n.
  intros n. revert fitted_length. generalize fitted as l. clear.
  intros l _. revert l. induction n as [|n IH]; intros l j.
  - reflexivity.
  - destruct l as [|x l]; simpl.
    + now destruct j.
    + apply IH.
Qed.

Lemma firstn_snoc (T : Type) (l : list T) (j : nat) (d : T) :
  (j < List.length l)%nat -> firstn (S j) l = firstn j l ++ [nth j l d].
Proof.
  revert j. induction l as [|x l IH]; intros j Hj; simpl in Hj; [lia|].
  destruct j as [|j]; [reflexivity|].
  cbn [firstn nth app]. f_equal. apply IH. lia.
Qed.

Lemma running_weight_step (j : nat) :
  (j < k - 1)%nat ->
  value_sub (running j) (entry (2 * k + j))
  = Ok (running (S j)).
Proof.
  intros Hj. unfold running_weight at 2.
  rewrite (firstn_snoc _ (of_Z 0)) by (rewrite fractions_length; lia).
  rewrite fold_left_app, fractions_nth. cbn [fold_left].
  destruct j as [|j]; reflexivity.
Qed.

Lemma running_weight_final :
  running (k - 1)
  = VFloat (fold_left sub (fractions k fitted) (of_Z 1)).
Proof.
  unfold running_weight. destruct (k - 1)%nat as [|m] eqn:Ek; [lia|].
  rewrite <- Ek, firstn_all2 by (rewrite fractions_length; lia).
  reflexivity.
Qed.

(** Storing fraction [j] and taking it off the last component's weight. *)
Lemma fraction_step (j : nat) (rest : list param) :
  (j < k - 1)%nat ->
  process_loop fitted (fraction_param (Z.of_nat k) (Z.of_nat j) :: rest)
               (map (weighted j) (seq 0 k))
  = process_loop fitted rest (map (weighted (S j)) (seq 0 k)).
Proof.
  intros Hj. cbn [process_loop]. unfold process_one, fraction_param.
  cbn [name location].
  rewrite f_not_beta, f_not_eta, startswith_f.
  change (Py.str_drop 1 ("f" ++ Py.format_int (Z.of_nat j + 1)))
    with (Py.format_int (Z.of_nat j + 1)).
  rewrite int_of_str_format. cbn [bind].
  replace (Z.of_nat k * 2 + Z.of_nat j) with (Z.of_nat (2 * k + j)) by lia.
  rewrite entry_at by lia. cbn [bind].
  replace (Z.of_nat j + 1 - 1) with (Z.of_nat j) by lia.
  rewrite (@set_slot_row (weighted j) j 2) by (simpl; lia).
  cbn [bind].
  rewrite getitem_last
    by (unfold Py.len; rewrite length_map, length_seq; lia).
  unfold Py.len at 1. rewrite length_map, length_seq.
  replace (Z.of_nat k - 1) with (Z.of_nat (k - 1)) by lia.
  rewrite (@getitem_nth _ _ _ (weighted j (k - 1)%nat)); [|lia|].
  2:{ rewrite Nat2Z.id, nth_error_map_seq by lia. cbn [Nat.add].
      destruct (Nat.eqb_spec (k - 1) j); [lia|reflexivity]. }
  cbn [bind].
  assert (Hw : Py.getitem (weighted j (k - 1)%nat) 2
               = Ok (running j)).
  { unfold row_fraction.
    destruct (Nat.ltb_spec (k - 1) j); [lia|].
    now rewrite Nat.eqb_refl. }
  rewrite Hw. cbn [bind].
  rewrite running_weight_step by exact Hj. cbn [bind].
  rewrite (@set_slot_last_row _ 2).
  2:{ destruct (Nat.eqb_spec (k - 1) j); [lia|]. simpl. lia. }
  cbn [bind]. f_equal.
  apply map_ext_in. intros x Hx. apply in_seq in Hx.
  destruct (Nat.eqb_spec (k - 1) j); [lia|].
  unfold row_fraction.
  destruct (Nat.eqb_spec x (k - 1)) as [->|Hlast].
  - destruct (Nat.ltb_spec (k - 1) j); [lia|].
    destruct (Nat.ltb_spec (k - 1) (S j)); [lia|].
    rewrite Nat.eqb_refl. reflexivity.
  - destruct (Nat.eqb_spec x j) as [->|Hne].
    + rewrite Nat.ltb_irrefl.
      destruct (Nat.ltb_spec j (S j)); [|lia].
      destruct (Nat.eqb_spec j (k - 1)); [lia|reflexivity].
    + destruct (Nat.ltb_spec x j); destruct (Nat.ltb_spec x (S j));
        try lia; try reflexivity.
Qed.

Lemma fraction_loop (n a : nat) :
  (a + n <= k - 1)%nat ->
  process_loop fitted
    (map (fraction_param (Z.of_nat k)) (map Z.of_nat (seq a n)))
    (map (weighted a) (seq 0 k))
  = Ok (map (weighted (a + n)) (seq 0 k)).
Proof.
  revert a. induction n as [|n IH]; intros a Han.
  - now rewrite Nat.add_0_r.
  - cbn [seq map]. rewrite fraction_step by lia. rewrite IH by lia.
    now replace (S a + n)%nat with (a + S n)%nat by lia.
Qed.

(** The loop of [process_params] over the layout of [k] components fills
    [processed] with the triples of the components, in layout order. *)
Lemma process_loop_layout (ps : list param) :
  _get_params (Z.of_nat k) = Ok ps ->
  process_loop fitted ps
    (map (fun _ => [VNone; VNone; VInt 1]) (Py.range (Z.of_nat k)))
  = Ok (map (layout_triple k fitted) (seq 0 k)).
Proof.
  rewrite _get_params_many by lia. intros [= <-].
  unfold Py.range. rewrite !Nat2Z.id.
  rewrite (map_map Z.of_nat (fun _ : Z => [VNone; VNone; VInt 1])).
  replace (Z.to_nat (Z.of_nat k - 1)) with (k - 1)%nat by lia.
  change (map (fun _ : nat => [VNone; VNone; VInt 1]) (seq 0 k))
    with (map (shaped 0) (seq 0 k)).
  rewrite shape_loop by lia.
  assert (E : map (shaped (0 + k)) (seq 0 k)
              = map (weighted 0) (seq 0 k)).
  { apply map_ext_in. intros x Hx. apply in_seq in Hx.
    unfold row_shape, row_fraction.
    destruct (Nat.ltb_spec x (0 + k)); [|lia].
    destruct (Nat.eqb_spec x (k - 1)); reflexivity. }
  rewrite E, fraction_loop, Nat.add_0_l by lia.
  f_equal. apply map_ext_in. intros x Hx. apply in_seq in Hx.
  unfold row_fraction, layout_triple. do 3 f_equal.
  destruct (Nat.ltb_spec x (k - 1)); destruct (Nat.ltb_spec (S x) k);
    try lia; try reflexivity.
  destruct (Nat.eqb_spec x (k - 1)); [|lia].
  apply running_weight_final.
Qed.

End DecodeFacts.

Section DecodedFacts.

Context {A : arith}.

Import algorithms.

(** What [get_mixed_weibull] returns, piece by piece. *)
Lemma get_mixed_weibull_inv (k : Z) (mixed : lambda)
  (bs : list (value * value)) (cs : list constraint) (ds : list value)
  (ps : list param) :
  get_mixed_weibull (VInt k) = Ok (mixed, bs, cs, ds, ps) ->
  0 < k /\ _get_params k = Ok ps /\ _get_lambda k ps = Ok mixed
  /\ bs = map bounds ps /\ cs = _get_constrains k /\ ds = map default ps.
Proof.
  unfold get_mixed_weibull, _check_ncomp.
  destruct (Z.leb_spec k 0); [discriminate|]. cbn [bind].
  destruct (_get_params k) as [ps0|] eqn:Hps; [|discriminate]. cbn [bind].
  rewrite (_get_params_sorted _ Hps). cbn [bind].
  destruct (_get_lambda k ps0) as [m|] eqn:Hm; [|discriminate]. cbn [bind].
  intros [= <- <- <- <- <-]. repeat split; auto.
Qed.

Lemma mean_key_triple (k : nat) (fitted : list num) (i : nat) :
  mean_key (layout_triple k fitted i)
  = Ok (weibull_mean (nth (2 * i) fitted (of_Z 0))
                     (nth (2 * i + 1) fitted (of_Z 0))).
Proof. reflexivity. Qed.

(** For two or more components [process_params] returns the triples of the
    components, stably sorted on their means. *)
Lemma process_params_many (k : nat) (fitted : list num) (ps : list param) :
  (2 <= k)%nat -> List.length fitted = (3 * k - 1)%nat ->
  _get_params (Z.of_nat k) = Ok ps ->
  process_params (Z.of_nat k) ps fitted
  = Ok (map snd
          (Py.sort_keyed ltb
             (combine
                (map (fun i => weibull_mean (nth (2 * i) fitted (of_Z 0))
                                            (nth (2 * i + 1) fitted (of_Z 0)))
                     (seq 0 k))
                (map (layout_triple k fitted) (seq 0 k))))).
Proof.
  intros Hk Hlen Hps. unfold process_params.
  destruct (Z.eqb_spec (Z.of_nat k) 1); [lia|].
  destruct (Z.ltb_spec 1 (Z.of_nat k)); [|lia].
  rewrite (@process_loop_layout A k fitted Hk Hlen ps Hps). cbn [bind].
  unfold Py.sort_by.
  rewrite (@mapM_ok_all _ _ mean_key
             (fun e => match entry_mean e with
                       | Some m => m
                       | None => of_Z 0
                       end)).
  2:{ apply Forall_forall. intros e He. apply in_map_iff in He.
      destruct He as (i & <- & _). apply mean_key_triple. }
  cbn [bind]. rewrite map_map. reflexivity.
Qed.

Lemma combine_map_seq (T U : Type) (f : nat -> T) (g : nat -> U) (a n : nat) :
  combine (map f (seq a n)) (map g (seq a n))
  = map (fun i => (f i, g i)) (seq a n).
Proof.
  revert a. induction n as [|n IH]; intros a; [reflexivity|].
  cbn [seq map combine]. now rewrite IH.
Qed.

Lemma sorted_by_mean (l : list (num * list value)) :
  StronglySorted (Py.key_le ltb) l ->
  Forall (fun p => entry_mean (snd p) = Some (fst p)) l ->
  StronglySorted mean_le (map snd l).
Proof.
  induction 1 as [|p r Hs IH Hall]; intros Hm; cbn [map]; constructor.
  - apply IH. now inversion Hm.
  - inversion Hm as [|? ? Hp Hr]; subst.
    rewrite Forall_forall in Hall, Hr. apply Forall_forall.
    intros e He. apply in_map_iff in He. destruct He as (q & <- & Hq).
    exists (fst p), (fst q). repeat split; auto. apply (Hall q Hq).
Qed.

End DecodedFacts.

Section MeanOrder.

Context {A : arith}.

Import algorithms.

(** The order the sort relies on: [<] is asymmetric, "not smaller" is
    transitive through every number that is not NaN, and a positive shape
    and a positive scale give a mean that is not NaN. *)
Hypothesis lt_asym : forall a b : num, ltb a b = true -> ltb b a = false.
Hypothesis le_trans : forall a b c : num,
  isnan b = false -> ltb b a = false -> ltb c b = false -> ltb c a = false.
Hypothesis mean_defined : forall beta eta : num,
  ltb (of_Q 0) beta = true -> ltb (of_Q 0) eta = true ->
  isnan (weibull_mean beta eta) = false.


End MeanOrder.


(* ===================================================================== *)
(** * The mixture function against the decoded components                *)
(* ===================================================================== *)

Section EvalFacts.

Context {A : arith}.

Import algorithms.

(** Names that can be told apart by a position function are looked up at
    their own position. *)
Lemma lookup_by_position (pos : string -> option nat) (names : list string)
  (vals : list num) (a n : nat) (s : string) (v : num) :
  (forall m t, nth_error names m = Some t -> pos t = Some (a + m)%nat) ->
  nth_error names n = Some s -> nth_error vals n = Some v ->
  lookup (combine names vals) s = Ok v.
Proof.
  revert vals a n. induction names as [|t names IH]; intros vals a n Hpos Hs Hv.
  - destruct n; discriminate.
  - destruct vals as [|w vals]; [destruct n; discriminate|].
    cbn [combine lookup]. destruct n as [|n]; cbn [nth_error] in Hs, Hv.
    + injection Hs as ->. injection Hv as ->. now rewrite String.eqb_refl.
    + destruct (String.eqb_spec t s) as [->|Hne].
      * pose proof (Hpos 0%nat s eq_refl) as H0.
        pose proof (Hpos (S n) s Hs) as H1.
        rewrite H0 in H1. injection H1 as H1. lia.
      * apply (IH vals (S a) n); auto.
        intros m u Hu. rewrite (Hpos (S m) u Hu). f_equal. lia.
Qed.

Lemma eval_fold_add (env : list (string * num)) (terms : list expr)
  (vals : list num) (t0 : expr) (v0 : num) :
  eval env t0 = Ok v0 -> mapM (eval env) terms = Ok vals ->
  eval env (fold_left EAdd terms t0) = Ok (fold_left add vals v0).
Proof.
  revert vals t0 v0. induction terms as [|t terms IH]; intros vals t0 v0 H0 H.
  - injection H as <-. exact H0.
  - cbn [mapM] in H. destruct (eval env t) as [v|] eqn:Ht; [|discriminate].
    cbn [bind] in H.
    destruct (mapM (eval env) terms) as [vs|] eqn:Hts; [|discriminate].
    injection H as <-. cbn [fold_left]. apply IH; [|reflexivity].
    cbn [eval]. now rewrite H0, Ht.
Qed.

Lemma eval_fold_sub (env : list (string * num)) (g : Z -> string)
  (idx : list Z) (vals : list num) (t0 : expr) (v0 : num) :
  eval env t0 = Ok v0 -> mapM (fun i => lookup env (g i)) idx = Ok vals ->
  eval env (fold_left (fun acc i => ESub acc (EName (g i))) idx t0)
  = Ok (fold_left sub vals v0).
Proof.
  revert vals t0 v0. induction idx as [|i idx IH]; intros vals t0 v0 H0 H.
  - injection H as <-. exact H0.
  - cbn [mapM] in H. destruct (lookup env (g i)) as [v|] eqn:Hs; [|discriminate].
    cbn [bind] in H.
    destruct (mapM (fun i => lookup env (g i)) idx) as [vs|] eqn:Hn;
      [|discriminate].
    injection H as <-. cbn [fold_left]. apply IH; [|reflexivity].
    cbn [eval]. now rewrite H0, Hs.
Qed.

Lemma eval_sum_of_terms (env : list (string * num)) (terms : list expr)
  (v0 : num) (vs : list num) :
  mapM (eval env) terms = Ok (v0 :: vs) ->
  eval env (sum_of_terms terms) = Ok (fold_left add vs v0).
Proof.
  destruct terms as [|t0 r]; cbn [mapM sum_of_terms]; [discriminate|].
  destruct (eval env t0) as [u|] eqn:H0; [|discriminate]. cbn [bind].
  destruct (mapM (eval env) r) as [us|] eqn:Hr; [|discriminate].
  intros [= -> ->]. now apply eval_fold_add.
Qed.

Lemma mapM_map (S T U : Type) (f : T -> result U) (g : S -> T) (l : list S) :
  mapM f (map g l) = mapM (fun a => f (g a)) l.
Proof.
  induction l as [|a l IH]; cbn [map mapM]; [reflexivity|]. now rewrite IH.
Qed.

Lemma mapM_app (T U : Type) (f : T -> result U) (l1 l2 : list T)
  (v1 v2 : list U) :
  mapM f l1 = Ok v1 -> mapM f l2 = Ok v2 -> mapM f (l1 ++ l2) = Ok (v1 ++ v2).
Proof.
  revert v1. induction l1 as [|a l1 IH]; intros v1 H1 H2.
  - injection H1 as <-. exact H2.
  - cbn [mapM app] in *. destruct (f a); [|discriminate]. cbn [bind] in *.
    destruct (mapM f l1) as [w|] eqn:E; [|discriminate].
    injection H1 as <-. now rewrite (IH w eq_refl H2).
Qed.

Lemma skipn_as_map (l : list num) (a : nat) (d : num) :
  skipn a l = map (fun i => nth (a + i) l d) (seq 0 (List.length l - a)).
Proof.
  apply nth_error_ext. intros n.
  rewrite nth_error_skipn, nth_error_map, nth_error_seq.
  destruct (Nat.ltb_spec n (List.length l - a)) as [Hn|Hn]; cbn [option_map].
  - cbn [Nat.add]. apply nth_error_nth'. lia.
  - apply nth_error_None. lia.
Qed.

Section Sums.

Hypothesis add_comm : forall a b : num, add a b = add b a.
Hypothesis add_assoc : forall a b c : num, add a (add b c) = add (add a b) c.

Lemma fold_add_permutation (l l' : list num) (z : num) :
  Permutation l l' -> fold_left add l z = fold_left add l' z.
Proof.
  intros H. revert z. induction H as [|x l l' _ IH|x y l|l l' l'' _ IH1 _ IH2];
    intros z; cbn [fold_left].
  - reflexivity.
  - apply IH.
  - f_equal. rewrite <- !add_assoc. f_equal. apply add_comm.
  - now rewrite IH1.
Qed.

Lemma np_sum_permutation (l l' : list num) :
  Permutation l l' -> np_sum l = np_sum l'.
Proof. apply fold_add_permutation. Qed.

End Sums.

End EvalFacts.

Section MixtureFacts.

Context {A : arith}.

Import algorithms.

Variable n : nat.
Variable fitted : list num.
Variable x : num.

Hypothesis many : (2 <= n)%nat.
Hypothesis fitted_length : List.length fitted = (3 * n - 1)%nat.

Local Notation "'entry' i" := (nth i fitted (of_Z 0)) (at level 9, i at level 9).

Local Notation "'layout'" :=
  (flat_map shape_scale_pair (Py.range (Z.of_nat n))
   ++ map (fraction_param (Z.of_nat n)) (Py.range (Z.of_nat n - 1))).

(** The environment of a call of the mixture lambda. *)
Local Notation "'env'" :=
  (combine ("x" :: map name layout) (x :: fitted)).

Lemma layout_shape_names (i : nat) :
  (i < n)%nat ->
  nth_error (map name layout) (2 * i)
  = Some ("beta" ++ Py.format_int (Z.of_nat i + 1))%string
  /\ nth_error (map name layout) (2 * i + 1)
     = Some ("eta" ++ Py.format_int (Z.of_nat i + 1))%string.
Proof.
  intros Hi. rewrite !nth_error_map. unfold Py.range.
  rewrite Nat2Z.id.
  destruct (@shape_scale_nth A n 0 i
              (map (fraction_param (Z.of_nat n))
                   (map Z.of_nat (seq 0 (Z.to_nat (Z.of_nat n - 1))))) Hi)
    as [-> ->].
  split; reflexivity.
Qed.

Lemma layout_fraction_names (j : nat) :
  (j < n - 1)%nat ->
  nth_error (map name layout) (2 * n + j)
  = Some ("f" ++ Py.format_int (Z.of_nat j + 1))%string.
Proof.
  intros Hj. rewrite nth_error_map.
  replace (2 * n + j)%nat
    with (List.length (flat_map shape_scale_pair (Py.range (Z.of_nat n))) + j)%nat
    by (rewrite shape_scale_length, range_length; lia).
  unfold Py.range at 2. rewrite fraction_nth by lia. reflexivity.
Qed.

(** Every parameter name of the lambda occurs at one position only. *)
Lemma layout_names_positions :
  exists pos : string -> option nat,
    forall m t, nth_error ("x" :: map name layout) m = Some t ->
                pos t = Some (0 + m)%nat.
Proof.
  exists (fun t =>
    if String.eqb t "x" then Some 0%nat
    else if Py.startswith t "beta" then
      match Py.int_of_str (Py.str_drop 4 t) with
      | Ok z => Some (1 + 2 * Z.to_nat (z - 1))%nat
      | Raise _ => None
      end
    else if Py.startswith t "eta" then
      match Py.int_of_str (Py.str_drop 3 t) with
      | Ok z => Some (1 + 2 * Z.to_nat (z - 1) + 1)%nat
      | Raise _ => None
      end
    else if Py.startswith t "f" then
      match Py.int_of_str (Py.str_drop 1 t) with
      | Ok z => Some (1 + 2 * n + Z.to_nat (z - 1))%nat
      | Raise _ => None
      end
    else None).
  intros [|m] t Hm; cbn [nth_error] in Hm.
  - now injection Hm as <-.
  - assert (Hlt : (m < 3 * n - 1)%nat).
    { assert (H : (m < List.length (map name layout))%nat)
        by (apply nth_error_Some; congruence).
      rewrite length_map, length_app, shape_scale_length, length_map,
        !range_length in H. lia. }
    destruct (Nat.lt_ge_cases m (2 * n)) as [Hshape|Hfrac].
    + destruct (Nat.Even_or_Odd m) as [[i ->]|[i ->]].
      * destruct (layout_shape_names (i := i)) as [Hb _]; [lia|].
        assert (Et : t = ("beta" ++ Py.format_int (Z.of_nat i + 1))%string)
          by congruence.
        rewrite Et. cbv beta.
        change (String.eqb ("beta" ++ Py.format_int (Z.of_nat i + 1)) "x")
          with false.
        rewrite startswith_beta.
        change (Py.str_drop 4 ("beta" ++ Py.format_int (Z.of_nat i + 1)))
          with (Py.format_int (Z.of_nat i + 1)).
        rewrite int_of_str_format. f_equal. lia.
      * destruct (layout_shape_names (i := i)) as [_ He]; [lia|].
        assert (Et : t = ("eta" ++ Py.format_int (Z.of_nat i + 1))%string)
          by congruence.
        rewrite Et. cbv beta.
        change (String.eqb ("eta" ++ Py.format_int (Z.of_nat i + 1)) "x")
          with false.
        rewrite eta_not_beta, startswith_eta.
        change (Py.str_drop 3 ("eta" ++ Py.format_int (Z.of_nat i + 1)))
          with (Py.format_int (Z.of_nat i + 1)).
        rewrite int_of_str_format. f_equal. lia.
    + replace m with (2 * n + (m - 2 * n))%nat in Hm by lia.
      rewrite layout_fraction_names in Hm by lia.
      assert (Et : t = ("f" ++ Py.format_int (Z.of_nat (m - 2 * n) + 1))%string)
        by congruence.
      rewrite Et. cbv beta.
      change (String.eqb ("f" ++ Py.format_int (Z.of_nat (m - 2 * n) + 1)) "x")
        with false.
      rewrite f_not_beta, f_not_eta, startswith_f.
      change (Py.str_drop 1 ("f" ++ Py.format_int (Z.of_nat (m - 2 * n) + 1)))
        with (Py.format_int (Z.of_nat (m - 2 * n) + 1)).
      rewrite int_of_str_format. f_equal. lia.
Qed.

Lemma lookup_at (m : nat) (t : string) :
  nth_error (map name layout) m = Some t -> (m < 3 * n - 1)%nat ->
  lookup env t = Ok (entry m).
Proof.
  intros Ht Hm. destruct layout_names_positions as [pos Hpos].
  apply (@lookup_by_position A pos ("x" :: map name layout) (x :: fitted)
           0%nat (S m) t (entry m) Hpos).
  - exact Ht.
  - cbn [nth_error]. apply nth_error_nth'. lia.
Qed.

Lemma lookup_x : lookup env "x" = Ok x.
Proof. reflexivity. Qed.

Lemma lookup_beta (i : nat) :
  (i < n)%nat ->
  lookup env ("beta" ++ Py.format_int (Z.of_nat i + 1)) = Ok (entry (2 * i)).
Proof.
  intros Hi. apply lookup_at; [|lia]. now apply layout_shape_names.
Qed.

Lemma lookup_eta (i : nat) :
  (i < n)%nat ->
  lookup env ("eta" ++ Py.format_int (Z.of_nat i + 1))
  = Ok (entry (2 * i + 1)).
Proof.
  intros Hi. apply lookup_at; [|lia]. now apply layout_shape_names.
Qed.

Lemma lookup_fraction (j : nat) :
  (j < n - 1)%nat ->
  lookup env ("f" ++ Py.format_int (Z.of_nat j + 1))
  = Ok (entry (2 * n + j)).
Proof.
  intros Hj. apply lookup_at; [|lia]. now apply layout_fraction_names.
Qed.

(** The weight of component [i]: its fraction, and for the last component
    what the fractions leave of [1]. *)
Local Notation "'weight' i" :=
  (if (S i <? n)%nat then entry (2 * n + i)
   else fold_left sub (fractions n fitted) (of_Z 1))
  (at level 9, i at level 9).

Lemma eval_weibull_call (i : nat) :
  (i < n)%nat ->
  eval env (weibull_call (Z.of_nat i + 1))
  = Ok (weibull x (entry (2 * i)) (entry (2 * i + 1))).
Proof.
  intros Hi. unfold weibull_call. cbn [eval].
  rewrite lookup_x, lookup_beta, lookup_eta by exact Hi. reflexivity.
Qed.

Lemma lookup_fractions :
  mapM (fun i => lookup env ("f" ++ Py.format_int (i + 1)))
       (Py.range (Z.of_nat n - 1))
  = Ok (fractions n fitted).
Proof.
  unfold fractions. rewrite (skipn_as_map _ _ (of_Z 0)), fitted_length.
  replace (3 * n - 1 - 2 * n)%nat with (n - 1)%nat by lia.
  set (E := combine _ (x :: fitted)).
  unfold Py.range. replace (Z.to_nat (Z.of_nat n - 1)) with (n - 1)%nat by lia.
  rewrite (@mapM_ok_all _ _ _ (fun z => entry (2 * n + Z.to_nat z))).
  - rewrite map_map. f_equal. apply map_ext. intros j. now rewrite Nat2Z.id.
  - apply Forall_forall. intros z Hz. apply in_map_iff in Hz.
    destruct Hz as (j & <- & Hj). apply in_seq in Hj.
    rewrite Nat2Z.id. subst E. apply lookup_fraction. lia.
Qed.

Lemma eval_last_fraction :
  eval env (last_fraction (Z.of_nat n))
  = Ok (fold_left sub (fractions n fitted) (of_Z 1)).
Proof.
  unfold last_fraction.
  apply (@eval_fold_sub A env (fun i => "f" ++ Py.format_int (i + 1))%string).
  - reflexivity.
  - apply lookup_fractions.
Qed.

(** The value of each term of the lambda's body. *)
Lemma eval_mixture_terms :
  mapM (eval env) (mixture_terms (Z.of_nat n))
  = Ok (map (fun i => mul (weight i)
                          (weibull x (entry (2 * i)) (entry (2 * i + 1))))
            (seq 0 n)).
Proof.
  unfold mixture_terms.
  assert (Hseq : seq 0 n = seq 0 (n - 1) ++ [(n - 1)%nat]).
  { replace n with (n - 1 + 1)%nat at 1 by lia. now rewrite seq_app. }
  set (E := combine _ (x :: fitted)).
  rewrite Hseq, map_app. apply mapM_app.
  - unfold Py.range.
    replace (Z.to_nat (Z.of_nat n - 1)) with (n - 1)%nat by lia.
    rewrite map_map, mapM_map.
    rewrite (@mapM_ok_all _ _ _
               (fun j => mul (entry (2 * n + j))
                             (weibull x (entry (2 * j)) (entry (2 * j + 1))))).
    + f_equal. apply map_ext_in. intros j Hj. apply in_seq in Hj.
      destruct (Nat.ltb_spec (S j) n); [reflexivity|lia].
    + apply Forall_forall. intros j Hj. apply in_seq in Hj. subst E.
      cbn [eval]. rewrite lookup_fraction by lia.
      rewrite eval_weibull_call by lia. reflexivity.
  - subst E. cbn [map mapM eval]. rewrite eval_last_fraction. cbn [bind].
    replace (weibull_call (Z.of_nat n))
      with (weibull_call (Z.of_nat (n - 1) + 1))
      by (f_equal; lia).
    rewrite eval_weibull_call by lia. cbn [bind].
    destruct (Nat.ltb_spec (S (n - 1)) n); [lia|reflexivity].
Qed.

(** Calling the lambda built for [n] components. *)
Lemma mixed_call_many (mixed : lambda) :
  _get_lambda (Z.of_nat n) layout = Ok mixed ->
  mixed_call mixed x fitted
  = Ok (fold_left add
          (map (fun i => mul (weight i)
                             (weibull x (entry (2 * i)) (entry (2 * i + 1))))
               (seq 1 (n - 1)))
          (mul (weight 0) (weibull x (entry 0) (entry 1)))).
Proof.
  unfold _get_lambda.
  destruct (Z.eqb_spec (Z.of_nat n) 1); [lia|].
  destruct (Z.ltb_spec 1 (Z.of_nat n)); [|lia].
  intros [= <-]. unfold mixed_call, call. cbn [lam_params lam_body].
  assert (Hlen : List.length (x :: fitted)
                 = List.length ("x" :: map name layout)).
  { cbn [List.length]. rewrite length_map, length_app, shape_scale_length,
      length_map, !range_length. lia. }
  rewrite Hlen, Nat.eqb_refl.
  apply eval_sum_of_terms. rewrite eval_mixture_terms.
  replace n with (S (n - 1)) at 1 by lia. reflexivity.
Qed.

End MixtureFacts.

Section RoundTrip.

Context {A : arith}.

Import algorithms.

(** The arithmetic in which a sum does not depend on the order of its
    terms: addition is commutative and associative, with [0] neutral on the
    left. *)
Hypothesis add_comm : forall a b : num, add a b = add b a.
Hypothesis add_assoc : forall a b c : num, add a (add b c) = add (add a b) c.
Hypothesis add_0_l : forall a : num, add (of_Z 0) a = a.

Lemma decoded_term_triple (n : nat) (fitted : list num) (x : num) (i : nat) :
  decoded_term x (layout_triple n fitted i)
  = Ok (mul (if (S i <? n)%nat then nth (2 * n + i) fitted (of_Z 0)
             else fold_left sub (fractions n fitted) (of_Z 1))
            (weibull x (nth (2 * i) fitted (of_Z 0))
                       (nth (2 * i + 1) fitted (of_Z 0)))).
Proof. reflexivity. Qed.


End RoundTrip.



(* ===================================================================== *)
(** * Valid range and preprocessing (resolver.py)                         *)
(* ===================================================================== *)

Section RangeFacts.

Context {A : arith}.

Import Resolver.

Lemma find_from_first (p : num -> bool) (l : list num) (i : Z) (n : nat) :
  (exists v, nth_error l n = Some v /\ p v = true) ->
  (forall m v, (m < n)%nat -> nth_error l m = Some v -> p v = false) ->
  find_from p l i = Some (i + Z.of_nat n).
Proof.
  revert i n. induction l as [|x r IH]; intros i n [v [Hv Hp]] Hfirst.
  - destruct n; discriminate.
  - destruct n as [|n]; simpl in *.
    + injection Hv as ->. rewrite Hp. f_equal. lia.
    + rewrite (Hfirst 0%nat x) by (auto; lia).
      rewrite (IH (i + 1) n).
      * f_equal. lia.
      * eauto.
      * intros m w Hm Hw. apply (Hfirst (S m) w); [lia|exact Hw].
Qed.

Lemma find_from_none (p : num -> bool) (l : list num) (i : Z) :
  Forall (fun v => p v = false) l -> find_from p l i = None.
Proof.
  intros H. revert i. induction H as [|x r Hx _ IH]; intros i; simpl.
  - reflexivity.
  - rewrite Hx. apply IH.
Qed.

Lemma first_index_found (p : num -> bool) (l : list num) (lo i : Z) :
  0 <= lo <= Py.len l ->
  Py.first_index_from p l lo i ->
  find_from p (skipn (Z.to_nat lo) l) lo = Some i.
Proof.
  intros Hlo (Hle & (v & Hv & Hp) & Hfirst).
  replace (Some i) with (Some (lo + Z.of_nat (Z.to_nat (i - lo))))
    by (f_equal; lia).
  apply find_from_first.
  - exists v. split; [|exact Hp].
    rewrite nth_error_skipn. rewrite <- Hv. f_equal. lia.
  - intros m w Hm Hw. rewrite nth_error_skipn in Hw.
    apply (Hfirst (lo + Z.of_nat m) w); [lia|].
    rewrite <- Hw. f_equal. lia.
Qed.

Lemma find_from_sound (p : num -> bool) (l : list num) (i j : Z) :
  find_from p l i = Some j ->
  exists n, j = i + Z.of_nat n
    /\ (exists v, nth_error l n = Some v /\ p v = true)
    /\ forall m v, (m < n)%nat -> nth_error l m = Some v -> p v = false.
Proof.
  revert i. induction l as [|x r IH]; intros i H; simpl in H; [discriminate|].
  destruct (p x) eqn:Hx.
  - injection H as <-. exists 0%nat. split; [lia|]. split.
    + exists x. now split.
    + intros m v Hm. lia.
  - destruct (IH _ H) as (n & -> & Hv & Hfirst).
    exists (S n). split; [lia|]. split; [exact Hv|].
    intros [|m] v Hm Hn; simpl in Hn.
    + now injection Hn as <-.
    + apply (Hfirst m v); [lia|exact Hn].
Qed.

Lemma first_index_of_find (p : num -> bool) (l : list num) (lo i : Z) :
  0 <= lo ->
  find_from p (skipn (Z.to_nat lo) l) lo = Some i ->
  Py.first_index_from p l lo i.
Proof.
  intros Hlo H. destruct (find_from_sound _ _ _ H) as (n & -> & (v & Hv & Hp) & Hf).
  rewrite nth_error_skipn in Hv.
  split; [lia|]. split.
  - exists v. split; [|exact Hp]. rewrite <- Hv. f_equal. lia.
  - intros j w Hj Hw. apply (Hf (Z.to_nat (j - lo)) w); [lia|].
    rewrite nth_error_skipn, <- Hw. f_equal. lia.
Qed.

Lemma first_index_in_range (p : num -> bool) (l : list num) (lo i : Z) :
  Py.first_index_from p l lo i -> lo <= i < Py.len l.
Proof.
  intros (Hle & (v & Hv & _) & _). split; [exact Hle|].
  assert (Z.to_nat i < List.length l)%nat
    by (apply nth_error_Some; congruence).
  unfold Py.len. lia.
Qed.

(** Where there is a first positive entry and, after it, a first zero,
    these two indices are what the range detection returns. *)
Lemma get_valid_data_range_found (y : list num) (s e : Z) :
  Py.first_index_from (fun v => ltb (of_Q 0) v) y 0 s ->
  Py.first_index_from (fun v => eqb v (of_Q 0)) y (s + 1) e ->
  get_valid_data_range y = (s, e).
Proof.
  intros Hs He. unfold get_valid_data_range.
  pose proof (first_index_in_range Hs) as Hsr.
  pose proof (first_index_in_range He) as Her.
  assert (H1 := @first_index_found _ y 0 s ltac:(lia) Hs).
  simpl in H1. rewrite H1.
  rewrite slice_all_from by lia.
  now rewrite (@first_index_found _ y (s + 1) e ltac:(lia) He).
Qed.

(** Without a positive entry the start index stays at its initial [0]. *)
Lemma get_valid_data_range_no_positive (y : list num) :
  Forall (fun v => ltb (of_Q 0) v = false) y ->
  fst (get_valid_data_range y) = 0.
Proof.
  intros H. unfold get_valid_data_range.
  now rewrite (find_from_none (fun v => ltb (of_Q 0) v) 0 H).
Qed.

(** Without a zero behind the start index the end index stays at its
    initial [-1]. *)
Lemma get_valid_data_range_no_zero (y : list num) :
  Forall (fun v => eqb v (of_Q 0) = false)
         (Py.slice y (Some (fst (get_valid_data_range y) + 1)) None) ->
  snd (get_valid_data_range y) = -1.
Proof.
  unfold get_valid_data_range. cbn [fst snd]. intros H.
  now rewrite (find_from_none (fun v => eqb v (of_Q 0)) _ H).
Qed.

(** C3 (amended).  If [s] is the index of the first strictly positive
    entry of [y] and [e] the index of the first exactly-zero entry behind
    it, then [get_valid_data_range] returns [(s, e)], and preprocessing a
    Weibull resolver that holds [y] stores these indices, the window
    [y[s:e]] as [y_to_fit] and the local coordinates [1, 2, ..., e - s] as
    [x_to_fit].  (Without a positive entry the start index is [0], without
    a zero behind the start the end index is [-1]: see the two lemmas
    above.) *)
Theorem valid_range_window (r : Resolver.t) (y : list num) (s e : Z) :
  Py.first_index_from (fun v => ltb (of_Q 0) v) y 0 s ->
  Py.first_index_from (fun v => eqb v (of_Q 0)) y (s + 1) e ->
  distribution_type r = Weibull ->
  y_data r = Some y ->
  get_valid_data_range y = (s, e)
  /\ exists r',
       preprocess_data r = (Ok tt, r')
       /\ start_index r' = Some s
       /\ end_index r' = Some e
       /\ y_to_fit r' = Some (firstn (Z.to_nat (e - s)) (skipn (Z.to_nat s) y))
       /\ x_to_fit r' = Some (map (fun i => i + 1) (Py.range (e - s)))
       /\ nth_error (map (fun i => i + 1) (Py.range (e - s))) 0 = Some 1
       /\ real_x r' = real_x r /\ y_data r' = y_data r.
Proof.
  intros Hs He Hd Hy.
  pose proof (get_valid_data_range_found Hs He) as Hr.
  pose proof (first_index_in_range Hs) as Hsr.
  pose proof (first_index_in_range He) as Her.
  split; [exact Hr|].
  unfold preprocess_data. rewrite Hy, Hr. cbn [distribution_type with_range].
  rewrite Hd. eexists. split; [reflexivity|].
  cbn. rewrite slice_between by lia.
  repeat split; auto.
  unfold Py.range. destruct (Z.to_nat (e - s)) eqn:E; [lia|reflexivity].
Qed.

End RangeFacts.

Section InitFacts.

Context {A : arith}.

Import Resolver.

(** A freshly built resolver is a two-component Weibull resolver that holds
    no data. *)
Lemma init_state (r : Resolver.t) :
  init = Ok r ->
  distribution_type r = Weibull /\ ncomp r = 2
  /\ real_x r = None /\ y_data r = None
  /\ start_index r = None /\ end_index r = None
  /\ x_to_fit r = None /\ y_to_fit r = None.
Proof.
  unfold init. cbn [refresh_by_distribution_type distribution_type].
  unfold refresh_by_ncomp.
  cbn [get_mixed_func with_weibull_functions ncomp].
  destruct (algorithms.get_mixed_weibull (VInt 2))
    as [[[[[f b] c] d] p]|e]; [|discriminate].
  intros [= <-]. repeat split.
Qed.

Lemma init_succeeds : exists r, init = Ok r.
Proof.
  destruct (@get_mixed_weibull_ok A 2 ltac:(lia)) as (f & p & _ & _ & H).
  unfold init. cbn [refresh_by_distribution_type distribution_type].
  unfold refresh_by_ncomp.
  cbn [get_mixed_func with_weibull_functions ncomp].
  rewrite H. eauto.
Qed.

End InitFacts.

(** The theorem at the specification's example
    [[0,0,0,2,5,3,0,0,1,0]]: start [3], end [6], window [[2,5,3]] on the
    local coordinates [[1,2,3]]. *)
Lemma valid_range_window_witness :
  exists r0,
    Resolver.init = Ok r0
    /\ Py.first_index_from (fun v => ltb (of_Q 0) v)
         Resolver.example_distribution 0 3
    /\ Py.first_index_from (fun v => eqb v (of_Q 0))
         Resolver.example_distribution (3 + 1) 6
    /\ Resolver.get_valid_data_range Resolver.example_distribution = (3, 6)
    /\ exists r',
         Resolver.preprocess_data
           (Resolver.with_data r0 (Some Resolver.example_distribution)
              (Some Resolver.example_distribution))
         = (Ok tt, r')
         /\ Resolver.y_to_fit r' = Some (map QN.rat [2; 5; 3]%Q)
         /\ Resolver.x_to_fit r' = Some [1; 2; 3].
Proof.
  destruct (init_succeeds (A := QN.model)) as [r0 Hinit].
  exists r0. split; [exact Hinit|].
  assert (H1 : Py.first_index_from (fun v => ltb (of_Q 0) v)
                 Resolver.example_distribution 0 3)
    by (apply first_index_of_find; [lia | reflexivity]).
  assert (H2 : Py.first_index_from (fun v => eqb v (of_Q 0))
                 Resolver.example_distribution (3 + 1) 6)
    by (apply first_index_of_find; [lia | reflexivity]).
  split; [exact H1|]. split; [exact H2|].
  assert (Hd : Resolver.distribution_type
                 (Resolver.with_data r0 (Some Resolver.example_distribution)
                    (Some Resolver.example_distribution)) = Weibull)
    by apply (init_state Hinit).
  destruct (valid_range_window
              (Resolver.with_data r0 (Some Resolver.example_distribution)
                 (Some Resolver.example_distribution))
              H1 H2 Hd eq_refl)
    as (Hr & r' & Hp & _ & _ & Hy & Hx & _).
  split; [exact Hr|]. exists r'. split; [exact Hp|]. split.
  - rewrite Hy. reflexivity.
  - rewrite Hx. reflexivity.
Defined.

(** C3 as stated fails on a vector without a zero behind its first positive
    entry: for the distribution [[1/2, 1/2]] the returned end index is the
    initial [-1], which is not the index of a zero entry behind the start. *)
Lemma valid_range_without_zero_counterexample :
  Resolver.get_valid_data_range Resolver.even_distribution = (0, -1)
  /\ ~ (exists s e,
          Resolver.get_valid_data_range Resolver.even_distribution = (s, e)
          /\ Py.first_index_from (fun v => ltb (of_Q 0) v)
               Resolver.even_distribution 0 s
          /\ Py.first_index_from (fun v => eqb v (of_Q 0))
               Resolver.even_distribution (s + 1) e).
Proof.
  split; [reflexivity|].
  intros (s & e & H & _ & (Hle & _)).
  assert (Hv : Resolver.get_valid_data_range Resolver.even_distribution
               = (0, -1)) by reflexivity.
  rewrite Hv in H. injection H as <- <-. lia.
Qed.

(* ===================================================================== *)
(** * Data intake and property setters (resolver.py)                      *)
(* ===================================================================== *)

Section FeedFacts.

Context {A : arith}.

Import Resolver.

Variable on_data_invalid : value -> value -> value -> method unit.
Variable on_data_fed : method unit.

(** Every malformed pair named by the specification is rejected by
    [validate_data] with a [DataInvalidError]. *)
Lemma validate_data_rejects (x y : value) :
  x = VNone \/ y = VNone
  \/ (forall a, x <> VArray a) \/ (forall a, y <> VArray a)
  \/ (exists xs ys, x = VArray xs /\ y = VArray ys
        /\ (Py.len xs <> Py.len ys
            \/ existsb isnan xs = true \/ existsb isnan ys = true)) ->
  exists args, validate_data x y = Raise (DataInvalidError args).
Proof.
  intros [->|[->|[Hx|[Hy|(xs & ys & -> & -> & H)]]]].
  - simpl. eauto.
  - destruct x; simpl; eauto.
  - destruct x; destruct y; simpl; eauto; now destruct (Hx a).
  - destruct x; destruct y; simpl; eauto; now destruct (Hy a0).
  - simpl. destruct (Z.eqb_spec (Py.len xs) (Py.len ys)); simpl; eauto.
    destruct (existsb isnan xs); eauto.
    destruct (existsb isnan ys); eauto.
    destruct H as [H|[H|H]]; [contradiction|discriminate|discriminate].
Qed.

(** An exception instance has no [message] attribute. *)
Lemma exn_has_no_message (e : exn) :
  exn_getattr e "message" = Raise AttributeError.
Proof. destruct e; reflexivity. Qed.

(** Whenever validation fails, [feed_data] itself fails with
    [AttributeError] while reading [e.message]; the hook is not reached (the
    outcome is the same for every hook) and the resolver is unchanged. *)
Lemma feed_data_invalid (x y : value) (args : list string) (r : Resolver.t) :
  validate_data x y = Raise (DataInvalidError args) ->
  feed_data on_data_invalid on_data_fed x y r = (Raise AttributeError, r).
Proof.
  intros H. unfold feed_data. rewrite H, exn_has_no_message. reflexivity.
Qed.

(** C6 (at the failing input).  [feed_data(None, y)]: validation raises
    [DataInvalidError], the handler's [e.message] raises [AttributeError],
    and that exception reaches the caller.  No hook runs; the stored data
    is left as it was. *)
Theorem feed_data_none_raises (y : value) (r : Resolver.t) :
  validate_data VNone y = Raise (DataInvalidError ["`x` is `None`."])
  /\ feed_data on_data_invalid on_data_fed VNone y r
     = (Raise AttributeError, r).
Proof.
  split; [reflexivity|]. now apply feed_data_invalid with (args := ["`x` is `None`."]).
Qed.

End FeedFacts.

Section SetterFacts.

Context {A : arith}.

Import Resolver.

(** C10.  Assigning to [ncomp] a value that is not an int, or an int not
    above [1], returns normally and leaves the whole resolver as it was,
    although the kernel library builds a layout for the count [1].  An int
    [n] above [1] becomes the new [ncomp], and the resolver then holds what
    [get_mixed_weibull] builds for [n]: its mixture function, bounds,
    constraints, defaults and parameter list are the five parts of that
    result, the initial guess is the new default vector, and the parameter
    list, the bounds and the defaults have [3n - 1] entries each; the
    family and the data are left as they were.  Assigning to
    [distribution_type] a value that is not a [DistributionType] returns
    normally and leaves the whole resolver as it was. *)
Theorem setters_silent_on_invalid (r : Resolver.t) (v : value) :
  ((forall n, v = VInt n -> n <= 1) -> ncomp_setter v r = (Ok tt, r))
  /\ (exists layout, algorithms.get_mixed_weibull (VInt 1) = Ok layout)
  /\ ncomp_setter (VInt 1) r = (Ok tt, r)
  /\ (forall n, v = VInt n -> 1 < n ->
        exists r',
          ncomp_setter v r = (Ok tt, r')
          /\ ncomp r' = n
          /\ algorithms.get_mixed_weibull (VInt n)
             = Ok (mixed_func r', bounds r', constrains r', defaults r',
                   params r')
          /\ initial_guess r' = defaults r'
          /\ Py.len (params r') = 3 * n - 1
          /\ Py.len (bounds r') = 3 * n - 1
          /\ Py.len (defaults r') = 3 * n - 1
          /\ distribution_type r' = distribution_type r
          /\ real_x r' = real_x r /\ y_data r' = y_data r
          /\ start_index r' = start_index r /\ end_index r' = end_index r
          /\ x_to_fit r' = x_to_fit r /\ y_to_fit r' = y_to_fit r)
  /\ ((forall d, v <> VDist d) -> distribution_type_setter v r = (Ok tt, r)).
Proof.
  split; [|split; [|split; [|split]]].
  - intros H. destruct v; try reflexivity. simpl.
    destruct (Z.leb_spec z 1); [reflexivity|].
    specialize (H z eq_refl). lia.
  - destruct (@get_mixed_weibull_ok A 1 ltac:(lia)) as (f & p & _ & _ & H).
    eauto.
  - reflexivity.
  - intros n -> Hn.
    destruct (@get_mixed_weibull_ok A n ltac:(lia))
      as (f & p & Hp & _ & H).
    pose proof (_get_params_length _ Hp) as Hlen.
    exists (with_layout (with_ncomp r n) f (map algorithms.bounds p)
              (algorithms._get_constrains n) (map algorithms.default p) p).
    split.
    { simpl. destruct (Z.leb_spec n 1); [lia|].
      unfold refresh_by_ncomp.
      destruct (get_mixed_func (with_ncomp r n)).
      cbn [ncomp with_ncomp]. now rewrite H. }
    cbn [ncomp mixed_func bounds constrains defaults params initial_guess
         distribution_type real_x y_data start_index end_index x_to_fit
         y_to_fit with_layout with_ncomp].
    split; [reflexivity|]. split; [exact H|]. split; [reflexivity|].
    unfold Py.len in *. rewrite !length_map.
    repeat split; lia.
  - intros H. destruct v; try reflexivity. now destruct (H d).
Qed.

End SetterFacts.

(** The theorem on a freshly built resolver, at the values [True], [1] and
    [3] for [ncomp] and [2] for [distribution_type].  After the assignment
    of [3] the resolver holds the layout of three components: eight
    parameters [beta1, eta1, ..., f1, f2] with the defaults [1] and [1/3],
    eight bounds, one constraint, and the mixture function of these
    parameters. *)
Lemma setters_silent_on_invalid_witness :
  exists r : Resolver.t (A := QN.model),
    Resolver.init = Ok r
    /\ Resolver.ncomp_setter (VBool true) r = (Ok tt, r)
    /\ Resolver.ncomp_setter (VInt 1) r = (Ok tt, r)
    /\ (exists r',
          Resolver.ncomp_setter (VInt 3) r = (Ok tt, r')
          /\ Resolver.ncomp r' = 3
          /\ map algorithms.name (Resolver.params r')
             = ["beta1"; "eta1"; "beta2"; "eta2"; "beta3"; "eta3";
                "f1"; "f2"]
          /\ Resolver.defaults r'
             = [VInt 1; VInt 1; VInt 1; VInt 1; VInt 1; VInt 1;
                VFloat (div (of_Z 1) (of_Z 3));
                VFloat (div (of_Z 1) (of_Z 3))]
          /\ Resolver.initial_guess r' = Resolver.defaults r'
          /\ Py.len (Resolver.bounds r') = 8
          /\ Py.len (Resolver.constrains r') = 1
          /\ algorithms.lam_params (Resolver.mixed_func r')
             = ["x"; "beta1"; "eta1"; "beta2"; "eta2"; "beta3"; "eta3";
                "f1"; "f2"])
    /\ Resolver.distribution_type_setter (VInt 2) r = (Ok tt, r).
Proof.
  destruct (init_succeeds (A := QN.model)) as [r Hinit].
  exists r. split; [exact Hinit|].
  split; [|split; [|split]].
  - destruct (setters_silent_on_invalid r (VBool true)) as (H & _).
    apply H. intros n Hn. discriminate Hn.
  - destruct (setters_silent_on_invalid r (VInt 1)) as (_ & _ & H & _).
    exact H.
  - destruct (setters_silent_on_invalid r (VInt 3)) as (_ & _ & _ & H & _).
    destruct (H 3 eq_refl ltac:(lia))
      as (r' & Hs & Hn & Hget & Hg & _ & Hb & _).
    exists r'. split; [exact Hs|]. split; [exact Hn|].
    assert (Hthree : algorithms.get_mixed_weibull (A := QN.model) (VInt 3)
                     = Ok (Resolver.mixed_func r', Resolver.bounds r',
                           Resolver.constrains r', Resolver.defaults r',
                           Resolver.params r')) by exact Hget.
    clear Hget.
    revert Hthree.
    destruct (@get_mixed_weibull_ok QN.model 3 ltac:(lia))
      as (f & p & Hp & Hlam & ->).
    injection Hp as <-. injection Hlam as <-.
    intros E. injection E as E1 E2 E3 E4 E5.
    rewrite <- E4 in Hg. rewrite <- E1, <- E2, <- E3, <- E4, <- E5.
    repeat split; try reflexivity; exact Hg.
  - destruct (setters_silent_on_invalid r (VInt 2)) as (_ & _ & _ & _ & H).
    apply H. intros d Hd. discriminate Hd.
Defined.

(* ===================================================================== *)
(** * The joint resolver's bookkeeping (udm/_resolver.py)                 *)
(* ===================================================================== *)

Section RecordingFacts.

Context {A : arith} {M : UDMResolver.training}.

Import UDMResolver.

Variables (step : module_state -> module_state)
          (dl cl : module_state -> num).

Lemma map_iter_shift (X : Type) (g : module_state -> X)
  (u : module_state) (m a n : nat) :
  map (fun j => g (Nat.iter j step (Nat.iter m step u))) (seq a n)
  = map (fun j => g (Nat.iter j step u)) (seq (m + a) n).
Proof.
  revert a. induction n as [|n IH]; intros a; [reflexivity|].
  cbn [seq map]. rewrite IH, <- Nat.iter_add.
  replace (m + S a)%nat with (S (m + a)) by lia.
  do 3 f_equal. lia.
Qed.

Lemma recorded_refl (st : fit_state) : recorded step dl cl st 0 st.
Proof. unfold recorded. simpl. now rewrite !app_nil_r. Qed.

Lemma recorded_trans (a b c : fit_state) (m n : nat) :
  recorded step dl cl a m b -> recorded step dl cl b n c ->
  recorded step dl cl a (m + n) c.
Proof.
  intros (Hu & Hd & Hc & Hh) (Hu' & Hd' & Hc' & Hh').
  unfold recorded.
  assert (E0 : seq 0 (m + n) = seq 0 m ++ seq (m + 0) n)
    by (rewrite seq_app; do 2 f_equal; lia).
  assert (E1 : seq 1 (m + n) = seq 1 m ++ seq (m + 1) n)
    by (rewrite seq_app; do 2 f_equal; lia).
  rewrite Hu', Hd', Hc', Hh', Hd, Hc, Hh, Hu, !map_iter_shift.
  rewrite E0, E1, !map_app, <- !app_assoc.
  replace (m + n)%nat with (n + m)%nat by lia.
  rewrite Nat.iter_add.
  repeat split; reflexivity.
Qed.

Lemma recorded_lengths (a b : fit_state) (n : nat) :
  recorded step dl cl a n b ->
  List.length (distribution_loss_series b)
  = (List.length (distribution_loss_series a) + n)%nat
  /\ List.length (component_loss_series b)
     = (List.length (component_loss_series a) + n)%nat
  /\ List.length (history b) = (List.length (history a) + n)%nat.
Proof.
  intros (_ & Hd & Hc & Hh). rewrite Hd, Hc, Hh.
  now rewrite !length_app, !length_map, !length_seq.
Qed.

End RecordingFacts.

Section LoopFacts.

Context {A : arith} {M : UDMResolver.training}.

Import UDMResolver.

Variable s : UDMAlgorithmSetting.

(** The component-loss entry the main loop appends. *)
Local Notation "'pretrain_recorded'" :=
  (recorded pretrain_step pretrain_distribution_loss (fun _ => of_Q 0)).

Local Notation "'train_recorded'" :=
  (recorded train_step distribution_loss
            (fun m => mul (constraint_weight s) (component_loss m))).

Lemma pretrain_loop_recorded (n : nat) (st : fit_state) :
  pretrain_recorded st n (pretrain_loop n st).
Proof.
  revert st. induction n as [|n IH]; intros st.
  - apply recorded_refl.
  - change (S n) with (1 + n)%nat at 1.
    apply recorded_trans with (b := pretrain_body st); [|apply IH].
    unfold recorded, pretrain_body. simpl. auto.
Qed.

Lemma train_update_recorded (st : fit_state) :
  train_recorded st 1 (train_update s st).
Proof. unfold recorded, train_update. simpl. auto. Qed.

Lemma train_body_cases (epoch : Z) (st : fit_state) :
  (isnan (total_loss s (udm st)) = true
   /\ train_body s epoch st = BreakNaN st)
  \/ (isnan (total_loss s (udm st)) = false
      /\ early_stop s epoch (distribution_loss_series (train_update s st)) = true
      /\ train_body s epoch st = BreakEarly (train_update s st))
  \/ (isnan (total_loss s (udm st)) = false
      /\ early_stop s epoch (distribution_loss_series (train_update s st)) = false
      /\ train_body s epoch st = Continue (train_update s st)).
Proof.
  unfold train_body.
  destruct (isnan (total_loss s (udm st))); [now left|right].
  cbv zeta.
  destruct (early_stop s epoch (distribution_loss_series (train_update s st)));
    [left|right]; auto.
Qed.

(** Whatever way the main loop ends, it has recorded some number [n] of
    complete iterations, at most its range. *)
Lemma train_loop_recorded (fuel : nat) (epoch : Z) (st : fit_state) :
  exists n, (n <= fuel)%nat
            /\ train_recorded st n (train_loop s fuel epoch st).
Proof.
  revert epoch st. induction fuel as [|fuel IH]; intros epoch st.
  - exists 0%nat. split; [lia|apply recorded_refl].
  - cbn [train_loop].
    destruct (train_body_cases epoch st)
      as [(_ & ->)|[(_ & _ & ->)|(_ & _ & ->)]].
    + exists 0%nat. split; [lia|apply recorded_refl].
    + exists 1%nat. split; [lia|apply train_update_recorded].
    + destruct (IH (epoch + 1) (train_update s st)) as (n & Hn & Hr).
      exists (1 + n)%nat. split; [lia|].
      eapply recorded_trans; [apply train_update_recorded|exact Hr].
Qed.

Lemma state_at_recorded (i : nat) (st0 st : fit_state) :
  state_at s i st0 = Some st -> train_recorded st0 i st.
Proof.
  revert st. induction i as [|k IH]; intros st H; simpl in H.
  - injection H as <-. apply recorded_refl.
  - destruct (state_at s k st0) as [stk|] eqn:Hk; [|discriminate].
    destruct (train_body_cases (Z.of_nat k) stk)
      as [(_ & Hb)|[(_ & _ & Hb)|(_ & _ & Hb)]];
      rewrite Hb in H; try discriminate.
    injection H as <-.
    replace (S k) with (k + 1)%nat by lia.
    eapply recorded_trans; [apply IH; reflexivity|apply train_update_recorded].
Qed.

(** A run that gets to the start of epoch [i] continues from there. *)
Lemma train_loop_from_state_at (i fuel : nat) (st0 st : fit_state) :
  state_at s i st0 = Some st -> (i <= fuel)%nat ->
  train_loop s fuel 0 st0 = train_loop s (fuel - i) (Z.of_nat i) st.
Proof.
  revert st. induction i as [|k IH]; intros st H Hle; simpl in H.
  - injection H as <-. now rewrite Nat.sub_0_r.
  - destruct (state_at s k st0) as [stk|] eqn:Hk; [|discriminate].
    destruct (train_body s (Z.of_nat k) stk) as [st'| |] eqn:Hb;
      try discriminate.
    injection H as <-.
    rewrite (IH stk eq_refl) by lia.
    replace (fuel - k)%nat with (S (fuel - S k)) by lia.
    cbn [train_loop]. rewrite Hb. f_equal. lia.
Qed.

Lemma recorded_last (step : module_state -> module_state)
  (dl cl : module_state -> num) (st0 st : fit_state) (n : nat)
  (d : snapshot) :
  recorded step dl cl st0 n st -> (0 < n)%nat ->
  last (history st) d = params_of (udm st).
Proof.
  intros (Hu & _ & _ & Hh) Hn. rewrite Hh, Hu.
  destruct n as [|n]; [lia|].
  rewrite seq_S, map_app, app_assoc. simpl. now rewrite last_last.
Qed.

Lemma after_pretrain_recorded (udm0 : module_state) :
  pretrain_recorded (initial_state udm0) (Z.to_nat (pretrain_epochs s))
                    (after_pretrain s udm0).
Proof. apply pretrain_loop_recorded. Qed.

(** C8 (amended).  If the main loop gets to the start of epoch [i] (counted
    from [0]) and the total loss is NaN there, [try_fit] returns the state of
    that moment: nothing is appended for the NaN iteration, so the history
    and both loss series have exactly [pretrain_epochs + i] entries, the
    iteration count of the result is [pretrain_epochs + i], the module has
    taken [i] main steps, and the final parameters are those of the last
    recorded snapshot. *)
Theorem try_fit_nan_stop (udm0 : module_state) (i : nat) (st : fit_state)
  (d : snapshot) :
  state_at s i (after_pretrain s udm0) = Some st ->
  (i < Z.to_nat (max_epochs s))%nat ->
  isnan (total_loss s (udm st)) = true ->
  final_state s udm0 = st
  /\ List.length (result_history (try_fit s udm0))
     = (Z.to_nat (pretrain_epochs s) + i)%nat
  /\ n_iterations (try_fit s udm0)
     = Z.of_nat (Z.to_nat (pretrain_epochs s) + i)
  /\ List.length (result_distribution_loss_series (try_fit s udm0))
     = (Z.to_nat (pretrain_epochs s) + i)%nat
  /\ List.length (result_component_loss_series (try_fit s udm0))
     = (Z.to_nat (pretrain_epochs s) + i)%nat
  /\ final_params (try_fit s udm0)
     = params_of (trajectory udm0 (Z.to_nat (pretrain_epochs s)) i)
  /\ ((0 < Z.to_nat (pretrain_epochs s) + i)%nat ->
      last (result_history (try_fit s udm0)) d = final_params (try_fit s udm0)).
Proof.
  intros Hst Hi Hnan.
  assert (Hfinal : final_state s udm0 = st).
  { unfold final_state. rewrite (train_loop_from_state_at _ Hst) by lia.
    replace (Z.to_nat (max_epochs s) - i)%nat
      with (S (Z.to_nat (max_epochs s) - S i)) by lia.
    cbn [train_loop].
    destruct (train_body_cases (Z.of_nat i) st)
      as [(_ & ->)|[(Hf & _)|(Hf & _)]]; [reflexivity| |]; congruence. }
  pose proof (after_pretrain_recorded udm0) as Hp.
  pose proof (state_at_recorded _ _ Hst) as Hr.
  destruct (recorded_lengths Hp) as (Ld & Lc & Lh).
  destruct (recorded_lengths Hr) as (Ld' & Lc' & Lh').
  simpl in Ld, Lc, Lh.
  unfold n_iterations, Py.len, try_fit.
  cbn [result_history result_distribution_loss_series
       result_component_loss_series final_params].
  rewrite Hfinal.
  split; [reflexivity|].
  split; [now rewrite Lh', Lh|].
  split; [now rewrite Lh', Lh|].
  split; [now rewrite Ld', Ld|].
  split; [now rewrite Lc', Lc|].
  split.
  - destruct Hr as (-> & _). destruct Hp as (-> & _). reflexivity.
  - intros Hpos. destruct i as [|i].
    + simpl in Hst. injection Hst as <-.
      apply (recorded_last d Hp). lia.
    + apply (recorded_last d Hr). lia.
Qed.

End LoopFacts.

Section ReachFacts.

Context {A : arith} {M : UDMResolver.training}.

Import UDMResolver.

Variable s : UDMAlgorithmSetting.
Variable udm0 : module_state.

Lemma state_at_prefix (k : nat) (st : fit_state) :
  state_at s (S k) (after_pretrain s udm0) = Some st ->
  exists stk, state_at s k (after_pretrain s udm0) = Some stk
              /\ train_body s (Z.of_nat k) stk = Continue st.
Proof.
  cbn [state_at].
  destruct (state_at s k (after_pretrain s udm0)) as [stk|]; [|discriminate].
  destruct (train_body s (Z.of_nat k) stk) as [st'| |] eqn:Hb;
    try discriminate.
  intros [= <-]. eauto.
Qed.

Lemma state_at_below (i j : nat) (st : fit_state) :
  state_at s j (after_pretrain s udm0) = Some st -> (i <= j)%nat ->
  exists st', state_at s i (after_pretrain s udm0) = Some st'.
Proof.
  revert st. induction j as [|j IH]; intros st Hj Hi.
  - replace i with 0%nat by lia. eauto.
  - destruct (Nat.eq_dec i (S j)) as [->|Hne]; [eauto|].
    destruct (@state_at_prefix j st Hj) as (stj & Hstj & _).
    apply (IH stj Hstj). lia.
Qed.

End ReachFacts.

(** The run of [diverging] under [short_setting]: one pretrain iteration,
    two complete main iterations, NaN at main epoch [2]. *)
Example diverging_run :
  UDMResolver.try_fit UDMResolver.short_setting UDMResolver.diverging_start
  = @UDMResolver.Build_UDMResult QN.model UDMResolver.diverging
      [QN.rat 1; QN.rat (1 # 2); QN.rat (1 # 2)]
      [QN.rat 0; QN.rat 0; QN.rat 0]
      3%nat
      [1; 2; 3]%nat.
Proof. reflexivity. Qed.

(** The theorem on that run. *)
Lemma try_fit_nan_stop_witness :
  exists st,
    UDMResolver.state_at UDMResolver.short_setting 2
      (UDMResolver.after_pretrain UDMResolver.short_setting
         UDMResolver.diverging_start) = Some st
    /\ isnan (UDMResolver.total_loss UDMResolver.short_setting
                (UDMResolver.udm st)) = true
    /\ List.length
         (UDMResolver.result_history
            (UDMResolver.try_fit
               UDMResolver.short_setting UDMResolver.diverging_start)) = 3%nat
    /\ UDMResolver.n_iterations
         (UDMResolver.try_fit
            UDMResolver.short_setting UDMResolver.diverging_start) = 3.
Proof.
  eexists. split; [reflexivity|]. split; [reflexivity|].
  destruct (@try_fit_nan_stop QN.model UDMResolver.diverging
              UDMResolver.short_setting UDMResolver.diverging_start 2%nat _ 0%nat
              eq_refl ltac:(simpl; lia) eq_refl)
    as (_ & H1 & H2 & _).
  split; [exact H1 | exact H2].
Defined.

(** C8 as stated fails as soon as there is a pretrain phase: on the run
    above the loss is NaN at main-phase epoch [2], and the history has
    three entries, not two; the iteration count is three as well. *)
Lemma nan_stop_counts_pretrain_counterexample :
  exists st,
    UDMResolver.state_at UDMResolver.short_setting 2
      (UDMResolver.after_pretrain UDMResolver.short_setting
         UDMResolver.diverging_start) = Some st
    /\ isnan (UDMResolver.total_loss UDMResolver.short_setting
                (UDMResolver.udm st)) = true
    /\ List.length
         (UDMResolver.result_history
            (UDMResolver.try_fit
               UDMResolver.short_setting UDMResolver.diverging_start)) <> 2%nat
    /\ UDMResolver.n_iterations
         (UDMResolver.try_fit
            UDMResolver.short_setting UDMResolver.diverging_start) <> 2.
Proof.
  eexists. split; [reflexivity|]. split; [reflexivity|].
  split; discriminate.
Qed.

(** That run stops after exactly one hundred main-phase iterations. *)
Example plateau_run_length :
  List.length
    (UDMResolver.result_history
       (UDMResolver.try_fit
          UDMResolver.long_setting UDMResolver.plateau_start)) = 103%nat.
Proof. vm_compute. reflexivity. Qed.

(* ===================================================================== *)
(** * Further properties of the kernel library (algorithms.py)            *)
(* ===================================================================== *)

Section HandWritten.

Context {A : arith}.

Import algorithms.

(** The mixtures written out by hand for two, three and four components
    are the functions [get_mixed_weibull] generates for these counts: on
    every argument list the generated lambda returns what [double_weibull],
    [triple_weibull] and [quadruple_weibull] return, operation for
    operation. *)
Theorem hand_written_mixtures_agree
  (x b1 e1 b2 e2 b3 e3 b4 e4 f1 f2 f3 : num) :
  (exists mixed bs cs ds ps,
     get_mixed_weibull (VInt 2) = Ok (mixed, bs, cs, ds, ps)
     /\ mixed_call mixed x [b1; e1; b2; e2; f1]
        = Ok (double_weibull x b1 e1 b2 e2 f1))
  /\ (exists mixed bs cs ds ps,
        get_mixed_weibull (VInt 3) = Ok (mixed, bs, cs, ds, ps)
        /\ mixed_call mixed x [b1; e1; b2; e2; b3; e3; f1; f2]
           = Ok (triple_weibull x b1 e1 b2 e2 b3 e3 f1 f2))
  /\ (exists mixed bs cs ds ps,
        get_mixed_weibull (VInt 4) = Ok (mixed, bs, cs, ds, ps)
        /\ mixed_call mixed x [b1; e1; b2; e2; b3; e3; b4; e4; f1; f2; f3]
           = Ok (quadruple_weibull x b1 e1 b2 e2 b3 e3 b4 e4 f1 f2 f3)).
Proof.
  split; [|split].
  - destruct (@get_mixed_weibull_ok A 2 ltac:(lia)) as (f & p & Hp & Hf & H).
    do 5 eexists. split; [exact H|].
    injection Hp as <-. injection Hf as <-. reflexivity.
  - destruct (@get_mixed_weibull_ok A 3 ltac:(lia)) as (f & p & Hp & Hf & H).
    do 5 eexists. split; [exact H|].
    injection Hp as <-. injection Hf as <-. reflexivity.
  - destruct (@get_mixed_weibull_ok A 4 ltac:(lia)) as (f & p & Hp & Hf & H).
    do 5 eexists. split; [exact H|].
    injection Hp as <-. injection Hf as <-. reflexivity.
Qed.

End HandWritten.

Section BuilderDomain.

Context {A : arith}.

Import algorithms.

(** On which counts [get_mixed_weibull] returns.  It returns for every int
    from [1] on; an int below [1] raises [ValueError]; anything that is not
    an int raises [TypeError] -- a bool too, [True] does not count as
    [1]. *)
Theorem get_mixed_weibull_domain (v : value) :
  (forall n, v = VInt n -> 1 <= n ->
     exists layout, get_mixed_weibull v = Ok layout)
  /\ (forall n, v = VInt n -> n <= 0 ->
        get_mixed_weibull v = Raise ValueError)
  /\ ((forall n, v <> VInt n) -> get_mixed_weibull v = Raise TypeError)
  /\ get_mixed_weibull (VBool true) = Raise TypeError.
Proof.
  split; [|split; [|split]].
  - intros n -> Hn.
    destruct (@get_mixed_weibull_ok A n Hn) as (f & p & _ & _ & H). eauto.
  - intros n -> Hn. unfold get_mixed_weibull, _check_ncomp.
    destruct (Z.leb_spec n 0); [reflexivity|lia].
  - intros H. destruct v; try reflexivity. now destruct (H z).
  - reflexivity.
Qed.

Lemma positions_nodup (T : Type) (pos : T -> option nat) (l : list T) :
  (forall m t, nth_error l m = Some t -> pos t = Some m) -> NoDup l.
Proof.
  intros H. apply NoDup_nth_error. intros i j Hi E.
  destruct (nth_error l i) as [t|] eqn:Et.
  - pose proof (H i t Et) as Pi. symmetry in E.
    pose proof (H j t E) as Pj. congruence.
  - apply nth_error_None in Et. lia.
Qed.

(** The generated lambda is well formed and total on its arity.  Its
    parameters are [x] followed by the names of the layout, no name occurs
    twice (so the text is accepted by [exec]), a call with [x] and as many
    further arguments as the layout has entries returns a value (so every
    name of the body is bound), and a call with any other number of
    arguments raises [TypeError]. *)
Theorem mixed_func_arity (k : Z) (mixed : lambda)
  (bs : list (value * value)) (cs : list constraint) (ds : list value)
  (ps : list param) :
  get_mixed_weibull (VInt k) = Ok (mixed, bs, cs, ds, ps) ->
  lam_params mixed = "x" :: map name ps
  /\ NoDup (lam_params mixed)
  /\ (forall x fitted, Py.len fitted = Py.len ps ->
        exists v, mixed_call mixed x fitted = Ok v)
  /\ (forall x fitted, Py.len fitted <> Py.len ps ->
        mixed_call mixed x fitted = Raise TypeError).
Proof.
  intros Hget.
  destruct (get_mixed_weibull_inv _ Hget) as (Hk & Hps & Hlam & _).
  pose proof (_get_params_length _ Hps) as Hlen.
  assert (Hpar : lam_params mixed = "x" :: map name ps).
  { revert Hlam Hps. unfold _get_lambda, _get_params.
    destruct (Z.eqb_spec k 1).
    - intros [= <-] [= <-]. reflexivity.
    - destruct (Z.ltb_spec 1 k); [|discriminate].
      intros [= <-] _. reflexivity. }
  split; [exact Hpar|].
  destruct (Z.eq_dec k 1) as [->|Hne].
  - injection Hps as <-. injection Hlam as <-.
    split; [|split].
    + repeat constructor; cbn [In]; intros H;
        repeat (destruct H as [H|H]; try discriminate H); exact H.
    + intros x fitted Hf.
      destruct fitted as [|b [|e [|? ?]]];
        try (exfalso; unfold Py.len in Hf; cbn [List.length] in Hf; lia).
      eexists. reflexivity.
    + intros x fitted Hf. unfold mixed_call, call.
      cbn [lam_params List.length].
      destruct (Nat.eqb_spec (S (List.length fitted)) 3) as [E|E];
        [|reflexivity].
      exfalso. apply Hf. unfold Py.len. cbn [List.length]. lia.
  - destruct (Z_of_nat_complete k ltac:(lia)) as [n ->].
    assert (Hn : (2 <= n)%nat) by lia.
    rewrite (_get_params_many (k := Z.of_nat n)) in Hps by lia.
    injection Hps as <-.
    split; [|split].
    + rewrite Hpar.
      destruct (@layout_names_positions A n (repeat (of_Z 0) (3 * n - 1))
                  Hn (repeat_length _ _)) as (pos & Hpos).
      apply (positions_nodup pos). exact Hpos.
    + intros x fitted Hf.
      assert (Hfit : List.length fitted = (3 * n - 1)%nat)
        by (unfold Py.len in *; lia).
      rewrite (@mixed_call_many A n fitted x Hn Hfit mixed Hlam). eauto.
    + intros x fitted Hf. unfold mixed_call, call. rewrite Hpar.
      cbn [List.length]. rewrite length_map.
      destruct (Nat.eqb_spec (S (List.length fitted))
                             (S (List.length
                                   (flat_map shape_scale_pair
                                      (Py.range (Z.of_nat n))
                                    ++ map (fraction_param (Z.of_nat n))
                                         (Py.range (Z.of_nat n - 1))))))
        as [E|E]; [|reflexivity].
      exfalso. apply Hf. unfold Py.len. lia.
Qed.

End BuilderDomain.

(** The theorem at three components, in the rational instance. *)
Lemma mixed_func_arity_witness :
  exists mixed bs cs ds ps,
    algorithms.get_mixed_weibull (A := QN.model) (VInt 3)
    = Ok (mixed, bs, cs, ds, ps)
    /\ NoDup (algorithms.lam_params mixed)
    /\ algorithms.mixed_call mixed (QN.rat 1) [QN.rat 1; QN.rat 2]
       = Raise TypeError.
Proof.
  destruct (@get_mixed_weibull_ok QN.model 3 ltac:(lia))
    as (f & p & Hp & _ & H).
  destruct (@mixed_func_arity QN.model 3 _ _ _ _ _ H) as (_ & Hd & _ & Hbad).
  do 5 eexists. split; [exact H|]. split; [exact Hd|].
  apply Hbad. rewrite (_get_params_length _ Hp). discriminate.
Defined.

Section OrderKept.

Context {A : arith}.

Import algorithms.

Lemma map_seq_sorted (T : Type) (R : T -> T -> Prop) (f : nat -> T)
  (a n : nat) :
  (forall i j, (a <= i < j)%nat -> (j < a + n)%nat -> R (f i) (f j)) ->
  StronglySorted R (map f (seq a n)).
Proof.
  revert a. induction n as [|n IH]; intros a H; cbn [seq map]; constructor.
  - apply IH. intros i j Hij Hj. apply H; lia.
  - apply Forall_forall. intros y Hy. apply in_map_iff in Hy.
    destruct Hy as (j & <- & Hj). apply in_seq in Hj. apply H; lia.
Qed.

(** A vector whose components already come in non-decreasing mean order is
    decoded in that order: when no component's mean compares smaller than
    the mean of a component before it, [process_params] returns the triples
    in the order of the vector.  In particular components of equal mean are
    not exchanged. *)
Theorem process_params_keeps_order (k : Z) (fitted : list num)
  (mixed : lambda) (bs : list (value * value)) (cs : list constraint)
  (ds : list value) (ps : list param) :
  2 <= k ->
  get_mixed_weibull (VInt k) = Ok (mixed, bs, cs, ds, ps) ->
  Py.len fitted = Py.len ps ->
  (forall i j, (i < j)%nat -> (j < Z.to_nat k)%nat ->
     ltb (weibull_mean (nth (2 * j) fitted (of_Z 0))
                       (nth (2 * j + 1) fitted (of_Z 0)))
         (weibull_mean (nth (2 * i) fitted (of_Z 0))
                       (nth (2 * i + 1) fitted (of_Z 0))) = false) ->
  process_params k ps fitted
  = Ok (map (layout_triple (Z.to_nat k) fitted) (seq 0 (Z.to_nat k))).
Proof.
  intros Hk Hget Hlen Hord.
  destruct (get_mixed_weibull_inv _ Hget) as (_ & Hps & _).
  pose proof (_get_params_length _ Hps) as Hn.
  destruct (Z_of_nat_complete k ltac:(lia)) as [n ->].
  rewrite Nat2Z.id in *.
  assert (Hn2 : (2 <= n)%nat) by lia.
  assert (Hfit : List.length fitted = (3 * n - 1)%nat)
    by (unfold Py.len in *; lia).
  rewrite (process_params_many _ Hn2 Hfit Hps).
  rewrite combine_map_seq, sort_keyed_ascending.
  - now rewrite map_map.
  - apply map_seq_sorted. intros i j Hij Hj. unfold Py.key_le.
    cbn [fst]. apply Hord; lia.
Qed.

End OrderKept.

(** The theorem on the vector [beta1 = 1, eta1 = 2, beta2 = 1, eta2 = 3,
    f1 = 1/4], whose means are [2] and [3]. *)
Lemma process_params_keeps_order_witness :
  exists mixed bs cs ds ps,
    algorithms.get_mixed_weibull (A := QN.model) (VInt 2)
    = Ok (mixed, bs, cs, ds, ps)
    /\ algorithms.process_params 2 ps (map QN.rat [1; 2; 1; 3; 1 # 4]%Q)
       = Ok [ [VFloat (QN.rat 1); VFloat (QN.rat 2); VFloat (QN.rat (1 # 4))];
              [VFloat (QN.rat 1); VFloat (QN.rat 3);
               VFloat (QN.rat (3 # 4))] ].
Proof.
  destruct (@get_mixed_weibull_ok QN.model 2 ltac:(lia))
    as (f & p & Hp & _ & H).
  do 5 eexists. split; [exact H|].
  rewrite (@process_params_keeps_order QN.model 2
             (map QN.rat [1; 2; 1; 3; 1 # 4]%Q) _ _ _ _ _
             ltac:(lia) H).
  - reflexivity.
  - rewrite (_get_params_length _ Hp). reflexivity.
  - intros i j Hij Hj.
    assert (E : i = 0%nat /\ j = 1%nat) by (simpl in Hj; lia).
    destruct E as [-> ->]. reflexivity.
Defined.

(** The text of the lambda for three components. *)
Lemma lambda_text_many_witness :
  exists ps f,
    algorithms._get_params (A := QN.model) 3 = Ok ps
    /\ algorithms._get_lambda 3 ps = Ok f
    /\ algorithms._get_lambda_string 3 ps
       = Ok (algorithms.unparse_lambda f).
Proof.
  do 2 eexists. split; [reflexivity|]. split; [reflexivity|].
  apply (@lambda_text_many QN.model 3 _ _ ltac:(lia) eq_refl).
Defined.

Section LengthFacts.

Context {A : arith}.

Import algorithms.

Lemma getitem_app_l (T : Type) (l e : list T) (i : Z) :
  0 <= i < Py.len l -> Py.getitem (l ++ e) i = Py.getitem l i.
Proof.
  intros Hi. unfold Py.getitem, Py.len in *. rewrite length_app.
  destruct (Z.ltb_spec i 0); [lia|].
  destruct (Z.ltb_spec i 0); [lia|].
  destruct (Z.leb_spec (Z.of_nat (List.length l + List.length e)) i); [lia|].
  destruct (Z.leb_spec (Z.of_nat (List.length l)) i); [lia|].
  cbn [orb]. now rewrite nth_error_app1 by lia.
Qed.

Lemma getitem_at_length (T : Type) (l : list T) :
  Py.getitem l (Py.len l) = Raise IndexError.
Proof.
  unfold Py.getitem, Py.len.
  destruct (Z.ltb_spec (Z.of_nat (List.length l)) 0); [lia|].
  destruct (Z.ltb_spec (Z.of_nat (List.length l)) 0); [lia|].
  destruct (Z.leb_spec (Z.of_nat (List.length l)) (Z.of_nat (List.length l)));
    [reflexivity|lia].
Qed.

Lemma process_one_tail (fitted extra : list num)
  (processed : list (list value)) (q : param) :
  0 <= location q < Py.len fitted ->
  process_one (fitted ++ extra) processed q = process_one fitted processed q.
Proof.
  intros Hq. unfold process_one.
  destruct (Py.startswith (name q) "beta").
  { destruct (Py.int_of_str (Py.str_drop 4 (name q))) as [z|]; cbn [bind];
      [|reflexivity].
    now rewrite getitem_app_l. }
  destruct (Py.startswith (name q) "eta").
  { destruct (Py.int_of_str (Py.str_drop 3 (name q))) as [z|]; cbn [bind];
      [|reflexivity].
    now rewrite getitem_app_l. }
  destruct (Py.startswith (name q) "f"); [|reflexivity].
  destruct (Py.int_of_str (Py.str_drop 1 (name q))) as [z|]; cbn [bind];
    [|reflexivity].
  now rewrite getitem_app_l by exact Hq.
Qed.

Lemma process_loop_tail (fitted extra : list num) (qs : list param)
  (processed : list (list value)) :
  Forall (fun q => 0 <= location q < Py.len fitted) qs ->
  process_loop (fitted ++ extra) qs processed
  = process_loop fitted qs processed.
Proof.
  intros H. revert processed.
  induction H as [|q qs Hq _ IH]; intros processed; [reflexivity|].
  cbn [process_loop]. rewrite (@process_one_tail fitted extra processed q Hq).
  destruct (process_one fitted processed q); cbn [bind]; [apply IH|reflexivity].
Qed.

Lemma process_loop_app (fitted : list num) (qs1 qs2 : list param)
  (processed : list (list value)) :
  process_loop fitted (qs1 ++ qs2) processed
  = do processed' <- process_loop fitted qs1 processed;
    process_loop fitted qs2 processed'.
Proof.
  revert processed. induction qs1 as [|q qs1 IH]; intros processed;
    [reflexivity|].
  cbn [app process_loop].
  destruct (process_one fitted processed q); cbn [bind]; [apply IH|reflexivity].
Qed.

Lemma locations_below (qs : list param) (n : nat) :
  map location qs = map Z.of_nat (seq 0 (List.length qs)) ->
  Forall (fun q => 0 <= location q < Z.of_nat n) (firstn n qs).
Proof.
  intros H. apply Forall_forall. intros q Hq.
  apply In_nth_error in Hq. destruct Hq as (i & Hi).
  assert (Hlt : (i < List.length (firstn n qs))%nat)
    by (apply nth_error_Some; congruence).
  rewrite length_firstn in Hlt.
  rewrite nth_error_firstn in Hi.
  destruct (Nat.ltb_spec i n); [|lia].
  assert (E : nth_error (map location qs) i = Some (location q))
    by (rewrite nth_error_map, Hi; reflexivity).
  rewrite H, nth_error_map, nth_error_seq in E.
  destruct (Nat.ltb_spec i (List.length qs)); [|lia].
  cbn [option_map] in E. injection E as E. lia.
Qed.

(** Every entry of a layout is named [beta], [eta] or [f] followed by the
    decimal spelling of an int. *)
Lemma layout_entry_name (k : Z) (q : param) :
  In q (flat_map shape_scale_pair (Py.range k)
        ++ map (fraction_param k) (Py.range (k - 1))) ->
  exists z, name q = ("beta" ++ Py.format_int z)%string
            \/ name q = ("eta" ++ Py.format_int z)%string
            \/ name q = ("f" ++ Py.format_int z)%string.
Proof.
  intros H. apply in_app_or in H. destruct H as [H|H].
  - apply in_flat_map in H. destruct H as (i & _ & Hq).
    cbn [shape_scale_pair In] in Hq.
    destruct Hq as [<-|[<-|[]]]; exists (i + 1); cbn [name]; auto.
  - apply in_map_iff in H. destruct H as (i & <- & _).
    exists (i + 1). cbn [name fraction_param]. auto.
Qed.

(** Reading a named entry from a position that the vector does not
    have. *)
Lemma process_one_out_of_range (fitted : list num)
  (processed : list (list value)) (q : param) (z : Z) :
  name q = ("beta" ++ Py.format_int z)%string
  \/ name q = ("eta" ++ Py.format_int z)%string
  \/ name q = ("f" ++ Py.format_int z)%string ->
  location q = Py.len fitted ->
  process_one fitted processed q = Raise IndexError.
Proof.
  intros Hname Hloc. unfold process_one. rewrite Hloc.
  destruct Hname as [E|[E|E]]; rewrite E.
  - rewrite startswith_beta.
    change (Py.str_drop 4 ("beta" ++ Py.format_int z))
      with (Py.format_int z).
    rewrite int_of_str_format. cbn [bind].
    now rewrite getitem_at_length.
  - rewrite eta_not_beta, startswith_eta.
    change (Py.str_drop 3 ("eta" ++ Py.format_int z))
      with (Py.format_int z).
    rewrite int_of_str_format. cbn [bind].
    now rewrite getitem_at_length.
  - rewrite f_not_beta, f_not_eta, startswith_f.
    change (Py.str_drop 1 ("f" ++ Py.format_int z))
      with (Py.format_int z).
    rewrite int_of_str_format. cbn [bind].
    now rewrite getitem_at_length.
Qed.

(** Entries of the fitted vector behind the layout are never read: for two
    or more components, a vector that is longer than the layout is decoded
    like its first [len(params)] entries (for one component the length is
    asserted instead). *)
Theorem process_params_ignores_tail (k : Z) (fitted extra : list num)
  (mixed : lambda) (bs : list (value * value)) (cs : list constraint)
  (ds : list value) (ps : list param) :
  2 <= k ->
  get_mixed_weibull (VInt k) = Ok (mixed, bs, cs, ds, ps) ->
  Py.len fitted = Py.len ps ->
  process_params k ps (fitted ++ extra) = process_params k ps fitted.
Proof.
  intros Hk Hget Hlen.
  destruct (get_mixed_weibull_inv _ Hget) as (_ & Hps & _).
  unfold process_params.
  destruct (Z.eqb_spec k 1); [lia|].
  destruct (Z.ltb_spec 1 k); [|lia].
  rewrite process_loop_tail; [reflexivity|].
  pose proof (_get_params_locations _ Hps) as Hloc.
  unfold Py.range, Py.len in Hloc. rewrite Nat2Z.id in Hloc.
  pose proof (locations_below ps (List.length ps) Hloc) as Hin.
  rewrite firstn_all in Hin. unfold Py.len in *.
  eapply Forall_impl; [|exact Hin]. cbv beta. intros q Hq. lia.
Qed.

(** A fitted vector that is shorter than the layout: [process_params]
    raises [IndexError] (for two or more components), at the first entry of
    the layout whose location the vector does not have.  No partly filled
    list is returned. *)
Theorem process_params_short_vector (k : Z) (fitted : list num)
  (mixed : lambda) (bs : list (value * value)) (cs : list constraint)
  (ds : list value) (ps : list param) :
  2 <= k ->
  get_mixed_weibull (VInt k) = Ok (mixed, bs, cs, ds, ps) ->
  Py.len fitted < Py.len ps ->
  process_params k ps fitted = Raise IndexError.
Proof.
  intros Hk Hget Hlen.
  destruct (get_mixed_weibull_inv _ Hget) as (_ & Hps & _).
  pose proof (_get_params_length _ Hps) as Hn.
  pose proof (_get_params_locations _ Hps) as Hloc.
  unfold Py.range, Py.len in Hloc. rewrite Nat2Z.id in Hloc.
  destruct (Z_of_nat_complete k ltac:(lia)) as [n ->].
  assert (Hn2 : (2 <= n)%nat) by lia.
  set (len := List.length fitted).
  assert (Hshort : (len < List.length ps)%nat)
    by (unfold Py.len in Hlen; subst len; lia).
  set (full := fitted ++ repeat (of_Z 0) (3 * n - 1 - len)).
  assert (Hfull : List.length full = (3 * n - 1)%nat).
  { unfold full. rewrite length_app, repeat_length.
    unfold Py.len in *. subst len. lia. }
  destruct (nth_error ps len) as [q|] eqn:Hq.
  2:{ apply nth_error_None in Hq. lia. }
  pose proof (nth_error_split ps len Hq) as (qs1 & qs2 & Esplit & Elen).
  assert (Hq_loc : location q = Py.len fitted).
  { assert (E : nth_error (map location ps) len = Some (location q))
      by (rewrite nth_error_map, Hq; reflexivity).
    rewrite Hloc, nth_error_map, nth_error_seq in E.
    destruct (Nat.ltb_spec len (List.length ps)); [|lia].
    cbn [option_map] in E. injection E as E. unfold Py.len. subst len. lia. }
  assert (Hq_name : exists z,
            name q = ("beta" ++ Py.format_int z)%string
            \/ name q = ("eta" ++ Py.format_int z)%string
            \/ name q = ("f" ++ Py.format_int z)%string).
  { apply (layout_entry_name (Z.of_nat n)).
    rewrite (_get_params_many (k := Z.of_nat n)) in Hps by lia.
    injection Hps as Hps. rewrite Hps.
    apply (nth_error_In _ _ Hq). }
  assert (Hfirst : Forall (fun q => 0 <= location q < Py.len fitted) qs1).
  { pose proof (locations_below ps len Hloc) as H.
    rewrite Esplit, firstn_app, Elen, Nat.sub_diag, firstn_O, app_nil_r in H.
    rewrite <- Elen, firstn_all in H. rewrite Elen in H. exact H. }
  unfold process_params.
  destruct (Z.eqb_spec (Z.of_nat n) 1); [lia|].
  destruct (Z.ltb_spec 1 (Z.of_nat n)); [|lia].
  pose proof (@process_loop_layout A n full Hn2 Hfull ps Hps) as Hall.
  rewrite Esplit, process_loop_app in Hall.
  unfold full in Hall. rewrite process_loop_tail in Hall by exact Hfirst.
  rewrite Esplit, process_loop_app.
  destruct (process_loop fitted qs1
              (map (fun _ : Z => [VNone; VNone; VInt 1])
                   (Py.range (Z.of_nat n)))) as [s1|e]; [|discriminate].
  cbn [bind process_loop].
  destruct Hq_name as (z & Hz).
  now rewrite (@process_one_out_of_range fitted s1 q z Hz Hq_loc).
Qed.

End LengthFacts.

(** The theorem on the two-component vector [beta1 = 1, eta1 = 2,
    beta2 = 1, eta2 = 3, f1 = 1/4] followed by one more entry. *)
Lemma process_params_ignores_tail_witness :
  exists mixed bs cs ds ps,
    algorithms.get_mixed_weibull (A := QN.model) (VInt 2)
    = Ok (mixed, bs, cs, ds, ps)
    /\ algorithms.process_params 2 ps
         (map QN.rat [1; 2; 1; 3; 1 # 4]%Q ++ [QN.rat 9])
       = algorithms.process_params 2 ps (map QN.rat [1; 2; 1; 3; 1 # 4]%Q).
Proof.
  destruct (@get_mixed_weibull_ok QN.model 2 ltac:(lia))
    as (f & p & Hp & _ & H).
  do 5 eexists. split; [exact H|].
  apply (@process_params_ignores_tail QN.model 2
           (map QN.rat [1; 2; 1; 3; 1 # 4]%Q) [QN.rat 9] _ _ _ _ _
           ltac:(lia) H).
  rewrite (_get_params_length _ Hp). reflexivity.
Defined.

(** The theorem on the first three entries of that vector. *)
Lemma process_params_short_vector_witness :
  exists mixed bs cs ds ps,
    algorithms.get_mixed_weibull (A := QN.model) (VInt 2)
    = Ok (mixed, bs, cs, ds, ps)
    /\ algorithms.process_params 2 ps (map QN.rat [1; 2; 1]%Q)
       = Raise IndexError.
Proof.
  destruct (@get_mixed_weibull_ok QN.model 2 ltac:(lia))
    as (f & p & Hp & _ & H).
  do 5 eexists. split; [exact H|].
  apply (@process_params_short_vector QN.model 2
           (map QN.rat [1; 2; 1]%Q) _ _ _ _ _ ltac:(lia) H).
  rewrite (_get_params_length _ Hp). reflexivity.
Defined.

(* ===================================================================== *)
(** * Weights and the constraint in exact arithmetic (algorithms.py)      *)
(* ===================================================================== *)

Section CanonicalInstance.

Import Qcanon.

Lemma QC_add_comm (a b : @num QC.model) : add a b = add b a.
Proof.
  destruct a as [x|]; destruct b as [y|]; cbn; try reflexivity.
  f_equal. ring.
Qed.

Lemma QC_add_assoc (a b c : @num QC.model) :
  add a (add b c) = add (add a b) c.
Proof.
  destruct a as [x|]; destruct b as [y|]; destruct c as [z|]; cbn;
    try reflexivity.
  f_equal. ring.
Qed.

Lemma QC_add_0_l (a : @num QC.model) : add (of_Z 0) a = a.
Proof.
  destruct a as [x|]; [|reflexivity].
  change (Some (Q2Qc 0 + x) = Some x). f_equal. ring.
Qed.

Lemma QC_add_sub_cancel (a b c : @num QC.model) :
  isnan c = false -> add (add a c) (sub b c) = add a b.
Proof.
  destruct a as [x|]; destruct b as [y|]; destruct c as [z|]; cbn;
    try reflexivity; try discriminate.
  intros _. f_equal. ring.
Qed.

Lemma QC_sub_add_distr (a b c : @num QC.model) :
  sub a (add b c) = sub (sub a b) c.
Proof.
  destruct a as [x|]; destruct b as [y|]; destruct c as [z|]; cbn;
    try reflexivity.
  f_equal. ring.
Qed.

Lemma QC_sub_0_r (a : @num QC.model) : sub a (of_Z 0) = a.
Proof.
  destruct a as [x|]; [|reflexivity].
  change (Some (x - Q2Qc 0) = Some x). f_equal. ring.
Qed.

End CanonicalInstance.

Section WeightFacts.

Context {A : arith}.

Import algorithms.

Lemma fractions_as_map (k : nat) (fitted : list num) :
  List.length fitted = (3 * k - 1)%nat ->
  map (fun i => nth (2 * k + i) fitted (of_Z 0)) (seq 0 (k - 1))
  = fractions k fitted.
Proof.
  intros Hlen. unfold fractions.
  rewrite (skipn_as_map fitted (2 * k) (of_Z 0)), Hlen.
  f_equal. f_equal. lia.
Qed.

(** The decoded rows, before and after the sort. *)
Lemma process_params_permutation (k : nat) (fitted : list num)
  (ps : list param) :
  (2 <= k)%nat -> List.length fitted = (3 * k - 1)%nat ->
  _get_params (Z.of_nat k) = Ok ps ->
  exists out,
    process_params (Z.of_nat k) ps fitted = Ok out
    /\ Permutation out (map (layout_triple k fitted) (seq 0 k)).
Proof.
  intros Hk Hlen Hps. rewrite (process_params_many _ Hk Hlen Hps).
  eexists. split; [reflexivity|].
  eapply Permutation_trans; [apply Permutation_map, sort_keyed_perm|].
  rewrite map_snd_combine; [apply Permutation_refl|].
  now rewrite !length_map.
Qed.

(** The weights of the rows in layout order: the fractions, then what they
    leave of [1]. *)
Lemma layout_weights (k : nat) (fitted : list num) :
  (2 <= k)%nat -> List.length fitted = (3 * k - 1)%nat ->
  map entry_weight (map (layout_triple k fitted) (seq 0 k))
  = map Some (fractions k fitted
              ++ [fold_left sub (fractions k fitted) (of_Z 1)]).
Proof.
  intros Hk Hlen.
  assert (Hseq : seq 0 k = seq 0 (k - 1) ++ [(k - 1)%nat]).
  { replace k with (k - 1 + 1)%nat at 1 by lia. now rewrite seq_app. }
  rewrite map_map, Hseq, !map_app. f_equal.
  - etransitivity; [|apply f_equal, (fractions_as_map k fitted Hlen)].
    rewrite map_map. apply map_ext_in. intros i Hi. apply in_seq in Hi.
    unfold layout_triple, entry_weight.
    destruct (Nat.ltb_spec (S i) k); [reflexivity|lia].
  - cbn [map]. unfold layout_triple, entry_weight.
    destruct (Nat.ltb_spec (S (k - 1)) k); [lia|reflexivity].
Qed.

Lemma map_some_inv (T : Type) (l : list (option T)) (ws : list T) :
  Permutation l (map Some ws) ->
  exists ws', l = map Some ws' /\ Permutation ws' ws.
Proof.
  intros H. remember (map Some ws) as l' eqn:E. revert ws E.
  induction H as [|x l l' _ IH|x y l|l l' l'' _ IH1 _ IH2]; intros ws E.
  - destruct ws; [|discriminate]. exists []. split; [reflexivity|constructor].
  - destruct ws as [|w ws]; [discriminate|]. injection E as -> E.
    destruct (IH ws E) as (ws' & -> & Hp).
    exists (w :: ws'). split; [reflexivity|now constructor].
  - destruct ws as [|w1 [|w2 ws]]; try discriminate.
    injection E as -> -> ->.
    exists (w2 :: w1 :: ws). split; [reflexivity|constructor].
  - destruct (IH2 ws E) as (ws2 & -> & Hp2).
    destruct (IH1 ws2 eq_refl) as (ws1 & -> & Hp1).
    exists ws1. split; [reflexivity|].
    eapply Permutation_trans; eassumption.
Qed.

Section Partition.

(** Exact arithmetic, as far as the weights need it: sums do not depend on
    the order of their terms, [0] is neutral, and adding a number that is
    not NaN to one side and subtracting it from the other leaves a sum as it
    was. *)
Hypothesis add_comm : forall a b : num, add a b = add b a.
Hypothesis add_assoc : forall a b c : num, add a (add b c) = add (add a b) c.
Hypothesis add_0_l : forall a : num, add (of_Z 0) a = a.
Hypothesis add_sub_cancel : forall a b c : num,
  isnan c = false -> add (add a c) (sub b c) = add a b.

Lemma sum_and_rest (fs : list num) (a b : num) :
  Forall (fun v => isnan v = false) fs ->
  add (fold_left add fs a) (fold_left sub fs b) = add a b.
Proof.
  intros H. revert a b. induction H as [|c fs Hc _ IH]; intros a b.
  - reflexivity.
  - cbn [fold_left]. rewrite IH. now apply add_sub_cancel.
Qed.

(** The decoded weights add up to one.  For two or more components and a
    vector of the layout's length whose fractions are not NaN, the third
    slots of the entries that [process_params] returns are numbers, and
    their sum is [1]: the last component of the layout gets what the
    fractions leave. *)
Theorem decoded_weights_sum_to_one (k : Z) (fitted : list num)
  (mixed : lambda) (bs : list (value * value)) (cs : list constraint)
  (ds : list value) (ps : list param) :
  2 <= k ->
  get_mixed_weibull (VInt k) = Ok (mixed, bs, cs, ds, ps) ->
  Py.len fitted = Py.len ps ->
  Forall (fun v => isnan v = false) (fractions (Z.to_nat k) fitted) ->
  exists out ws,
    process_params k ps fitted = Ok out
    /\ map entry_weight out = map Some ws
    /\ np_sum ws = of_Z 1.
Proof.
  intros Hk Hget Hlen Hnan.
  destruct (get_mixed_weibull_inv _ Hget) as (_ & Hps & _).
  pose proof (_get_params_length _ Hps) as Hn.
  destruct (Z_of_nat_complete k ltac:(lia)) as [n ->].
  rewrite Nat2Z.id in *.
  assert (Hn2 : (2 <= n)%nat) by lia.
  assert (Hfit : List.length fitted = (3 * n - 1)%nat)
    by (unfold Py.len in *; lia).
  destruct (@process_params_permutation n fitted ps Hn2 Hfit Hps)
    as (out & Hout & Hperm).
  pose proof (Permutation_map entry_weight Hperm) as Hw.
  rewrite (@layout_weights n fitted Hn2 Hfit) in Hw.
  destruct (map_some_inv _ Hw) as (ws & Hws & Hp).
  exists out, ws. split; [exact Hout|]. split; [exact Hws|].
  rewrite (np_sum_permutation add_comm add_assoc Hp).
  unfold np_sum. rewrite fold_left_app. cbn [fold_left].
  rewrite (@sum_and_rest _ (of_Z 0) (of_Z 1) Hnan). apply add_0_l.
Qed.

End Partition.

Section LastWeight.

(** Exact arithmetic, as far as the constraint needs it: subtracting a sum
    is subtracting its terms one after the other, and subtracting [0]
    changes nothing. *)
Hypothesis sub_add_distr : forall a b c : num,
  sub a (add b c) = sub (sub a b) c.
Hypothesis sub_0_r : forall a : num, sub a (of_Z 0) = a.

Lemma sub_of_sum (fs : list num) (a b : num) :
  sub a (fold_left add fs b) = fold_left sub fs (sub a b).
Proof.
  revert b. induction fs as [|c fs IH]; intros b; [reflexivity|].
  cbn [fold_left]. now rewrite IH, sub_add_distr.
Qed.

(** What the constraint measures.  For two or more components and a vector
    of the layout's length, the value of the constraint returned by
    [get_mixed_weibull] is the weight that [process_params] gives to the
    last component of the layout, plus [INFINITESIMAL]: the constraint keeps
    that weight from falling below [-1e-100]. *)
Theorem constraint_is_last_weight (k : Z) (fitted : list num)
  (mixed : lambda) (bs : list (value * value)) (cs : list constraint)
  (ds : list value) (ps : list param) :
  2 <= k ->
  get_mixed_weibull (VInt k) = Ok (mixed, bs, cs, ds, ps) ->
  Py.len fitted = Py.len ps ->
  exists out w,
    process_params k ps fitted = Ok out
    /\ In [VFloat (nth (2 * (Z.to_nat k - 1)) fitted (of_Z 0));
           VFloat (nth (2 * (Z.to_nat k - 1) + 1) fitted (of_Z 0));
           VFloat w] out
    /\ map (fun c => (ctype c, cfun c fitted)) cs
       = [("ineq", add w INFINITESIMAL)].
Proof.
  intros Hk Hget Hlen.
  destruct (get_mixed_weibull_inv _ Hget) as (_ & Hps & _ & _ & -> & _).
  pose proof (_get_params_length _ Hps) as Hn.
  destruct (Z_of_nat_complete k ltac:(lia)) as [n ->].
  rewrite Nat2Z.id in *.
  assert (Hn2 : (2 <= n)%nat) by lia.
  assert (Hfit : List.length fitted = (3 * n - 1)%nat)
    by (unfold Py.len in *; lia).
  destruct (@process_params_permutation n fitted ps Hn2 Hfit Hps)
    as (out & Hout & Hperm).
  exists out, (fold_left sub (fractions n fitted) (of_Z 1)).
  split; [exact Hout|]. split.
  - apply (Permutation_in _ (Permutation_sym Hperm)).
    apply in_map_iff. exists (n - 1)%nat. split.
    + unfold layout_triple.
      destruct (Nat.ltb_spec (S (n - 1)) n); [lia|reflexivity].
    + apply in_seq. lia.
  - rewrite constraint_many by (unfold Py.len in *; lia).
    do 3 f_equal. unfold np_sum.
    replace (Z.to_nat (2 * Z.of_nat n)) with (2 * n)%nat by lia.
    fold (fractions n fitted).
    now rewrite sub_of_sum, sub_0_r.
Qed.

End LastWeight.

End WeightFacts.

(** The theorem on the two-component vector [beta1 = 1, eta1 = 2,
    beta2 = 1, eta2 = 3, f1 = 1/4], in lowest-terms rationals. *)
Lemma decoded_weights_sum_to_one_witness :
  exists mixed bs cs ds ps out ws,
    algorithms.get_mixed_weibull (A := QC.model) (VInt 2)
    = Ok (mixed, bs, cs, ds, ps)
    /\ algorithms.process_params 2 ps (map QC.rat [1; 2; 1; 3; 1 # 4]%Q)
       = Ok out
    /\ map algorithms.entry_weight out = map Some ws
    /\ np_sum ws = of_Z 1.
Proof.
  destruct (@get_mixed_weibull_ok QC.model 2 ltac:(lia))
    as (f & p & Hp & _ & H).
  destruct (@decoded_weights_sum_to_one QC.model QC_add_comm QC_add_assoc
              QC_add_0_l QC_add_sub_cancel 2
              (map QC.rat [1; 2; 1; 3; 1 # 4]%Q) _ _ _ _ _
              ltac:(lia) H
              ltac:(rewrite (_get_params_length _ Hp); reflexivity)
              ltac:(repeat constructor))
    as (out & ws & Hout & Hws & Hsum).
  do 5 eexists. exists out, ws.
  split; [exact H|]. split; [exact Hout|]. split; [exact Hws | exact Hsum].
Defined.

(** The theorem on the same vector. *)
Lemma constraint_is_last_weight_witness :
  exists mixed bs cs ds ps out w,
    algorithms.get_mixed_weibull (A := QC.model) (VInt 2)
    = Ok (mixed, bs, cs, ds, ps)
    /\ algorithms.process_params 2 ps (map QC.rat [1; 2; 1; 3; 1 # 4]%Q)
       = Ok out
    /\ In [VFloat (QC.rat 1); VFloat (QC.rat 3); VFloat w] out
    /\ map (fun c => (algorithms.ctype c,
                      algorithms.cfun c (map QC.rat [1; 2; 1; 3; 1 # 4]%Q)))
           cs
       = [("ineq", add w algorithms.INFINITESIMAL)].
Proof.
  destruct (@get_mixed_weibull_ok QC.model 2 ltac:(lia))
    as (f & p & Hp & _ & H).
  destruct (@constraint_is_last_weight QC.model QC_sub_add_distr QC_sub_0_r
              2 (map QC.rat [1; 2; 1; 3; 1 # 4]%Q) _ _ _ _ _
              ltac:(lia) H
              ltac:(rewrite (_get_params_length _ Hp); reflexivity))
    as (out & w & Hout & Hin & Hc).
  do 5 eexists. exists out, w.
  split; [exact H|]. split; [exact Hout|]. split; [exact Hin | exact Hc].
Defined.

(* ===================================================================== *)
(** * The default vector against the bounds and the constraint            *)
(* ===================================================================== *)

Section Feasible.

Import algorithms.

Local Open Scope Q_scope.

(** The value a default stands for in the float vector. *)
Local Notation "'float_of' v" :=
  (match v with
   | VInt z => QN.rat (inject_Z z)
   | VFloat x => x
   | _ => QN.nan
   end) (at level 9, v at level 9).

Lemma QN_default_fraction (k : Z) :
  (2 <= k)%Z ->
  exists q, div (of_Z 1) (of_Z k) = QN.rat q /\ 0 < q /\ q < 1
            /\ inject_Z (k - 1) * q < 1.
Proof.
  intros Hk.
  assert (Hpos : 0 < inject_Z k) by (unfold Qlt; simpl; lia).
  assert (Hnz : ~ inject_Z k == 0) by (unfold Qeq; simpl; lia).
  unfold div, of_Z, of_Q. cbn [QN.model]. unfold QN.qdiv.
  destruct (Qeq_bool (inject_Z k) 0) eqn:E.
  { apply Qeq_bool_eq in E. contradiction. }
  exists (Qred (inject_Z 1 / inject_Z k)). split; [reflexivity|].
  rewrite Qred_correct.
  split; [|split].
  - apply Qlt_shift_div_l; [exact Hpos|]. unfold Qlt. simpl. lia.
  - apply Qlt_shift_div_r; [exact Hpos|].
    rewrite Qmult_1_l, <- Zlt_Qlt. lia.
  - assert (Ediv : inject_Z (k - 1) * (inject_Z 1 / inject_Z k)
                   == inject_Z (k - 1) / inject_Z k)
      by (change (inject_Z 1) with 1; field; exact Hnz).
    rewrite Ediv. apply Qlt_shift_div_r; [exact Hpos|].
    rewrite Qmult_1_l, <- Zlt_Qlt. lia.
Qed.

Lemma QN_sum_repeat (q : Q) (n : nat) (z : Q) :
  exists z',
    fold_left (@add QN.model) (repeat (QN.rat q) n) (QN.rat z) = QN.rat z'
    /\ z' == z + inject_Z (Z.of_nat n) * q.
Proof.
  revert z. induction n as [|n IH]; intros z.
  - exists z. split; [reflexivity|]. simpl. ring.
  - destruct (IH (z + q)) as (z' & E & Hz).
    exists z'. split; [exact E|]. rewrite Hz, Nat2Z.inj_succ.
    unfold Z.succ. rewrite inject_Z_plus. change (inject_Z 1) with 1. ring.
Qed.

Lemma QN_leb_lt (a b : Q) : a < b -> leb (QN.rat a) (QN.rat b) = true.
Proof.
  intros H. unfold leb. cbn [ltb QN.model QN.rat QN.qltb].
  destruct (Qle_bool b a) eqn:E; [|reflexivity].
  apply Qle_bool_iff in E. lra.
Qed.

(** The default vector is a feasible starting point.  For two or more
    components, in exact rational arithmetic: the defaults returned by
    [get_mixed_weibull] are numbers, one for each bounds pair; every default
    lies within its bounds; and the returned constraint is positive on the
    default vector. *)
Theorem initial_guess_is_feasible (k : Z) (mixed : lambda)
  (bs : list (value * value)) (cs : list constraint) (ds : list value)
  (ps : list param) :
  (2 <= k)%Z ->
  get_mixed_weibull (A := QN.model) (VInt k) = Ok (mixed, bs, cs, ds, ps) ->
  exists x0,
    as_floats ds = Ok x0
    /\ Forall2 (fun b v => within b v = true) bs x0
    /\ Forall (fun c => ltb (of_Q 0) (cfun c x0) = true) cs.
Proof.
  intros Hk Hget.
  destruct (get_mixed_weibull_inv _ Hget) as (_ & Hps & _ & -> & -> & ->).
  rewrite _get_params_many in Hps by lia. injection Hps as <-.
  destruct (QN_default_fraction Hk) as (q & Hq & Hq0 & Hq1 & Hsum).
  set (shape := flat_map shape_scale_pair (Py.range k)).
  set (fracs := map (fraction_param k) (Py.range (k - 1))).
  assert (Hshape : Forall (fun p => default p = VInt 1
                                    /\ bounds p = (VFloat INFINITESIMAL, VNone))
                          shape).
  { apply Forall_forall. intros p Hp. apply in_flat_map in Hp.
    destruct Hp as (i & _ & Hp). cbn [shape_scale_pair In] in Hp.
    destruct Hp as [<-|[<-|[]]]; split; reflexivity. }
  assert (Hfracs : Forall (fun p => default p = VFloat (QN.rat q)
                                    /\ bounds p = (VInt 0%Z, VInt 1%Z))
                          fracs).
  { apply Forall_forall. intros p Hp. apply in_map_iff in Hp.
    destruct Hp as (i & <- & _). cbn [fraction_param default bounds].
    rewrite Hq. split; reflexivity. }
  assert (Hall : Forall (fun p => default p = VInt 1
                                  \/ default p = VFloat (QN.rat q))
                        (shape ++ fracs)).
  { apply Forall_app. split; eapply Forall_impl; try eassumption;
      cbv beta; intros p [H _]; auto. }
  exists (map (fun p => float_of (default p)) (shape ++ fracs)).
  split; [|split].
  - unfold as_floats. rewrite mapM_map. apply mapM_ok_all.
    eapply Forall_impl; [|exact Hall]. cbv beta.
    intros p [-> | ->]; reflexivity.
  - assert (Hin : Forall (fun p => within (bounds p) (float_of (default p))
                                   = true) (shape ++ fracs)).
    { apply Forall_app. split; eapply Forall_impl; try eassumption;
        cbv beta; intros p [-> ->]; unfold within;
        cbn [fst snd bound_of].
      - apply andb_true_intro. split; [|reflexivity].
        apply (@QN_leb_lt INFINITESIMAL_literal (inject_Z 1)). reflexivity.
      - apply andb_true_intro. split.
        + apply (@QN_leb_lt (inject_Z 0) q). exact Hq0.
        + apply (@QN_leb_lt q (inject_Z 1)). exact Hq1. }
    clear - Hin. induction Hin; cbn [map]; constructor; auto.
  - constructor; [|constructor]. cbn [cfun].
    set (x0 := map _ (shape ++ fracs)).
    assert (Hlen : Py.len x0 = (3 * k - 1)%Z).
    { unfold x0, Py.len, shape, fracs.
      rewrite length_map, length_app, shape_scale_length, length_map,
        !range_length. lia. }
    replace (1 - k)%Z with (- (k - 1))%Z by lia.
    rewrite slice_tail by lia. rewrite Hlen.
    replace (3 * k - 1 - (k - 1))%Z with (2 * k)%Z by lia.
    assert (Etail : skipn (Z.to_nat (2 * k)) x0
                    = repeat (QN.rat q) (Z.to_nat (k - 1))).
    { unfold x0. rewrite map_app, skipn_app.
      rewrite skipn_all2
        by (unfold shape; rewrite length_map, shape_scale_length,
              range_length; lia).
      rewrite length_map. unfold shape at 1.
      rewrite shape_scale_length, range_length.
      replace (Z.to_nat (2 * k) - 2 * Z.to_nat k)%nat with 0%nat by lia.
      cbn [app skipn].
      transitivity (map (fun _ : param => QN.rat q) fracs).
      - apply map_ext_in. intros p Hp.
        rewrite Forall_forall in Hfracs.
        destruct (Hfracs p Hp) as [-> _]. reflexivity.
      - rewrite map_const. unfold fracs.
        now rewrite length_map, range_length. }
    rewrite Etail. unfold np_sum.
    destruct (QN_sum_repeat q (Z.to_nat (k - 1)) (inject_Z 0))
      as (z' & Ez & Hz).
    change (of_Z 0%Z) with (QN.rat (inject_Z 0)). rewrite Ez.
    rewrite Z2Nat.id in Hz by lia.
    unfold INFINITESIMAL.
    cbn [ltb add sub of_Z of_Q QN.model QN.rat QN.lift2 QN.qltb].
    destruct (Qle_bool (inject_Z 1 - z' + INFINITESIMAL_literal) 0) eqn:E;
      [|reflexivity].
    apply Qle_bool_iff in E. exfalso.
    assert (Heps : 0 < INFINITESIMAL_literal) by reflexivity.
    revert E Heps. generalize INFINITESIMAL_literal as eps. intros eps E Heps.
    change (inject_Z 1) with 1 in E. change (inject_Z 0) with 0 in Hz.
    rewrite Hz in E. lra.
Qed.

End Feasible.

(** The theorem at three components. *)
Lemma initial_guess_is_feasible_witness :
  exists mixed bs cs ds ps x0,
    algorithms.get_mixed_weibull (A := QN.model) (VInt 3)
    = Ok (mixed, bs, cs, ds, ps)
    /\ algorithms.as_floats ds = Ok x0
    /\ Forall2 (fun b v => algorithms.within b v = true) bs x0
    /\ Forall (fun c => ltb (of_Q 0) (algorithms.cfun c x0) = true) cs.
Proof.
  destruct (@get_mixed_weibull_ok QN.model 3 ltac:(lia))
    as (f & p & _ & _ & H).
  destruct (@initial_guess_is_feasible 3 _ _ _ _ _ ltac:(lia) H)
    as (x0 & H1 & H2 & H3).
  do 5 eexists. exists x0.
  split; [exact H|]. split; [exact H1|]. split; [exact H2 | exact H3].
Defined.

(* ===================================================================== *)
(** * Further properties of the single-sample resolver (resolver.py)      *)
(* ===================================================================== *)

Section RangeAlways.

Context {A : arith}.

Import Resolver.

Local Notation "'start_of' y" := (fst (get_valid_data_range y))
  (at level 9, y at level 9).
Local Notation "'end_of' y" := (snd (get_valid_data_range y))
  (at level 9, y at level 9).
Local Notation "'positive'" := (fun v : num => ltb (of_Q 0) v).
Local Notation "'is_zero'" := (fun v : num => eqb v (of_Q 0)).

Lemma find_from_none_all (p : num -> bool) (l : list num) (i : Z) :
  find_from p l i = None -> Forall (fun v => p v = false) l.
Proof.
  revert i. induction l as [|x l IH]; intros i H; [constructor|].
  cbn [find_from] in H. destruct (p x) eqn:Hx; [discriminate|].
  constructor; [exact Hx|]. apply (IH _ H).
Qed.

Lemma slice_from (T : Type) (l : list T) (a : Z) :
  0 <= a -> Py.slice l (Some a) None = skipn (Z.to_nat a) l.
Proof.
  intros Ha.
  destruct (Z.le_gt_cases a (Py.len l)) as [Hle|Hgt].
  - apply slice_all_from. lia.
  - unfold Py.slice, Py.clamp, Py.len in *.
    destruct (Z.ltb_spec a 0); [lia|].
    rewrite Z.min_r by lia.
    rewrite !skipn_all2 by lia. apply firstn_nil.
Qed.

(** [get_valid_data_range] on any vector.  The start index is the index of
    the first strictly positive entry, or [0] when no entry is positive;
    the end index is the index of the first exactly-zero entry behind the
    start, or [-1] when there is none.  So the start is a valid index
    whenever the vector is not empty, and the end is either [-1] or a valid
    index behind the start. *)
Theorem valid_range_always (y : list num) :
  (Py.first_index_from positive y 0 (start_of y)
   \/ (start_of y = 0 /\ Forall (fun v => ltb (of_Q 0) v = false) y))
  /\ (Py.first_index_from is_zero y (start_of y + 1) (end_of y)
      \/ (end_of y = -1
          /\ Forall (fun v => eqb v (of_Q 0) = false)
                    (skipn (Z.to_nat (start_of y + 1)) y)))
  /\ 0 <= start_of y < Z.max (Py.len y) 1
  /\ (end_of y = -1 \/ start_of y < end_of y < Py.len y).
Proof.
  unfold get_valid_data_range.
  destruct (find_from positive y 0) as [s|] eqn:Es.
  - assert (Hs : Py.first_index_from positive y 0 s)
      by (apply first_index_of_find; [lia|exact Es]).
    pose proof (first_index_in_range Hs) as Hsr.
    rewrite slice_from by lia.
    destruct (find_from is_zero (skipn (Z.to_nat (s + 1)) y) (s + 1))
      as [e|] eqn:Ee; cbn [fst snd].
    + assert (He : Py.first_index_from is_zero y (s + 1) e)
        by (apply first_index_of_find; [lia|exact Ee]).
      pose proof (first_index_in_range He) as Her.
      repeat split; auto; lia.
    + pose proof (find_from_none_all _ _ _ Ee) as Hz.
      repeat split; auto; lia.
  - pose proof (find_from_none_all _ _ _ Es) as Hn.
    rewrite slice_from by lia.
    destruct (find_from is_zero (skipn (Z.to_nat (0 + 1)) y) (0 + 1))
      as [e|] eqn:Ee; cbn [fst snd].
    + assert (He : Py.first_index_from is_zero y (0 + 1) e)
        by (apply first_index_of_find; [lia|exact Ee]).
      pose proof (first_index_in_range He) as Her.
      repeat split; auto; lia.
    + pose proof (find_from_none_all _ _ _ Ee) as Hz.
      repeat split; auto; unfold Py.len; lia.
Qed.

Lemma start_index_bounds (y : list num) :
  0 <= start_of y < Z.max (Py.len y) 1.
Proof.
  unfold get_valid_data_range. cbn [fst].
  destruct (find_from positive y 0) as [s|] eqn:Es; [|unfold Py.len; lia].
  assert (Hs : Py.first_index_from positive y 0 s)
    by (apply first_index_of_find; [lia|exact Es]).
  pose proof (first_index_in_range Hs). lia.
Qed.

Lemma slice_without_last (T : Type) (l : list T) (a : Z) :
  0 <= a < Z.max (Py.len l) 1 ->
  Py.slice l (Some a) (Some (-1))
  = firstn (Z.to_nat (Py.len l - 1 - a)) (skipn (Z.to_nat a) l).
Proof.
  intros Ha. unfold Py.slice, Py.clamp, Py.len in *.
  destruct (Z.ltb_spec a 0); [lia|].
  destruct (Z.ltb_spec (-1) 0); [|lia].
  rewrite Z.min_l by lia. f_equal. lia.
Qed.

(** The state [preprocess_data] leaves when no exact zero follows the
    start index. *)
Lemma preprocess_no_zero (r : Resolver.t) (y : list num) :
  distribution_type r = Weibull ->
  y_data r = Some y ->
  Forall (fun v => eqb v (of_Q 0) = false)
         (skipn (Z.to_nat (start_of y + 1)) y) ->
  preprocess_data r
  = (Ok tt,
     with_window (with_range r (Some (start_of y)) (Some (-1)))
       (Some [])
       (Some (firstn (Z.to_nat (Py.len y - 1 - start_of y))
                     (skipn (Z.to_nat (start_of y)) y)))).
Proof.
  intros Hd Hy Hz.
  pose proof (start_index_bounds y) as Hs.
  assert (Hend : end_of y = -1).
  { apply get_valid_data_range_no_zero. rewrite slice_from by lia. exact Hz. }
  unfold preprocess_data. rewrite Hy.
  destruct (get_valid_data_range y) as [s e] eqn:E.
  cbn [fst snd] in *. subst e.
  cbn [distribution_type with_range]. rewrite Hd.
  rewrite slice_without_last by lia.
  unfold Py.range. replace (Z.to_nat (-1 - s)) with 0%nat by lia.
  reflexivity.
Qed.

(** Preprocessing a vector that has no exact zero behind its start index
    (for instance one whose classes are all occupied).  The end index is
    [-1], so the stored window is [y[start:-1]]: the last class is dropped;
    and the stored coordinates are [range(-1 - start) + 1]: none at all.
    The two arrays handed to the fit differ in length as soon as the vector
    has two entries from the start index on. *)
Theorem preprocess_without_zero (r : Resolver.t) (y : list num) :
  distribution_type r = Weibull ->
  y_data r = Some y ->
  Forall (fun v => eqb v (of_Q 0) = false)
         (skipn (Z.to_nat (start_of y + 1)) y) ->
  exists r' ys,
    preprocess_data r = (Ok tt, r')
    /\ start_index r' = Some (start_of y)
    /\ end_index r' = Some (-1)
    /\ x_to_fit r' = Some []
    /\ y_to_fit r' = Some ys
    /\ ys = firstn (Z.to_nat (Py.len y - 1 - start_of y))
                   (skipn (Z.to_nat (start_of y)) y)
    /\ Py.len ys = Z.max (Py.len y - 1 - start_of y) 0.
Proof.
  intros Hd Hy Hz.
  pose proof (start_index_bounds y) as Hs.
  do 2 eexists.
  split; [exact (@preprocess_no_zero r y Hd Hy Hz)|].
  cbn [start_index end_index x_to_fit y_to_fit with_window with_range].
  repeat (split; [reflexivity|]).
  unfold Py.len in *. rewrite length_firstn, length_skipn. lia.
Qed.

End RangeAlways.

(** The theorem on the vector [[1/2, 1/2]] held by a fresh resolver: the
    window keeps one entry and there is no coordinate for it. *)
Lemma preprocess_without_zero_witness :
  exists r0 r',
    Resolver.init = Ok r0
    /\ Resolver.preprocess_data
         (Resolver.with_data r0 None (Some Resolver.even_distribution))
       = (Ok tt, r')
    /\ Resolver.end_index r' = Some (-1)
    /\ Resolver.x_to_fit r' = Some []
    /\ Resolver.y_to_fit r' = Some [QN.rat (1 # 2)].
Proof.
  destruct (init_succeeds (A := QN.model)) as [r0 Hinit].
  assert (Hd : Resolver.distribution_type
                 (Resolver.with_data r0 None (Some Resolver.even_distribution))
               = Weibull)
    by apply (init_state Hinit).
  destruct (@preprocess_without_zero QN.model
              (Resolver.with_data r0 None (Some Resolver.even_distribution))
              Resolver.even_distribution Hd eq_refl)
    as (r' & ys & Hp & _ & He & Hx & Hy & Hys & _).
  { repeat constructor. }
  exists r0, r'. split; [exact Hinit|]. split; [exact Hp|].
  split; [exact He|]. split; [exact Hx|]. rewrite Hy, Hys. reflexivity.
Defined.

Section IntakeFacts.

Context {A : arith}.

Import Resolver.

(** A fresh resolver exists, and its layout is in step with its count. *)
Lemma init_in_step : exists r, init = Ok r /\ layout_in_step r.
Proof.
  destruct (@get_mixed_weibull_ok A 2 ltac:(lia)) as (f & p & _ & _ & H).
  unfold init. cbn [refresh_by_distribution_type distribution_type].
  unfold refresh_by_ncomp.
  cbn [get_mixed_func with_weibull_functions ncomp].
  rewrite H. eexists. split; [reflexivity|].
  unfold layout_in_step.
  cbn [ncomp mixed_func bounds constrains defaults params initial_guess
       with_layout with_weibull_functions].
  split; [exact H|]. split; [reflexivity|lia].
Qed.

Lemma existsb_none (T : Type) (p : T -> bool) (l : list T) :
  existsb p l = false <-> Forall (fun v => p v = false) l.
Proof.
  induction l as [|x l IH]; cbn [existsb].
  - split; [constructor|reflexivity].
  - rewrite orb_false_iff, IH. split.
    + intros [Hx Hl]. now constructor.
    + intros H. inversion H. now split.
Qed.

(** [validate_data] on [None], on values that are not arrays and on
    one-dimensional arrays of floats, which are the values [value] holds
    (on an array of dimension zero [len] raises [TypeError], and so does
    [np.isnan] on an array that is not numeric: such arrays are outside
    this statement).  A pair of such values is accepted exactly when both
    are arrays, of one length, and neither holds a NaN; every other pair of
    such values is refused with a [DataInvalidError] that carries one
    message. *)
Theorem validate_data_accepts (x y : value) :
  (validate_data x y = Ok tt
   <-> exists xs ys,
         x = VArray xs /\ y = VArray ys /\ Py.len xs = Py.len ys
         /\ Forall (fun v => isnan v = false) xs
         /\ Forall (fun v => isnan v = false) ys)
  /\ (validate_data x y = Ok tt
      \/ exists message, validate_data x y = Raise (DataInvalidError [message])).
Proof.
  split.
  - split.
    + intros H.
      destruct x; destruct y; cbn [validate_data] in H; try discriminate.
      destruct (Z.eqb_spec (Py.len a) (Py.len a0)) as [Hl|Hl];
        cbn [negb] in H; [|discriminate].
      destruct (existsb isnan a) eqn:Ha; [discriminate|].
      destruct (existsb isnan a0) eqn:Hb; [discriminate|].
      exists a, a0. repeat split; auto; now apply existsb_none.
    + intros (xs & ys & -> & -> & Hl & Hx & Hy). cbn [validate_data].
      rewrite Hl, Z.eqb_refl. cbn [negb].
      apply existsb_none in Hx, Hy. now rewrite Hx, Hy.
  - destruct x; destruct y; cbn [validate_data]; eauto.
    destruct (negb (Py.len a =? Py.len a0)); eauto.
    destruct (existsb isnan a); eauto.
    destruct (existsb isnan a0); eauto.
Qed.

Section Hooks.

Variable on_data_invalid : value -> value -> value -> method unit.
Variable on_data_fed : method unit.


End Hooks.

(** Feeding a second valid pair to a Weibull resolver with the hooks of the
    base class leaves it exactly as if only the second pair had been fed:
    nothing of the first pair is kept. *)
Theorem feed_data_replaces (x1 y1 x2 y2 : list num) (r : Resolver.t) :
  validate_data (VArray x1) (VArray y1) = Ok tt ->
  validate_data (VArray x2) (VArray y2) = Ok tt ->
  distribution_type r = Weibull ->
  feed_data on_data_invalid on_data_fed (VArray x2) (VArray y2)
    (snd (feed_data on_data_invalid on_data_fed (VArray x1) (VArray y1) r))
  = feed_data on_data_invalid on_data_fed (VArray x2) (VArray y2) r.
Proof.
  intros H1 H2 Hd. unfold feed_data. rewrite H1, H2.
  cbn [array_of]. unfold preprocess_data. cbn [y_data with_data].
  destruct (get_valid_data_range y1) as [s1 e1].
  destruct (get_valid_data_range y2) as [s2 e2].
  cbn [distribution_type with_range with_data]. rewrite Hd.
  unfold on_data_fed. cbn [snd y_data with_data with_window with_range].
  cbn [distribution_type with_range with_data with_window]. rewrite Hd.
  reflexivity.
Qed.

End IntakeFacts.

Section FamilyFacts.

Context {A : arith}.

Import Resolver.

Variable on_data_invalid : value -> value -> value -> method unit.
Variable on_data_fed : method unit.

(** Assigning a family other than Weibull to [distribution_type].  The
    setter stores the family before [refresh_by_distribution_type] raises
    [NotImplementedError], so the exception leaves the resolver with the new
    family and the Weibull functions.  In that state [feed_data] on a valid
    pair stores the arrays and the valid range and then raises
    [NotImplementedError] out of [preprocess_data]: the window of the
    previous sample stays in [x_to_fit] and [y_to_fit], and [on_data_fed] is
    not called.  Assigning Weibull again succeeds. *)
Theorem unsupported_family_half_applied (d : DistributionType)
  (xs ys : list num) (r : Resolver.t) :
  d <> Weibull ->
  validate_data (VArray xs) (VArray ys) = Ok tt ->
  distribution_type_setter (VDist d) r
  = (Raise NotImplementedError, with_distribution_type r d)
  /\ distribution_type (with_distribution_type r d) = d
  /\ single_func (with_distribution_type r d) = single_func r
  /\ (exists r2,
        feed_data on_data_invalid on_data_fed (VArray xs) (VArray ys)
          (with_distribution_type r d)
        = (Raise NotImplementedError, r2)
        /\ real_x r2 = Some xs /\ y_data r2 = Some ys
        /\ start_index r2 = Some (fst (get_valid_data_range ys))
        /\ end_index r2 = Some (snd (get_valid_data_range ys))
        /\ x_to_fit r2 = x_to_fit r /\ y_to_fit r2 = y_to_fit r)
  /\ distribution_type_setter (VDist Weibull) (with_distribution_type r d)
     = (Ok tt,
        with_weibull_functions
          (with_distribution_type (with_distribution_type r d) Weibull)).
Proof.
  intros Hd Hv. split; [|split; [|split; [|split]]].
  - cbn [distribution_type_setter]. unfold refresh_by_distribution_type.
    cbn [distribution_type with_distribution_type].
    destruct d; try reflexivity. now destruct Hd.
  - reflexivity.
  - reflexivity.
  - unfold feed_data. rewrite Hv. cbn [array_of].
    unfold preprocess_data. cbn [y_data with_data].
    destruct (get_valid_data_range ys) as [s e].
    cbn [distribution_type with_range with_data with_distribution_type].
    destruct d; try (now destruct Hd);
      (eexists; split; [reflexivity|]; repeat split).
  - reflexivity.
Qed.

End FamilyFacts.

Section StepFacts.

Context {A : arith}.

Import Resolver.

Lemma in_step_frame (r r' : Resolver.t) :
  ncomp r' = ncomp r -> mixed_func r' = mixed_func r ->
  bounds r' = bounds r -> constrains r' = constrains r ->
  defaults r' = defaults r -> params r' = params r ->
  initial_guess r' = initial_guess r ->
  layout_in_step r -> layout_in_step r'.
Proof.
  unfold layout_in_step. intros -> -> -> -> -> -> ->. auto.
Qed.

Lemma ncomp_setter_in_step (v : value) (r : Resolver.t) :
  layout_in_step r -> layout_in_step (snd (ncomp_setter v r)).
Proof.
  intros H. destruct v; try exact H. cbn [ncomp_setter].
  destruct (Z.leb_spec z 1); [exact H|].
  destruct (@get_mixed_weibull_ok A z ltac:(lia)) as (f & p & _ & _ & Hz).
  unfold refresh_by_ncomp. destruct (get_mixed_func (with_ncomp r z)).
  cbn [ncomp with_ncomp]. rewrite Hz. cbn [snd].
  unfold layout_in_step.
  cbn [ncomp mixed_func bounds constrains defaults params initial_guess
       with_layout with_ncomp].
  split; [exact Hz|]. split; [reflexivity|lia].
Qed.

Lemma distribution_type_setter_in_step (v : value) (r : Resolver.t) :
  layout_in_step r -> layout_in_step (snd (distribution_type_setter v r)).
Proof.
  intros H. destruct v; try exact H. cbn [distribution_type_setter].
  unfold refresh_by_distribution_type.
  cbn [distribution_type with_distribution_type].
  destruct d; cbn [snd]; (eapply in_step_frame; [..|exact H]); reflexivity.
Qed.

Lemma preprocess_data_in_step (r : Resolver.t) :
  layout_in_step r -> layout_in_step (snd (preprocess_data r)).
Proof.
  intros H. unfold preprocess_data.
  destruct (y_data r) as [y|]; [|exact H].
  destruct (get_valid_data_range y) as [s e].
  cbn [distribution_type with_range].
  destruct (distribution_type r); cbn [snd];
    (eapply in_step_frame; [..|exact H]); reflexivity.
Qed.

Lemma feed_data_in_step (x y : value) (r : Resolver.t) :
  layout_in_step r ->
  layout_in_step (snd (feed_data on_data_invalid on_data_fed x y r)).
Proof.
  intros H. unfold feed_data.
  destruct (validate_data x y) as [[]|e].
  - pose proof (@preprocess_data_in_step
                  (with_data r (array_of x) (array_of y))) as Hp.
    destruct (preprocess_data (with_data r (array_of x) (array_of y)))
      as [[[]|e] r2]; cbn [snd] in *;
      apply Hp; (eapply in_step_frame; [..|exact H]); reflexivity.
  - destruct e; exact H.
Qed.

(** The layout of a resolver never falls out of step with its component
    count.  A fresh resolver has the mixture function, bounds, constraints,
    defaults and parameter list that [get_mixed_weibull] builds for its
    [ncomp], its initial guess is the default vector and [ncomp] is at least
    [2]; and every assignment to [ncomp] or [distribution_type] (whatever
    the value), [preprocess_data] and [feed_data] (whatever the data, with
    the hooks of the base class) leave it so, also when they raise.  In
    particular the one-component layout is never installed. *)
Theorem layout_stays_in_step :
  (forall r0 : Resolver.t, init = Ok r0 -> layout_in_step r0)
  /\ (forall (r : Resolver.t) (v x y : value),
        layout_in_step r ->
        layout_in_step (snd (ncomp_setter v r))
        /\ layout_in_step (snd (distribution_type_setter v r))
        /\ layout_in_step (snd (preprocess_data r))
        /\ layout_in_step
             (snd (feed_data on_data_invalid on_data_fed x y r))).
Proof.
  split.
  - intros r0 H0. destruct init_in_step as (r & Hr & Hs). congruence.
  - intros r v x y H. split; [|split; [|split]].
    + now apply ncomp_setter_in_step.
    + now apply distribution_type_setter_in_step.
    + now apply preprocess_data_in_step.
    + now apply feed_data_in_step.
Qed.

End StepFacts.


(** Feeding the all-occupied vector and then the example vector, against
    feeding the example vector alone. *)
Lemma feed_data_replaces_witness :
  exists r0 : Resolver.t (A := QN.model),
    Resolver.init = Ok r0
    /\ Resolver.feed_data Resolver.on_data_invalid Resolver.on_data_fed
         (VArray (map QN.rat [1; 2; 3; 4; 5; 6; 7; 8; 9; 10]%Q))
         (VArray Resolver.example_distribution)
         (snd (Resolver.feed_data
                 Resolver.on_data_invalid Resolver.on_data_fed
                 (VArray (map QN.rat [1; 2]%Q))
                 (VArray Resolver.even_distribution) r0))
       = Resolver.feed_data Resolver.on_data_invalid Resolver.on_data_fed
           (VArray (map QN.rat [1; 2; 3; 4; 5; 6; 7; 8; 9; 10]%Q))
           (VArray Resolver.example_distribution) r0.
Proof.
  destruct (init_in_step (A := QN.model)) as (r0 & Hinit & _).
  exists r0. split; [exact Hinit|].
  apply (@feed_data_replaces QN.model
           (map QN.rat [1; 2]%Q) Resolver.even_distribution
           (map QN.rat [1; 2; 3; 4; 5; 6; 7; 8; 9; 10]%Q)
           Resolver.example_distribution r0 eq_refl eq_refl
           (proj1 (init_state Hinit))).
Defined.

(** Assigning the Normal family to a fresh resolver, and feeding the
    example vector afterwards. *)
Lemma unsupported_family_half_applied_witness :
  exists r0 r2 : Resolver.t (A := QN.model),
    Resolver.init = Ok r0
    /\ Resolver.distribution_type_setter (VDist Normal) r0
       = (Raise NotImplementedError, Resolver.with_distribution_type r0 Normal)
    /\ Resolver.feed_data Resolver.on_data_invalid Resolver.on_data_fed
         (VArray (map QN.rat [1; 2; 3; 4; 5; 6; 7; 8; 9; 10]%Q))
         (VArray Resolver.example_distribution)
         (Resolver.with_distribution_type r0 Normal)
       = (Raise NotImplementedError, r2)
    /\ Resolver.start_index r2 = Some 3
    /\ Resolver.x_to_fit r2 = None.
Proof.
  destruct (init_in_step (A := QN.model)) as (r0 & Hinit & _).
  destruct (@unsupported_family_half_applied QN.model
              Resolver.on_data_invalid Resolver.on_data_fed Normal
              (map QN.rat [1; 2; 3; 4; 5; 6; 7; 8; 9; 10]%Q)
              Resolver.example_distribution r0
              ltac:(discriminate) eq_refl)
    as (Hs & _ & _ & (r2 & Hf & _ & _ & Hi & _ & Hx & _) & _).
  exists r0, r2. split; [exact Hinit|]. split; [exact Hs|].
  split; [exact Hf|]. split; [exact Hi|].
  rewrite Hx. apply (init_state Hinit).
Defined.

(** A fresh resolver after [ncomp = 3], the example vector and an
    assignment of the Normal family is still in step, with three
    components. *)
Lemma layout_stays_in_step_witness :
  exists r0 : Resolver.t (A := QN.model),
    Resolver.init = Ok r0
    /\ Resolver.layout_in_step
         (snd (Resolver.distribution_type_setter (VDist Normal)
                 (snd (Resolver.feed_data
                         Resolver.on_data_invalid Resolver.on_data_fed
                         (VArray (map QN.rat [1; 2; 3; 4; 5; 6; 7; 8; 9; 10]%Q))
                         (VArray Resolver.example_distribution)
                         (snd (Resolver.ncomp_setter (VInt 3) r0)))))).
Proof.
  destruct (init_in_step (A := QN.model)) as (r0 & Hinit & _).
  exists r0. split; [exact Hinit|].
  destruct (layout_stays_in_step (A := QN.model)) as (H0 & Hstep).
  pose proof (H0 r0 Hinit) as H1.
  destruct (Hstep r0 (VInt 3) VNone VNone H1) as (H2 & _).
  destruct (Hstep _ VNone
              (VArray (map QN.rat [1; 2; 3; 4; 5; 6; 7; 8; 9; 10]%Q))
              (VArray Resolver.example_distribution) H2) as (_ & _ & _ & H3).
  destruct (Hstep _ (VDist Normal) VNone VNone H3) as (_ & H4 & _).
  exact H4.
Defined.

Section ObjectiveFacts.

Context {A : arith}.

Import Resolver.

(** The parameters of the lambda are [x] and the names of the layout. *)
Lemma lambda_params_of_layout (k : Z) (mixed : algorithms.lambda)
  (bs : list (value * value)) (cs : list algorithms.constraint)
  (ds : list value) (ps : list algorithms.param) :
  algorithms.get_mixed_weibull (VInt k) = Ok (mixed, bs, cs, ds, ps) ->
  algorithms.lam_params mixed = "x" :: map algorithms.name ps.
Proof.
  intros Hget.
  destruct (get_mixed_weibull_inv _ Hget) as (_ & Hps & Hlam & _).
  revert Hlam Hps. unfold algorithms._get_lambda, algorithms._get_params.
  destruct (Z.eqb_spec k 1).
  - intros [= <-] [= <-]. reflexivity.
  - destruct (Z.ltb_spec 1 k); [|discriminate].
    intros [= <-] _. reflexivity.
Qed.

(** The objective on an empty coordinate array: the mixture function
    returns an empty array, and subtracting the window from it is possible
    only if the window has at most one entry. *)
Lemma closure_without_coordinates (r : Resolver.t) (ys args : list num) :
  layout_in_step r ->
  x_to_fit r = Some [] -> y_to_fit r = Some ys ->
  Py.len args = Py.len (params r) ->
  closure r args
  = if (2 <=? Py.len ys) then Raise ValueError
    else Ok (mul (of_Z 0) (of_Z 100)).
Proof.
  intros (Hget & _) Hx Hy Hlen. unfold closure. rewrite Hx, Hy.
  unfold mixed_call_array.
  rewrite (lambda_params_of_layout _ Hget). cbn [List.length map mapM].
  rewrite length_map.
  replace (List.length args) with (List.length (params r))
    by (unfold Py.len in Hlen; lia).
  rewrite Nat.eqb_refl. cbn [bind].
  unfold get_squared_sum_of_residual_errors, np_binary.
  destruct ys as [|v [|w ys]]; try reflexivity.
  cbn [List.length Nat.eqb bind].
  destruct (Z.leb_spec 2 (Py.len (v :: w :: ys))) as [_|Hlt];
    [reflexivity|].
  unfold Py.len in Hlt. cbn [List.length] in Hlt. lia.
Qed.

(** The objective of the fit after preprocessing a vector that has no exact
    zero behind its start index.  The coordinate array is empty, so the
    mixture function returns an empty array whatever the parameters are.  If
    the vector has three or more entries from the start index on, the window
    has two or more, the subtraction [values - targets] cannot be broadcast
    and the objective raises [ValueError] on every parameter vector of the
    layout's length; otherwise the objective is [0.0*100] on every such
    vector. *)
Theorem objective_without_zero (r : Resolver.t) (y : list num) :
  layout_in_step r ->
  distribution_type r = Weibull ->
  y_data r = Some y ->
  Forall (fun v => eqb v (of_Q 0) = false)
         (skipn (Z.to_nat (fst (get_valid_data_range y) + 1)) y) ->
  exists r',
    preprocess_data r = (Ok tt, r')
    /\ forall args,
         Py.len args = Py.len (params r') ->
         (fst (get_valid_data_range y) + 3 <= Py.len y ->
          closure r' args = Raise ValueError)
         /\ (Py.len y < fst (get_valid_data_range y) + 3 ->
             closure r' args = Ok (mul (of_Z 0) (of_Z 100))).
Proof.
  intros Hstep Hd Hy Hz.
  pose proof (@preprocess_no_zero A r y Hd Hy Hz) as Hp.
  pose proof (start_index_bounds y) as Hs.
  eexists. split; [exact Hp|].
  intros args Hargs.
  pose proof (@preprocess_data_in_step A r Hstep) as Hstep'.
  rewrite Hp in Hstep'. cbn [snd] in Hstep'.
  rewrite (@closure_without_coordinates _ _ args Hstep' eq_refl eq_refl Hargs).
  assert (Hl : Py.len (firstn (Z.to_nat (Py.len y - 1
                                         - fst (get_valid_data_range y)))
                              (skipn (Z.to_nat (fst (get_valid_data_range y)))
                                     y))
               = Z.max (Py.len y - 1 - fst (get_valid_data_range y)) 0).
  { unfold Py.len in *. rewrite length_firstn, length_skipn. lia. }
  rewrite Hl.
  destruct (Z.leb_spec 2 (Z.max (Py.len y - 1
                                 - fst (get_valid_data_range y)) 0));
    split; intros H'; try reflexivity; lia.
Qed.

Section Optimizers.

Variable optimize_result : Type.
Variable result_x : optimize_result -> list num.
Variable basinhopping :
  (list num -> result num) -> list value -> minimizer_kwargs ->
  value -> value -> result optimize_result.
Variable minimize :
  (list num -> result num) -> string -> list num -> list (value * value) ->
  list algorithms.constraint -> value -> value -> result optimize_result.

Lemma validate_data_outcome (x y : value) :
  validate_data x y = Ok tt
  \/ exists message, validate_data x y = Raise (DataInvalidError [message]).
Proof.
  destruct x; destruct y; cbn [validate_data]; eauto.
  destruct (negb (Py.len a =? Py.len a0)); eauto.
  destruct (existsb isnan a); eauto.
  destruct (existsb isnan a0); eauto.
Qed.

(** [try_fit] without a window.  A resolver that holds no [x_to_fit] or no
    [y_to_fit] returns [None] from [try_fit] and calls neither optimizer.
    That is the case right after construction, and still after any
    [feed_data] whose pair did not pass validation. *)
Theorem try_fit_without_window (r0 : Resolver.t) :
  init = Ok r0 ->
  (forall r : Resolver.t,
     x_to_fit r = None \/ y_to_fit r = None ->
     try_fit result_x basinhopping minimize r = (Ok None, r))
  /\ try_fit result_x basinhopping minimize r0 = (Ok None, r0)
  /\ (forall x y,
        validate_data x y <> Ok tt ->
        try_fit result_x basinhopping minimize
          (snd (feed_data on_data_invalid on_data_fed x y r0))
        = (Ok None, r0)).
Proof.
  intros Hinit.
  assert (Hnone : forall r : Resolver.t,
            x_to_fit r = None \/ y_to_fit r = None ->
            try_fit result_x basinhopping minimize r = (Ok None, r)).
  { intros r [H|H]; unfold try_fit; rewrite H; [reflexivity|].
    now destruct (x_to_fit r). }
  destruct (init_state Hinit) as (_ & _ & _ & _ & _ & _ & Hx & _).
  split; [exact Hnone|]. split; [now apply Hnone; left|].
  intros x y Hbad.
  destruct (validate_data_outcome x y) as [Hok|(msg & Hmsg)];
    [contradiction|].
  rewrite (feed_data_invalid on_data_invalid on_data_fed _ _ r0 Hmsg).
  cbn [snd]. now apply Hnone; left.
Qed.

End Optimizers.

End ObjectiveFacts.

(** The objective after preprocessing [[1/2, 1/2, 1/2]] with a fresh
    resolver: the window is [[1/2, 1/2]], there is no coordinate, and the
    objective raises [ValueError] at the default vector. *)
Lemma objective_without_zero_witness :
  exists r0 r' : Resolver.t (A := QN.model),
    Resolver.init = Ok r0
    /\ Resolver.preprocess_data
         (Resolver.with_data r0 None
            (Some (map QN.rat [1 # 2; 1 # 2; 1 # 2]%Q)))
       = (Ok tt, r')
    /\ Resolver.closure r' (map QN.rat [1; 1; 1; 1; 1 # 2]%Q)
       = Raise ValueError.
Proof.
  destruct (init_in_step (A := QN.model)) as (r0 & Hinit & Hstep).
  assert (Hd : Resolver.distribution_type
                 (Resolver.with_data r0 None
                    (Some (map QN.rat [1 # 2; 1 # 2; 1 # 2]%Q)))
               = Weibull)
    by apply (init_state Hinit).
  destruct (@objective_without_zero QN.model
              (Resolver.with_data r0 None
                 (Some (map QN.rat [1 # 2; 1 # 2; 1 # 2]%Q)))
              (map QN.rat [1 # 2; 1 # 2; 1 # 2]%Q))
    as (r' & Hp & Hc).
  - destruct Hstep as (H1 & H2 & H3). now repeat split.
  - exact Hd.
  - reflexivity.
  - repeat constructor.
  - exists r0, r'. split; [exact Hinit|]. split; [exact Hp|].
    apply Hc; [|reflexivity].
    assert (Hpar : Resolver.params r' = Resolver.params r0).
    { revert Hp. unfold Resolver.preprocess_data. cbn [Resolver.y_data
        Resolver.with_data].
      destruct (Resolver.get_valid_data_range _) as [s e].
      cbn [Resolver.distribution_type Resolver.with_range Resolver.with_data].
      rewrite (proj1 (init_state Hinit)). intros [= <-]. reflexivity. }
    rewrite Hpar.
    destruct Hstep as (Hget & _ & _).
    destruct (get_mixed_weibull_inv _ Hget) as (_ & Hps & _).
    rewrite (_get_params_length _ Hps).
    rewrite (proj1 (proj2 (init_state Hinit))). reflexivity.
Defined.

(** [try_fit] with optimizers that would raise if they were called. *)
Lemma try_fit_without_window_witness :
  exists r0 : Resolver.t (A := QN.model),
    Resolver.init = Ok r0
    /\ Resolver.try_fit (fun _ : unit => [])
         (fun _ _ _ _ _ => Raise NotImplementedError)
         (fun _ _ _ _ _ _ _ => Raise NotImplementedError) r0
       = (Ok None, r0).
Proof.
  destruct (init_in_step (A := QN.model)) as (r0 & Hinit & _).
  exists r0. split; [exact Hinit|].
  apply (proj1 (proj2
           (@try_fit_without_window QN.model unit (fun _ => [])
              (fun _ _ _ _ _ => Raise NotImplementedError)
              (fun _ _ _ _ _ _ _ => Raise NotImplementedError) r0 Hinit))).
Defined.

Section WindowEntries.

Context {A : arith}.

Import Resolver.

Lemma nth_error_window (T : Type) (l : list T) (a n i : nat) (w : T) :
  nth_error (firstn n (skipn a l)) i = Some w ->
  nth_error l (a + i) = Some w /\ (i < n)%nat.
Proof.
  intros H.
  assert (Hi : (i < List.length (firstn n (skipn a l)))%nat)
    by (apply nth_error_Some; congruence).
  rewrite length_firstn in Hi.
  rewrite nth_error_firstn in H.
  destruct (Nat.ltb_spec i n); [|lia].
  rewrite nth_error_skipn in H. now split.
Qed.

Lemma slice_entry (T : Type) (l : list T) (s e : Z) (i : nat) (w : T) :
  0 <= s -> e = -1 \/ s < e < Py.len l ->
  nth_error (Py.slice l (Some s) (Some e)) i = Some w ->
  nth_error l (Z.to_nat s + i) = Some w
  /\ (e <> -1 -> s + Z.of_nat i < e).
Proof.
  intros Hs He H. unfold Py.slice, Py.clamp in H.
  destruct (Z.ltb_spec s 0); [lia|].
  assert (Hsl : (Z.to_nat s + i < List.length l)%nat).
  { destruct (Z.ltb_spec e 0);
      apply nth_error_window in H; destruct H as (H & _);
      (assert (Hn : nth_error l (Z.to_nat (Z.min s (Py.len l)) + i) <> None)
         by congruence);
      apply nth_error_Some in Hn; unfold Py.len in *; lia. }
  replace (Z.min s (Py.len l)) with s in H by (unfold Py.len; lia).
  apply nth_error_window in H. destruct H as (H & Hi).
  split; [exact H|]. intros Hne.
  destruct He as [He|He]; [contradiction|].
  destruct (Z.ltb_spec e 0); [lia|].
  rewrite Z.min_l in Hi by lia. lia.
Qed.

(** The entries of the window [y[start:end]]: each is the entry of [y] at
    the start index plus its position; behind the first position none is
    an exact zero; and the first is strictly positive as soon as [y] has a
    strictly positive entry. *)
Lemma window_entries (y : list num) (i : nat) (w : num) :
  nth_error (Py.slice y (Some (fst (get_valid_data_range y)))
                        (Some (snd (get_valid_data_range y)))) i = Some w ->
  nth_error y (Z.to_nat (fst (get_valid_data_range y)) + i) = Some w
  /\ ((0 < i)%nat -> eqb w (of_Q 0) = false)
  /\ (i = 0%nat -> Exists (fun v => ltb (of_Q 0) v = true) y ->
      ltb (of_Q 0) w = true).
Proof.
  unfold get_valid_data_range.
  destruct (find_from (fun v => ltb (of_Q 0) v) y 0) as [s|] eqn:Es.
  - assert (Hs : Py.first_index_from (fun v => ltb (of_Q 0) v) y 0 s)
      by (apply first_index_of_find; [lia|exact Es]).
    pose proof (first_index_in_range Hs) as Hsr.
    rewrite slice_from by lia.
    destruct (find_from (fun v => eqb v (of_Q 0))
                (skipn (Z.to_nat (s + 1)) y) (s + 1)) as [e|] eqn:Ee;
      cbn [fst snd]; intros H.
    + assert (He : Py.first_index_from (fun v => eqb v (of_Q 0)) y (s + 1) e)
        by (apply first_index_of_find; [lia|exact Ee]).
      pose proof (first_index_in_range He) as Her.
      destruct (@slice_entry _ y s e i w ltac:(lia) ltac:(lia) H)
        as (Hy & Hi).
      split; [exact Hy|]. split.
      * intros Hpos. destruct He as (_ & _ & Hnz).
        apply (Hnz (s + Z.of_nat i) w); [lia|].
        rewrite <- Hy. f_equal. lia.
      * intros -> _. destruct Hs as (_ & (v & Hv & Hp) & _).
        rewrite Nat.add_0_r in Hy. congruence.
    + pose proof (find_from_none_all _ _ _ Ee) as Hz.
      destruct (@slice_entry _ y s (-1) i w ltac:(lia) ltac:(lia) H)
        as (Hy & _).
      split; [exact Hy|]. split.
      * intros Hpos. rewrite Forall_forall in Hz. apply Hz.
        apply (nth_error_In _ (i - 1)). rewrite nth_error_skipn.
        rewrite <- Hy. f_equal. lia.
      * intros -> _. destruct Hs as (_ & (v & Hv & Hp) & _).
        rewrite Nat.add_0_r in Hy. congruence.
  - pose proof (find_from_none_all _ _ _ Es) as Hn.
    rewrite slice_from by lia.
    assert (Hno : Exists (fun v => ltb (of_Q 0) v = true) y -> False).
    { intros Hex. apply Exists_exists in Hex. destruct Hex as (v & Hin & Hv).
      rewrite Forall_forall in Hn. rewrite (Hn v Hin) in Hv. discriminate. }
    destruct (find_from (fun v => eqb v (of_Q 0))
                (skipn (Z.to_nat (0 + 1)) y) (0 + 1)) as [e|] eqn:Ee;
      cbn [fst snd]; intros H.
    + assert (He : Py.first_index_from (fun v => eqb v (of_Q 0)) y (0 + 1) e)
        by (apply first_index_of_find; [lia|exact Ee]).
      pose proof (first_index_in_range He) as Her.
      destruct (@slice_entry _ y 0 e i w ltac:(lia) ltac:(lia) H)
        as (Hy & Hi).
      split; [exact Hy|]. split.
      * intros Hpos. destruct He as (_ & _ & Hnz).
        apply (Hnz (Z.of_nat i) w); [lia|].
        rewrite <- Hy. f_equal. lia.
      * intros _ Hex. destruct (Hno Hex).
    + pose proof (find_from_none_all _ _ _ Ee) as Hz.
      destruct (@slice_entry _ y 0 (-1) i w ltac:(lia) ltac:(lia) H)
        as (Hy & _).
      split; [exact Hy|]. split.
      * intros Hpos. rewrite Forall_forall in Hz. apply Hz.
        apply (nth_error_In _ (i - 1)). rewrite nth_error_skipn.
        rewrite <- Hy. f_equal. lia.
      * intros _ Hex. destruct (Hno Hex).
Qed.

(** The window never holds an exact zero behind its first entry.  Whatever
    vector a Weibull resolver holds, [preprocess_data] succeeds, and in the
    window [y_to_fit] it stores no entry behind the first is an exact zero;
    the first entry is strictly positive as soon as the vector has a
    strictly positive entry at all.  (On a vector without a positive entry
    the start index is [0] and the first entry of the window is [y[0]],
    which may be zero.) *)
Theorem window_has_no_zero (r : Resolver.t) (y : list num) :
  distribution_type r = Weibull ->
  y_data r = Some y ->
  exists r' ys,
    preprocess_data r = (Ok tt, r')
    /\ y_to_fit r' = Some ys
    /\ Forall (fun v => eqb v (of_Q 0) = false) (tl ys)
    /\ (Exists (fun v => ltb (of_Q 0) v = true) y ->
        forall v, nth_error ys 0 = Some v -> ltb (of_Q 0) v = true).
Proof.
  intros Hd Hy. unfold preprocess_data. rewrite Hy.
  pose proof (window_entries y) as Hw.
  destruct (get_valid_data_range y) as [s e].
  cbn [fst snd] in Hw.
  cbn [distribution_type with_range]. rewrite Hd.
  do 2 eexists. split; [reflexivity|].
  cbn [y_to_fit with_window]. split; [reflexivity|]. split.
  - apply Forall_forall. intros w Hin.
    apply In_nth_error in Hin. destruct Hin as (i & Hi).
    assert (Hi' : nth_error (Py.slice y (Some s) (Some e)) (S i) = Some w).
    { destruct (Py.slice y (Some s) (Some e)); [now destruct i|exact Hi]. }
    destruct (Hw (S i) w Hi') as (_ & Hnz & _). apply Hnz. lia.
  - intros Hex v Hv. destruct (Hw 0%nat v Hv) as (_ & _ & Hp).
    now apply Hp.
Qed.

End WindowEntries.

(** The theorem on the vector [[0,0,0,2,5,3,0,0,1,0]]: the window is
    [[2,5,3]]. *)
Lemma window_has_no_zero_witness :
  exists r0 r' : Resolver.t (A := QN.model),
    Resolver.init = Ok r0
    /\ Resolver.preprocess_data
         (Resolver.with_data r0 None (Some Resolver.example_distribution))
       = (Ok tt, r')
    /\ Resolver.y_to_fit r' = Some (map QN.rat [2; 5; 3]%Q)
    /\ Forall (fun v => eqb v (of_Q 0) = false) (map QN.rat [5; 3]%Q).
Proof.
  destruct (init_in_step (A := QN.model)) as (r0 & Hinit & _).
  destruct (@window_has_no_zero QN.model
              (Resolver.with_data r0 None (Some Resolver.example_distribution))
              Resolver.example_distribution
              (proj1 (init_state Hinit)) eq_refl)
    as (r' & ys & Hp & Hys & Hall & _).
  assert (Hr : Resolver.get_valid_data_range Resolver.example_distribution
               = (3, 6)) by reflexivity.
  assert (E : ys = map QN.rat [2; 5; 3]%Q).
  { revert Hp Hys. unfold Resolver.preprocess_data.
    cbn [Resolver.y_data Resolver.with_data]. rewrite Hr.
    cbn [Resolver.distribution_type Resolver.with_range Resolver.with_data].
    rewrite (proj1 (init_state Hinit)).
    intros [= <-]. cbn [Resolver.y_to_fit Resolver.with_window].
    intros [= <-]. reflexivity. }
  subst ys. exists r0, r'. split; [exact Hinit|]. split; [exact Hp|].
  split; [exact Hys|]. exact Hall.
Defined.

Section ComposeFacts.

Context {A : arith}.

Import Resolver.

(** An assignment of an integer above [1] to [ncomp] installs the layout
    of that count. *)
Lemma ncomp_setter_valid (k : Z) :
  1 < k ->
  exists f b c d p,
    forall r : Resolver.t,
      ncomp_setter (VInt k) r
      = (Ok tt, with_layout (with_ncomp r k) f b c d p).
Proof.
  intros Hlt.
  destruct (@get_mixed_weibull_ok A k ltac:(lia)) as (f & p & _ & _ & Hz).
  exists f, (map algorithms.bounds p), (algorithms._get_constrains k),
    (map algorithms.default p), p.
  intros r. cbn [ncomp_setter].
  destruct (Z.leb_spec k 1); [lia|].
  unfold refresh_by_ncomp. destruct (get_mixed_func (with_ncomp r k)).
  cbn [ncomp with_ncomp]. now rewrite Hz.
Qed.

(** Any other assignment is ignored. *)
Lemma ncomp_setter_cases (v : value) :
  (forall r : Resolver.t, ncomp_setter v r = (Ok tt, r))
  \/ exists k, v = VInt k /\ 1 < k.
Proof.
  destruct v; try (left; reflexivity).
  destruct (Z.leb_spec z 1) as [Hle|Hlt]; [left|right; eauto].
  intros r. cbn [ncomp_setter].
  destruct (Z.leb_spec z 1); [reflexivity|lia].
Qed.

(** Assigning the component count and feeding data do not interfere.  With
    the hooks of the base class, [feed_data] has the same outcome before and
    after an assignment to [ncomp], and the two calls leave the same
    resolver in either order, whatever the assigned value and the data are:
    changing the count keeps the arrays, the range and the window, and
    feeding data keeps the layout.  Of two assignments of which the second
    is an integer above [1], only the second shows. *)
Theorem ncomp_setter_and_feed_data (v x y : value) (n : Z)
  (r : Resolver.t) :
  fst (feed_data on_data_invalid on_data_fed x y (snd (ncomp_setter v r)))
  = fst (feed_data on_data_invalid on_data_fed x y r)
  /\ snd (feed_data on_data_invalid on_data_fed x y
            (snd (ncomp_setter v r)))
     = snd (ncomp_setter v
              (snd (feed_data on_data_invalid on_data_fed x y r)))
  /\ (1 < n ->
      snd (ncomp_setter (VInt n) (snd (ncomp_setter v r)))
      = snd (ncomp_setter (VInt n) r)).
Proof.
  destruct (ncomp_setter_cases v) as [Hv|(k & -> & Hk)].
  - rewrite !Hv. cbn [snd]. repeat split.
  - destruct (ncomp_setter_valid Hk) as (f & b & c & d & p & Hv).
    rewrite !Hv. cbn [snd]. split; [|split].
    + unfold feed_data. destruct (validate_data x y) as [[]|e].
      * unfold preprocess_data. cbn [y_data with_data with_layout with_ncomp].
        destruct (array_of y) as [ys|]; [|reflexivity].
        destruct (get_valid_data_range ys) as [s e].
        cbn [distribution_type with_range with_data with_layout with_ncomp].
        destruct (distribution_type r); reflexivity.
      * destruct e; reflexivity.
    + unfold feed_data. destruct (validate_data x y) as [[]|e].
      * unfold preprocess_data. cbn [y_data with_data with_layout with_ncomp].
        destruct (array_of y) as [ys|]; [|reflexivity].
        destruct (get_valid_data_range ys) as [s e].
        cbn [distribution_type with_range with_data with_layout with_ncomp].
        destruct (distribution_type r); reflexivity.
      * destruct e; reflexivity.
    + intros Hn.
      destruct (ncomp_setter_valid Hn) as (f' & b' & c' & d' & p' & Hn').
      rewrite !Hn'. reflexivity.
Qed.

End ComposeFacts.

(** The theorem on a fresh resolver: assigning [3] and then [4] leaves it
    as assigning [4] alone does, with the layout of four components. *)
Lemma ncomp_setter_and_feed_data_witness :
  exists r0 : Resolver.t (A := QN.model),
    Resolver.init = Ok r0
    /\ snd (Resolver.ncomp_setter (VInt 4)
              (snd (Resolver.ncomp_setter (VInt 3) r0)))
       = snd (Resolver.ncomp_setter (VInt 4) r0)
    /\ Resolver.ncomp (snd (Resolver.ncomp_setter (VInt 4) r0)) = 4.
Proof.
  destruct (init_in_step (A := QN.model)) as (r0 & Hinit & _).
  exists r0. split; [exact Hinit|]. split.
  - apply (proj2 (proj2 (@ncomp_setter_and_feed_data QN.model
                           (VInt 3) VNone VNone 4 r0))).
    lia.
  - destruct (@ncomp_setter_valid QN.model 4 ltac:(lia))
      as (f & b & c & d & p & H).
    rewrite H. reflexivity.
Defined.

Section AlignedObjective.

Context {A : arith}.

Import Resolver.

(** The mixture function of a resolver whose layout is in step returns a
    value on every parameter vector of the layout's length. *)
Lemma mixed_call_defined (r : Resolver.t) (x : num) (args : list num) :
  layout_in_step r ->
  Py.len args = Py.len (params r) ->
  exists v, algorithms.mixed_call (mixed_func r) x args = Ok v.
Proof.
  intros (Hget & _ & H2) Hlen.
  destruct (get_mixed_weibull_inv _ Hget) as (_ & Hps & Hlam & _).
  pose proof (_get_params_length _ Hps) as Hl.
  destruct (Z_of_nat_complete (ncomp r) ltac:(lia)) as [n Hn].
  rewrite Hn in *.
  rewrite (_get_params_many (k := Z.of_nat n)) in Hps by lia.
  injection Hps as Hps. rewrite <- Hps in Hlam.
  assert (Hfit : List.length args = (3 * n - 1)%nat)
    by (unfold Py.len in *; lia).
  rewrite (@mixed_call_many A n args x ltac:(lia) Hfit _ Hlam). eauto.
Qed.

Lemma mapM_defined (T U : Type) (f : T -> result U) (l : list T) :
  (forall x, exists v, f x = Ok v) ->
  exists vs, mapM f l = Ok vs /\ Forall2 (fun x v => f x = Ok v) l vs.
Proof.
  intros Hf. induction l as [|x l (vs & Hvs & Hall)].
  - exists []. split; [reflexivity|constructor].
  - destruct (Hf x) as (v & Hv). exists (v :: vs).
    cbn [mapM]. rewrite Hv, Hvs. split; [reflexivity|].
    now constructor.
Qed.

(** The objective of the fit on a window whose coordinates and values have
    one length.  On every parameter vector of the layout's length the
    mixture function returns one value for each coordinate, and the
    objective is a hundred times the sum of the squared differences between
    these values and the window: it raises nothing.  On a vector of any
    other length it raises [TypeError]. *)
Theorem objective_on_aligned_window (r : Resolver.t) (xs : list Z)
  (ys args : list num) :
  layout_in_step r ->
  x_to_fit r = Some xs -> y_to_fit r = Some ys ->
  Py.len xs = Py.len ys ->
  (Py.len args = Py.len (params r) ->
   exists values,
     Forall2 (fun x v =>
                algorithms.mixed_call (mixed_func r) (of_Z x) args = Ok v)
             xs values
     /\ closure r args
        = Ok (mul (np_sum (map (fun p => mul (sub (fst p) (snd p))
                                             (sub (fst p) (snd p)))
                               (combine values ys)))
                  (of_Z 100)))
  /\ (Py.len args <> Py.len (params r) ->
      closure r args = Raise TypeError).
Proof.
  intros Hstep Hx Hy Hlen.
  pose proof (lambda_params_of_layout _ (proj1 Hstep)) as Hpar.
  unfold closure, mixed_call_array. rewrite Hx, Hy, Hpar.
  cbn [List.length]. rewrite length_map. split; intros Hargs.
  - replace (List.length args) with (List.length (params r))
      by (unfold Py.len in Hargs; lia).
    rewrite Nat.eqb_refl.
    destruct (@mapM_defined _ _
                (fun x => algorithms.mixed_call (mixed_func r) x args)
                (map of_Z xs)
                (fun x => @mixed_call_defined r x args Hstep Hargs))
      as (values & Hvals & Hall).
    exists values. split.
    + clear - Hall. revert values Hall.
      induction xs as [|x xs IH]; intros values Hall;
        inversion Hall; subst; constructor; auto.
    + rewrite Hvals. cbn [bind].
      unfold get_squared_sum_of_residual_errors, np_binary.
      rewrite (mapM_length _ _ Hvals), length_map.
      replace (List.length xs) with (List.length ys)
        by (unfold Py.len in Hlen; lia).
      rewrite Nat.eqb_refl. cbn [bind]. unfold np_square.
      now rewrite map_map.
  - destruct (Nat.eqb_spec (S (List.length args))
                           (S (List.length (params r)))) as [E|E];
      [|reflexivity].
    exfalso. apply Hargs. unfold Py.len. lia.
Qed.

End AlignedObjective.

(** The theorem on a fresh two-component resolver that holds the window
    [[2,5,3]] on the coordinates [[1,2,3]]: the objective is defined on
    the five-entry vector [[1,1,1,1,1/2]] and raises [TypeError] on the
    empty vector. *)
Lemma objective_on_aligned_window_witness :
  exists r0 : Resolver.t (A := QN.model),
    Resolver.init = Ok r0
    /\ (exists v,
          Resolver.closure
            (Resolver.with_window r0 (Some [1; 2; 3])
               (Some (map QN.rat [2; 5; 3]%Q)))
            (map QN.rat [1; 1; 1; 1; 1 # 2]%Q) = Ok v)
    /\ Resolver.closure
         (Resolver.with_window r0 (Some [1; 2; 3])
            (Some (map QN.rat [2; 5; 3]%Q))) [] = Raise TypeError.
Proof.
  destruct (init_in_step (A := QN.model)) as (r0 & Hinit & Hstep).
  assert (Hp : Py.len (Resolver.params r0) = 5).
  { destruct Hstep as (Hget & _).
    destruct (get_mixed_weibull_inv _ Hget) as (_ & Hps & _).
    rewrite (_get_params_length _ Hps).
    rewrite (proj1 (proj2 (init_state Hinit))). reflexivity. }
  exists r0. split; [exact Hinit|]. split.
  - destruct (proj1 (@objective_on_aligned_window QN.model
                       (Resolver.with_window r0 (Some [1; 2; 3])
                          (Some (map QN.rat [2; 5; 3]%Q)))
                       [1; 2; 3] (map QN.rat [2; 5; 3]%Q)
                       (map QN.rat [1; 1; 1; 1; 1 # 2]%Q)
                       Hstep eq_refl eq_refl eq_refl)
                    (eq_sym Hp))
      as (values & _ & Hc).
    eexists. exact Hc.
  - apply (proj2 (@objective_on_aligned_window QN.model
                    (Resolver.with_window r0 (Some [1; 2; 3])
                       (Some (map QN.rat [2; 5; 3]%Q)))
                    [1; 2; 3] (map QN.rat [2; 5; 3]%Q) []
                    Hstep eq_refl eq_refl eq_refl)).
    cbn [Resolver.params Resolver.with_window]. rewrite Hp. discriminate.
Defined.

(* ===================================================================== *)
(** * Further properties of the joint resolver (udm/_resolver.py)         *)
(* ===================================================================== *)

Section StopFacts.

Context {A : arith} {M : UDMResolver.training}.

Import UDMResolver.

Variable s : UDMAlgorithmSetting.
Variable udm0 : module_state.

Local Notation "'p'" := (Z.to_nat (pretrain_epochs s)).
Local Notation "'m'" := (Z.to_nat (max_epochs s)).
Local Notation "'st0'" := (after_pretrain s udm0).

Lemma state_at_module (i : nat) (st : fit_state) :
  state_at s i st0 = Some st -> udm st = trajectory udm0 p i.
Proof.
  intros H. destruct (state_at_recorded _ _ _ H) as (Hu & _).
  destruct (after_pretrain_recorded s udm0) as (Hu0 & _).
  rewrite Hu, Hu0. reflexivity.
Qed.

Lemma state_at_series (i : nat) (st : fit_state) :
  state_at s i st0 = Some st ->
  distribution_loss_series st = series_after udm0 p i.
Proof.
  intros H. destruct (state_at_recorded _ _ _ H) as (_ & Hd & _).
  destruct (after_pretrain_recorded s udm0) as (Hu0 & Hd0 & _).
  rewrite Hd, Hd0, Hu0. reflexivity.
Qed.

Lemma state_at_history_length (i : nat) (st : fit_state) :
  state_at s i st0 = Some st -> List.length (history st) = (p + i)%nat.
Proof.
  intros H.
  destruct (recorded_lengths (state_at_recorded _ _ _ H)) as (_ & _ & L).
  destruct (recorded_lengths (after_pretrain_recorded s udm0))
    as (_ & _ & L0).
  simpl in L0. lia.
Qed.

Lemma series_after_step (n : nat) :
  series_after udm0 p n ++ [distribution_loss (trajectory udm0 p n)]
  = series_after udm0 p (S n).
Proof.
  unfold series_after. now rewrite seq_S, map_app, app_assoc.
Qed.

Lemma update_series (i : nat) (st : fit_state) :
  state_at s i st0 = Some st ->
  distribution_loss_series (train_update s st) = series_after udm0 p (S i).
Proof.
  intros H. unfold train_update. cbn [distribution_loss_series].
  rewrite (state_at_series _ H), (state_at_module _ H).
  apply series_after_step.
Qed.

(** Every main-phase iteration before the one a run has reached went
    through: its total loss was not NaN and it did not stop early. *)
Lemma state_at_clean (n : nat) (stn : fit_state) (j : nat) :
  state_at s n st0 = Some stn -> (j < n)%nat ->
  isnan (total_loss s (trajectory udm0 p j)) = false
  /\ early_stop s (Z.of_nat j) (series_after udm0 p (S j)) = false.
Proof.
  intros Hn Hj.
  destruct (@state_at_below _ _ s udm0 (S j) n stn Hn ltac:(lia))
    as (st' & Hst').
  destruct (state_at_prefix _ _ _ Hst') as (stj & Hstj & Hb).
  destruct (train_body_cases s (Z.of_nat j) stj)
    as [(_ & Hc)|[(_ & _ & Hc)|(Hnan & He & _)]];
    try (rewrite Hc in Hb; discriminate).
  rewrite (state_at_module _ Hstj) in Hnan.
  rewrite (update_series _ Hstj) in He. now split.
Qed.

(** Where the main loop leaves: at the end of its range, at the first
    epoch whose total loss is NaN, or behind the first epoch that stops
    early. *)
Lemma train_loop_exit (fuel i : nat) (st : fit_state) :
  state_at s i st0 = Some st ->
  exists idx stn,
    (i <= idx <= i + fuel)%nat
    /\ state_at s idx st0 = Some stn
    /\ ((idx = (i + fuel)%nat
         /\ train_loop s fuel (Z.of_nat i) st = stn)
        \/ ((idx < i + fuel)%nat
            /\ isnan (total_loss s (udm stn)) = true
            /\ train_loop s fuel (Z.of_nat i) st = stn)
        \/ ((idx < i + fuel)%nat
            /\ isnan (total_loss s (udm stn)) = false
            /\ early_stop s (Z.of_nat idx)
                 (distribution_loss_series (train_update s stn)) = true
            /\ train_loop s fuel (Z.of_nat i) st = train_update s stn)).
Proof.
  revert i st. induction fuel as [|fuel IH]; intros i st H.
  - exists i, st. split; [lia|]. split; [exact H|]. left. split; [lia|reflexivity].
  - cbn [train_loop].
    destruct (train_body_cases s (Z.of_nat i) st)
      as [(Hnan & ->)|[(Hnan & He & ->)|(Hnan & He & ->)]].
    + exists i, st. split; [lia|]. split; [exact H|].
      right. left. split; [lia|]. now split.
    + exists i, st. split; [lia|]. split; [exact H|].
      right. right. split; [lia|]. now repeat split.
    + assert (Hnext : state_at s (S i) st0 = Some (train_update s st)).
      { cbn [state_at]. rewrite H.
        destruct (train_body_cases s (Z.of_nat i) st)
          as [(Hc & _)|[(_ & Hc & _)|(_ & _ & ->)]];
          [congruence|congruence|reflexivity]. }
      destruct (IH (S i) _ Hnext) as (idx & stn & Hr & Hst & Hcase).
      replace (Z.of_nat i + 1) with (Z.of_nat (S i)) by lia.
      exists idx, stn. split; [lia|]. split; [exact Hst|].
      destruct Hcase as [(E & Hl)|[(E & Hx & Hl)|(E & Hx & Hy & Hl)]].
      * left. split; [lia|exact Hl].
      * right. left. split; [lia|]. now split.
      * right. right. split; [lia|]. now repeat split.
Qed.

(** Why the main loop left, by the number [n] of main-phase iterations
    recorded. *)
Lemma main_loop_reason :
  exists n : nat,
    List.length (result_history (try_fit s udm0)) = (p + n)%nat
    /\ (n = m
        \/ ((n < m)%nat
            /\ isnan (total_loss s (trajectory udm0 p n)) = true)
        \/ ((0 < n)%nat
            /\ early_stop s (Z.of_nat (n - 1)) (series_after udm0 p n)
               = true))
    /\ (n <= m)%nat.
Proof.
  destruct (@train_loop_exit m 0 st0 eq_refl)
    as (idx & stn & Hr & Hst & Hcase).
  change (Z.of_nat 0) with 0 in Hcase.
  fold (final_state s udm0) in Hcase.
  unfold try_fit. cbn [result_history].
  pose proof (state_at_history_length _ Hst) as Hlen.
  destruct Hcase as [(E & ->)|[(E & Hx & ->)|(E & Hx & Hy & ->)]].
  - exists idx. split; [exact Hlen|]. split; [left; lia|lia].
  - exists idx. split; [exact Hlen|]. split; [|lia].
    right. left. split; [lia|]. now rewrite <- (state_at_module _ Hst).
  - exists (S idx). split; [|split; [|lia]].
    + unfold train_update. cbn [history]. rewrite length_app, Hlen.
      simpl. lia.
    + right. right. split; [lia|].
      replace (S idx - 1)%nat with idx by lia.
      now rewrite <- (update_series _ Hst).
Qed.

(** How a run of [try_fit] ends.  With [n] the number of main-phase
    iterations it records: the reconstruction-loss series is the [p]
    pretrain losses followed by the losses of the first [n] main epochs, the
    history has [p + n] snapshots and the final parameters are those after
    [n] main steps; none of the [n] recorded epochs had a NaN total loss and
    none but the last stopped early; and the loop left for one of three
    reasons: its range was used up, the total loss of epoch [n] was NaN
    (that epoch is not recorded), or epoch [n - 1] stopped early (that epoch
    is recorded). *)
Theorem try_fit_stops_at_first_trigger :
  exists n : nat,
    (n <= m)%nat
    /\ result_distribution_loss_series (try_fit s udm0)
       = series_after udm0 p n
    /\ List.length (result_history (try_fit s udm0)) = (p + n)%nat
    /\ final_params (try_fit s udm0) = params_of (trajectory udm0 p n)
    /\ (forall j, (j < n)%nat ->
          isnan (total_loss s (trajectory udm0 p j)) = false)
    /\ (forall j, (S j < n)%nat ->
          early_stop s (Z.of_nat j) (series_after udm0 p (S j)) = false)
    /\ (n = m
        \/ ((n < m)%nat
            /\ isnan (total_loss s (trajectory udm0 p n)) = true)
        \/ ((n <= m)%nat /\ (0 < n)%nat
            /\ early_stop s (Z.of_nat (n - 1)) (series_after udm0 p n)
               = true)).
Proof.
  destruct (@train_loop_exit m 0 st0 eq_refl)
    as (idx & stn & Hr & Hst & Hcase).
  change (Z.of_nat 0) with 0 in Hcase.
  fold (final_state s udm0) in Hcase.
  unfold try_fit.
  cbn [result_distribution_loss_series result_history final_params].
  destruct Hcase as [(E & Hl)|[(E & Hx & Hl)|(E & Hx & Hy & Hl)]];
    rewrite Hl.
  - exists idx. split; [lia|].
    split; [apply (state_at_series _ Hst)|].
    split; [apply (state_at_history_length _ Hst)|].
    split; [now rewrite (state_at_module _ Hst)|].
    split; [intros j Hj; apply (state_at_clean Hst Hj)|].
    split; [intros j Hj; apply (@state_at_clean idx stn j Hst); lia|].
    left. lia.
  - exists idx. split; [lia|].
    split; [apply (state_at_series _ Hst)|].
    split; [apply (state_at_history_length _ Hst)|].
    split; [now rewrite (state_at_module _ Hst)|].
    split; [intros j Hj; apply (state_at_clean Hst Hj)|].
    split; [intros j Hj; apply (@state_at_clean idx stn j Hst); lia|].
    right. left. split; [lia|]. now rewrite <- (state_at_module _ Hst).
  - exists (S idx). split; [lia|].
    split; [apply (update_series _ Hst)|].
    split.
    { unfold train_update. cbn [history]. rewrite length_app.
      rewrite (state_at_history_length _ Hst). simpl. lia. }
    split.
    { unfold train_update. cbn [udm]. rewrite (state_at_module _ Hst).
      reflexivity. }
    split.
    { intros j Hj. destruct (Nat.eq_dec j idx) as [->|Hne].
      - now rewrite <- (state_at_module _ Hst).
      - apply (@state_at_clean idx stn j Hst). lia. }
    split; [intros j Hj; apply (@state_at_clean idx stn j Hst); lia|].
    right. right. split; [lia|]. split; [lia|].
    replace (S idx - 1)%nat with idx by lia.
    now rewrite <- (update_series _ Hst).
Qed.

(** The floor.  As long as no total loss is NaN, the main phase records at
    least [min_epochs + 2] iterations, or all [max_epochs] if that is
    fewer: the test [epoch > min_epochs] is made on the index of the epoch,
    which counts from [0]. *)
Theorem min_epochs_floor :
  (forall j, isnan (total_loss s (trajectory udm0 p j)) = false) ->
  (p + Nat.min m (Z.to_nat (min_epochs s + 2))
   <= List.length (result_history (try_fit s udm0)))%nat.
Proof.
  intros Hok.
  destruct main_loop_reason as (n & -> & Hcase & Hn).
  destruct Hcase as [->|[(_ & Hnan)|(Hpos & He)]].
  - lia.
  - rewrite Hok in Hnan. discriminate.
  - unfold early_stop in He.
    destruct (Z.ltb_spec (min_epochs s) (Z.of_nat (n - 1)));
      [lia|discriminate].
Qed.

Lemma slice_older_empty (T : Type) (l : list T) :
  Py.len l <= 80 -> Py.slice l (Some (-100)) (Some (-80)) = [].
Proof.
  intros H. unfold Py.slice, Py.clamp, Py.len in *.
  destruct (Z.ltb_spec (-100) 0); [|lia].
  destruct (Z.ltb_spec (-80) 0); [|lia].
  rewrite !Z.max_r by lia. reflexivity.
Qed.

Lemma series_after_length (n : nat) :
  List.length (series_after udm0 p n) = (p + n)%nat.
Proof.
  unfold series_after. now rewrite length_app, !length_map, !length_seq.
Qed.

(** The older window.  [series[-100:-80]] is empty as long as the series
    has at most eighty entries; the mean of no entries is [0.0/0], which is
    NaN, and a NaN difference is below no threshold.  So no run stops early
    before eighty-one losses are recorded, pretrain losses included, and a
    run without a NaN total loss records at least eighty-one iterations in
    all, or [pretrain_epochs + max_epochs] if that is fewer -- whatever
    [min_epochs] is. *)
Theorem no_early_stop_on_short_series :
  (forall b t : num, ltb (sub (np_mean []) b) t = false) ->
  (forall j, isnan (total_loss s (trajectory udm0 p j)) = false) ->
  (forall epoch series,
     Py.len series <= 80 -> early_stop s epoch series = false)
  /\ (Nat.min (p + m) 81
      <= List.length (result_history (try_fit s udm0)))%nat.
Proof.
  intros Hnan Hok.
  assert (Hshort : forall epoch series,
            Py.len series <= 80 -> early_stop s epoch series = false).
  { intros epoch series Hl. unfold early_stop, delta_loss.
    rewrite (slice_older_empty _ Hl), Hnan.
    now destruct (min_epochs s <? epoch). }
  split; [exact Hshort|].
  destruct main_loop_reason as (n & -> & Hcase & Hn).
  destruct Hcase as [->|[(_ & Hx)|(Hpos & He)]].
  - lia.
  - rewrite Hok in Hx. discriminate.
  - destruct (Z.le_gt_cases (Py.len (series_after udm0 p n)) 80)
      as [Hle|Hgt].
    + rewrite (Hshort _ _ Hle) in He. discriminate.
    + unfold Py.len in Hgt. rewrite series_after_length in Hgt. lia.
Qed.

(** Stopping early.  If the main loop gets to the start of epoch [i], the
    total loss there is not NaN and the early-stop test holds on the series
    extended by that epoch's loss, then [try_fit] returns the state after
    that epoch: unlike an epoch that stops on NaN, the epoch that stops
    early is recorded.  The history and both loss series have
    [pretrain_epochs + i + 1] entries, the last loss recorded is the loss of
    epoch [i], and the final parameters are the last snapshot of the
    history. *)
Theorem early_stop_keeps_iteration (i : nat) (st : fit_state)
  (d : snapshot) (z : num) :
  state_at s i st0 = Some st ->
  (i < m)%nat ->
  isnan (total_loss s (udm st)) = false ->
  early_stop s (Z.of_nat i) (distribution_loss_series (train_update s st))
  = true ->
  final_state s udm0 = train_update s st
  /\ List.length (result_history (try_fit s udm0)) = (p + i + 1)%nat
  /\ List.length (result_distribution_loss_series (try_fit s udm0))
     = (p + i + 1)%nat
  /\ List.length (result_component_loss_series (try_fit s udm0))
     = (p + i + 1)%nat
  /\ last (result_distribution_loss_series (try_fit s udm0)) z
     = distribution_loss (trajectory udm0 p i)
  /\ final_params (try_fit s udm0) = params_of (trajectory udm0 p (S i))
  /\ last (result_history (try_fit s udm0)) d
     = final_params (try_fit s udm0).
Proof.
  intros Hst Hi Hnan He.
  assert (Hfinal : final_state s udm0 = train_update s st).
  { unfold final_state. rewrite (train_loop_from_state_at _ _ Hst) by lia.
    replace (m - i)%nat with (S (m - S i)) by lia.
    cbn [train_loop].
    destruct (train_body_cases s (Z.of_nat i) st)
      as [(Hc & _)|[(_ & _ & ->)|(_ & Hc & _)]];
      [congruence|reflexivity|congruence]. }
  destruct (recorded_lengths (state_at_recorded _ _ _ Hst))
    as (Ld & Lc & Lh).
  destruct (recorded_lengths (after_pretrain_recorded s udm0))
    as (Ld0 & Lc0 & Lh0).
  simpl in Ld0, Lc0, Lh0.
  unfold try_fit.
  cbn [result_history result_distribution_loss_series
       result_component_loss_series final_params].
  rewrite Hfinal. unfold train_update.
  cbn [history distribution_loss_series component_loss_series udm].
  rewrite !length_app, !last_last. cbn [List.length].
  rewrite (state_at_module _ Hst).
  repeat split; try lia; reflexivity.
Qed.

(** What a state holds once [n] main-phase iterations have been recorded
    behind the pretrain phase. *)
Lemma recorded_result (n : nat) (st : fit_state) :
  recorded train_step distribution_loss
    (fun mo => mul (constraint_weight s) (component_loss mo)) st0 n st ->
  udm st = trajectory udm0 p n
  /\ history st
     = map (fun j => params_of (trajectory udm0 j 0)) (seq 1 p)
       ++ map (fun j => params_of (trajectory udm0 p j)) (seq 1 n)
  /\ distribution_loss_series st = series_after udm0 p n
  /\ component_loss_series st
     = repeat (of_Q 0) p
       ++ map (fun j => mul (constraint_weight s)
                            (component_loss (trajectory udm0 p j)))
              (seq 0 n).
Proof.
  intros (Hu & Hd & Hc & Hh).
  destruct (after_pretrain_recorded s udm0) as (Hu0 & Hd0 & Hc0 & Hh0).
  cbn [initial_state udm history distribution_loss_series
       component_loss_series app] in Hu0, Hd0, Hc0, Hh0.
  split; [now rewrite Hu, Hu0|].
  split; [now rewrite Hh, Hh0, Hu0|].
  split; [now rewrite Hd, Hd0, Hu0|].
  rewrite Hc, Hc0, Hu0. f_equal.
  now rewrite map_const, length_seq.
Qed.

(** C7.  When [try_fit] returns, the history, the distribution-loss series
    and the component-loss series have one common length, [p + n]: the
    number [p] of pretrain iterations plus the number [n] of main-phase
    iterations the loop executed to their end.  That number is fixed by the
    run of the loop: each of the epochs [0 .. n-1] had a total loss that is
    not NaN and none of them but the last stopped early, and the loop left
    either because its range of [max_epochs] epochs was used up, or because
    the total loss of epoch [n] was NaN (that epoch appends nothing), or
    because epoch [n - 1] stopped early (after appending).  Entry by entry,
    in iteration order: the history holds the snapshot taken after each
    optimizer step, the distribution-loss series the loss computed before
    each step, and the component-loss series [0.0] for each pretrain
    iteration and the weighted component loss for each main iteration; the
    returned final parameters are those of the module after [p] pretrain
    steps and [n] main steps. *)
Theorem try_fit_history_invariant :
  exists n : nat,
    (n <= m)%nat
    /\ List.length (result_history (try_fit s udm0)) = (p + n)%nat
    /\ List.length (result_distribution_loss_series (try_fit s udm0))
       = (p + n)%nat
    /\ List.length (result_component_loss_series (try_fit s udm0))
       = (p + n)%nat
    /\ final_params (try_fit s udm0) = params_of (trajectory udm0 p n)
    /\ result_history (try_fit s udm0)
       = map (fun j => params_of (trajectory udm0 j 0)) (seq 1 p)
         ++ map (fun j => params_of (trajectory udm0 p j)) (seq 1 n)
    /\ result_distribution_loss_series (try_fit s udm0)
       = map (fun j => pretrain_distribution_loss (trajectory udm0 j 0))
             (seq 0 p)
         ++ map (fun j => distribution_loss (trajectory udm0 p j)) (seq 0 n)
    /\ result_component_loss_series (try_fit s udm0)
       = repeat (of_Q 0) p
         ++ map (fun j => mul (constraint_weight s)
                              (component_loss (trajectory udm0 p j)))
                (seq 0 n)
    /\ (forall j, (j < n)%nat ->
          isnan (total_loss s (trajectory udm0 p j)) = false)
    /\ (forall j, (S j < n)%nat ->
          early_stop s (Z.of_nat j) (series_after udm0 p (S j)) = false)
    /\ (n = m
        \/ ((n < m)%nat
            /\ isnan (total_loss s (trajectory udm0 p n)) = true)
        \/ ((0 < n)%nat
            /\ early_stop s (Z.of_nat (n - 1)) (series_after udm0 p n)
               = true)).
Proof.
  assert (Hentries : forall n st,
    recorded train_step distribution_loss
      (fun mo => mul (constraint_weight s) (component_loss mo)) st0 n st ->
    final_state s udm0 = st ->
    List.length (result_history (try_fit s udm0)) = (p + n)%nat
    /\ List.length (result_distribution_loss_series (try_fit s udm0))
       = (p + n)%nat
    /\ List.length (result_component_loss_series (try_fit s udm0))
       = (p + n)%nat
    /\ final_params (try_fit s udm0) = params_of (trajectory udm0 p n)
    /\ result_history (try_fit s udm0)
       = map (fun j => params_of (trajectory udm0 j 0)) (seq 1 p)
         ++ map (fun j => params_of (trajectory udm0 p j)) (seq 1 n)
    /\ result_distribution_loss_series (try_fit s udm0)
       = map (fun j => pretrain_distribution_loss (trajectory udm0 j 0))
             (seq 0 p)
         ++ map (fun j => distribution_loss (trajectory udm0 p j)) (seq 0 n)
    /\ result_component_loss_series (try_fit s udm0)
       = repeat (of_Q 0) p
         ++ map (fun j => mul (constraint_weight s)
                              (component_loss (trajectory udm0 p j)))
                (seq 0 n)).
  { intros n st Hr Hfin.
    destruct (recorded_result Hr) as (Hu & Hh & Hd & Hc).
    unfold try_fit.
    cbn [result_history result_distribution_loss_series
         result_component_loss_series final_params].
    rewrite Hfin, Hu, Hh, Hd, Hc. unfold series_after.
    rewrite !length_app, !length_map, !length_seq, repeat_length.
    repeat split; reflexivity. }
  destruct (@train_loop_exit m 0 st0 eq_refl)
    as (idx & stn & Hr & Hst & Hcase).
  change (Z.of_nat 0) with 0 in Hcase.
  fold (final_state s udm0) in Hcase.
  pose proof (state_at_recorded _ _ _ Hst) as Hrec.
  destruct Hcase as [(E & Hl)|[(E & Hx & Hl)|(E & Hx & Hy & Hl)]].
  - exists idx. split; [lia|].
    destruct (Hentries _ _ Hrec Hl) as (H1 & H2 & H3 & H4 & H5 & H6 & H7).
    do 7 (split; [assumption|]).
    split; [intros j Hj; apply (state_at_clean Hst Hj)|].
    split; [intros j Hj; apply (@state_at_clean idx stn j Hst); lia|].
    left. lia.
  - exists idx. split; [lia|].
    destruct (Hentries _ _ Hrec Hl) as (H1 & H2 & H3 & H4 & H5 & H6 & H7).
    do 7 (split; [assumption|]).
    split; [intros j Hj; apply (state_at_clean Hst Hj)|].
    split; [intros j Hj; apply (@state_at_clean idx stn j Hst); lia|].
    right. left. split; [lia|]. now rewrite <- (state_at_module _ Hst).
  - exists (S idx). split; [lia|].
    assert (Hrec' : recorded train_step distribution_loss
                      (fun mo => mul (constraint_weight s) (component_loss mo))
                      st0 (S idx) (train_update s stn)).
    { replace (S idx) with (idx + 1)%nat by lia.
      eapply recorded_trans; [exact Hrec|apply train_update_recorded]. }
    destruct (Hentries _ _ Hrec' Hl) as (H1 & H2 & H3 & H4 & H5 & H6 & H7).
    do 7 (split; [assumption|]).
    split.
    { intros j Hj. destruct (Nat.eq_dec j idx) as [->|Hne].
      - now rewrite <- (state_at_module _ Hst).
      - apply (@state_at_clean idx stn j Hst). lia. }
    split; [intros j Hj; apply (@state_at_clean idx stn j Hst); lia|].
    right. right. split; [lia|].
    replace (S idx - 1)%nat with idx by lia.
    now rewrite <- (update_series _ Hst).
Qed.

End StopFacts.

(** C7 on the run of [diverging] under [short_setting]: one pretrain
    iteration and two main iterations are recorded, the three lists have
    three entries each, and the loop left because the total loss of main
    epoch [2] was NaN. *)
Lemma try_fit_history_invariant_witness :
  exists n : nat,
    n = 2%nat
    /\ UDMResolver.result_history
         (UDMResolver.try_fit UDMResolver.short_setting
            UDMResolver.diverging_start) = [1; 2; 3]%nat
    /\ List.length
         (UDMResolver.result_distribution_loss_series
            (UDMResolver.try_fit UDMResolver.short_setting
               UDMResolver.diverging_start)) = (1 + n)%nat
    /\ List.length
         (UDMResolver.result_component_loss_series
            (UDMResolver.try_fit UDMResolver.short_setting
               UDMResolver.diverging_start)) = (1 + n)%nat
    /\ isnan (UDMResolver.total_loss UDMResolver.short_setting
                (UDMResolver.trajectory UDMResolver.diverging_start 1 n))
       = true.
Proof.
  destruct (@try_fit_history_invariant QN.model UDMResolver.diverging
              UDMResolver.short_setting UDMResolver.diverging_start)
    as (n & _ & Hh & Hd & Hc & _ & He & _).
  assert (Hn : n = 2%nat).
  { rewrite diverging_run in Hh. cbn in Hh. lia. }
  subst n. exists 2%nat.
  split; [reflexivity|]. split; [exact He|]. split; [exact Hd|].
  split; [exact Hc|]. reflexivity.
Defined.

(** The floor on the run of [plateau] under [long_setting]: three pretrain
    iterations and at least twelve main iterations. *)
Lemma min_epochs_floor_witness :
  (3 + 12
   <= List.length
        (UDMResolver.result_history
           (UDMResolver.try_fit
              UDMResolver.long_setting UDMResolver.plateau_start)))%nat.
Proof.
  exact (@min_epochs_floor QN.model UDMResolver.plateau
           UDMResolver.long_setting UDMResolver.plateau_start
           (fun _ => eq_refl)).
Defined.

(** The older window on that run: at least eighty-one iterations in all. *)
Lemma no_early_stop_on_short_series_witness :
  (81
   <= List.length
        (UDMResolver.result_history
           (UDMResolver.try_fit
              UDMResolver.long_setting UDMResolver.plateau_start)))%nat.
Proof.
  exact (proj2 (@no_early_stop_on_short_series QN.model UDMResolver.plateau
                  UDMResolver.long_setting UDMResolver.plateau_start
                  (fun _ _ => eq_refl) (fun _ => eq_refl))).
Defined.

(** That run stops early at main epoch [99], which it records. *)
Lemma early_stop_keeps_iteration_witness :
  List.length
    (UDMResolver.result_history
       (UDMResolver.try_fit
          UDMResolver.long_setting UDMResolver.plateau_start))
  = (3 + 99 + 1)%nat
  /\ UDMResolver.final_params
       (UDMResolver.try_fit
          UDMResolver.long_setting UDMResolver.plateau_start)
     = 103%nat.
Proof.
  destruct (UDMResolver.state_at UDMResolver.long_setting 99
              (UDMResolver.after_pretrain
                 UDMResolver.long_setting UDMResolver.plateau_start))
    as [st|] eqn:H1.
  2:{ exfalso.
      assert (H : match UDMResolver.state_at UDMResolver.long_setting 99
                        (UDMResolver.after_pretrain
                           UDMResolver.long_setting UDMResolver.plateau_start)
                  with Some _ => true | None => false end = true)
        by (vm_compute; reflexivity).
      rewrite H1 in H. discriminate H. }
  assert (H3 : UDMResolver.early_stop UDMResolver.long_setting (Z.of_nat 99)
                 (UDMResolver.distribution_loss_series
                    (UDMResolver.train_update UDMResolver.long_setting st))
               = true).
  { rewrite (update_series _ _ _ H1). vm_compute. reflexivity. }
  destruct (@early_stop_keeps_iteration QN.model UDMResolver.plateau
              UDMResolver.long_setting UDMResolver.plateau_start
              99%nat st 0%nat (QN.rat 0) H1 ltac:(simpl; lia) eq_refl H3)
    as (_ & Hl & _ & _ & _ & Hf & _).
  split; [exact Hl|]. rewrite Hf. reflexivity.
Defined.

Section EarlyStopBound.

Context {A : arith} {M : UDMResolver.training}.

Import UDMResolver.

Variable s : UDMAlgorithmSetting.
Variable udm0 : module_state.
Variable c : num.

Local Notation "'p'" := (Z.to_nat (pretrain_epochs s)).
Local Notation "'m'" := (Z.to_nat (max_epochs s)).
Local Notation "'st0'" := (after_pretrain s udm0).

(** The first main-phase epoch that exceeds the floor and has a hundred
    main-phase losses behind it. *)
Local Notation "'last_epoch'" :=
  (Nat.max (Z.to_nat (min_epochs s) + 1) 99).

(** The floor is a count of iterations. *)
Hypothesis floor_nonneg : 0 <= min_epochs s.

(** The reconstruction loss is [c] across the two comparison windows of
    that epoch: in the main-phase iterations [last_epoch - 99 ..
    last_epoch - 80] and [last_epoch - 19 .. last_epoch]. *)
Hypothesis windows_constant :
  forall j,
    (last_epoch - 99 <= j <= last_epoch - 80
     \/ last_epoch - 19 <= j <= last_epoch)%nat ->
    distribution_loss (trajectory udm0 p j) = c.

(** Between two windows of twenty entries [c] there is no improvement, and
    no improvement is below the threshold [10**(-precision)]. *)
Hypothesis no_improvement_below_threshold :
  ltb (sub (np_mean (repeat c 20)) (np_mean (repeat c 20))) (threshold s)
  = true.

(** The two comparison windows of a series that ends with twenty, sixty and
    twenty entries. *)
Lemma slice_windows (T : Type) (l older between newer : list T) :
  List.length older = 20%nat -> List.length between = 60%nat ->
  List.length newer = 20%nat ->
  Py.slice (l ++ older ++ between ++ newer) (Some (-100)) (Some (-80))
  = older
  /\ Py.slice (l ++ older ++ between ++ newer) (Some (-20)) None = newer.
Proof.
  intros Ho Hb Hn.
  assert (Hmid : forall a r : list T,
            firstn (List.length a) (skipn (List.length l) (l ++ a ++ r)) = a).
  { intros a r. rewrite skipn_app, skipn_all, Nat.sub_diag. cbn [skipn app].
    now rewrite firstn_app, firstn_all, Nat.sub_diag, firstn_O, app_nil_r. }
  unfold Py.slice, Py.clamp, Py.len.
  rewrite !length_app, Ho, Hb, Hn.
  destruct (Z.ltb_spec (-100) 0); [|lia].
  destruct (Z.ltb_spec (-80) 0); [|lia].
  destruct (Z.ltb_spec (-20) 0); [|lia].
  rewrite !Z.max_l by lia. split.
  - match goal with
    | |- firstn (Z.to_nat ?b) (skipn (Z.to_nat ?a) _) = _ =>
        replace (Z.to_nat b) with (List.length older) by lia;
        replace (Z.to_nat a) with (List.length l) by lia
    end.
    apply Hmid.
  - match goal with
    | |- firstn (Z.to_nat ?b) (skipn (Z.to_nat ?a) _) = _ =>
        replace (Z.to_nat b) with (List.length newer) by lia;
        replace (Z.to_nat a) with (List.length (l ++ older ++ between))
          by (rewrite !length_app; lia)
    end.
    replace (l ++ older ++ between ++ newer)
      with ((l ++ older ++ between) ++ newer)
      by (now rewrite <- !app_assoc).
    rewrite skipn_app, skipn_all, Nat.sub_diag. cbn [skipn app].
    apply firstn_all.
Qed.

Lemma map_constant (f : nat -> num) (a n : nat) :
  (forall j, (a <= j < a + n)%nat -> f j = c) ->
  map f (seq a n) = repeat c n.
Proof.
  revert a. induction n as [|n IH]; intros a H; [reflexivity|].
  cbn [seq map repeat]. rewrite (H a) by lia. f_equal.
  apply IH. intros j Hj. apply H. lia.
Qed.

(** At the end of that epoch the early-stop test holds. *)
Lemma early_stop_at_last_epoch :
  early_stop s (Z.of_nat last_epoch)
    (series_after udm0 p (S last_epoch)) = true.
Proof.
  unfold early_stop.
  destruct (Z.ltb_spec (min_epochs s) (Z.of_nat last_epoch)); [|lia].
  unfold delta_loss, series_after.
  set (f := fun j => distribution_loss (trajectory udm0 p j)).
  assert (Hseq : seq 0 (S last_epoch)
                 = seq 0 (last_epoch - 99)
                   ++ seq (last_epoch - 99) 20
                   ++ seq (last_epoch - 79) 60
                   ++ seq (last_epoch - 19) 20).
  { replace (S last_epoch)
      with ((last_epoch - 99) + (20 + (60 + 20)))%nat at 1 by lia.
    rewrite !seq_app. repeat (f_equal; try lia). }
  rewrite Hseq, !map_app, app_assoc.
  destruct (@slice_windows num
              (map (fun j => pretrain_distribution_loss (trajectory udm0 j 0))
                   (seq 0 p)
               ++ map f (seq 0 (last_epoch - 99)))
              (map f (seq (last_epoch - 99) 20))
              (map f (seq (last_epoch - 79) 60))
              (map f (seq (last_epoch - 19) 20)))
    as (Ho & Hn); try (now rewrite length_map, length_seq).
  rewrite Ho, Hn.
  rewrite (@map_constant f (last_epoch - 99) 20)
    by (intros j Hj; apply windows_constant; lia).
  rewrite (@map_constant f (last_epoch - 19) 20)
    by (intros j Hj; apply windows_constant; lia).
  exact no_improvement_below_threshold.
Qed.

(** No epoch behind that one is ever begun. *)
Lemma epochs_bounded (i : nat) (st : fit_state) :
  state_at s i st0 = Some st -> (i <= last_epoch)%nat.
Proof.
  intros Hst.
  destruct (Nat.le_gt_cases i last_epoch) as [Hle|Hgt]; [exact Hle|exfalso].
  destruct (@state_at_clean A M s udm0 i st last_epoch Hst Hgt) as (_ & He).
  rewrite early_stop_at_last_epoch in He. discriminate.
Qed.

(** C9 (amended).  Early stopping is not considered at an epoch that does
    not exceed [min_epochs]; beyond the floor the loop stops exactly when
    [mean(series[-100:-80]) - mean(series[-20:])] is below
    [10**(-precision)].  Consequently, when [min_epochs] is not negative,
    the reconstruction loss is one value across the two comparison windows
    of main-phase epoch [max(min_epochs + 1, 99)], and the difference of the
    means of two such windows is below [10**(-precision)], the main phase
    records at most [max(min_epochs + 2, 100)] iterations, which is at most
    [min_epochs + 100] (and never more than [max_epochs]), and no epoch
    behind [max(min_epochs + 1, 99)] is begun. *)
Theorem early_stop_bound :
  (forall epoch series,
     epoch <= min_epochs s -> early_stop s epoch series = false)
  /\ (forall epoch series,
        min_epochs s < epoch ->
        early_stop s epoch series
        = ltb (sub (np_mean (Py.slice series (Some (-100)) (Some (-80))))
                   (np_mean (Py.slice series (Some (-20)) None)))
              (pow (of_Z 10) (neg (precision s))))
  /\ (forall epoch st,
        isnan (total_loss s (udm st)) = false ->
        train_body s epoch st
        = if early_stop s epoch
               (distribution_loss_series (train_update s st))
          then BreakEarly (train_update s st)
          else Continue (train_update s st))
  /\ (exists n : nat,
        List.length (result_history (try_fit s udm0)) = (p + n)%nat
        /\ (n <= m)%nat
        /\ Z.of_nat n <= Z.max (min_epochs s + 2) 100
        /\ Z.of_nat n <= min_epochs s + 100)
  /\ (forall i st,
        state_at s i st0 = Some st ->
        Z.of_nat i <= Z.max (min_epochs s + 1) 99).
Proof.
  split; [|split; [|split; [|split]]].
  - intros epoch series H. unfold early_stop.
    destruct (Z.ltb_spec (min_epochs s) epoch); [lia|reflexivity].
  - intros epoch series H. unfold early_stop.
    destruct (Z.ltb_spec (min_epochs s) epoch); [reflexivity|lia].
  - intros epoch st H. unfold train_body. now rewrite H.
  - destruct (@train_loop_exit A M s udm0 m 0 st0 eq_refl)
      as (idx & stn & Hr & Hst & Hcase).
    change (Z.of_nat 0) with 0 in Hcase.
    fold (final_state s udm0) in Hcase.
    pose proof (@epochs_bounded idx stn Hst) as Hidx.
    pose proof (@state_at_history_length A M s udm0 idx stn Hst) as Hlen.
    unfold try_fit. cbn [result_history].
    destruct Hcase as [(E & ->)|[(E & Hx & ->)|(E & Hx & Hy & ->)]].
    + exists idx. split; [exact Hlen|]. lia.
    + exists idx. split; [exact Hlen|]. lia.
    + exists (S idx). split; [|lia].
      unfold train_update. cbn [history]. rewrite length_app, Hlen.
      cbn [List.length]. lia.
  - intros i st Hst. pose proof (@epochs_bounded i st Hst). lia.
Qed.

End EarlyStopBound.

(** C9 (amended) on the run of [plateau] under [long_setting]: floor [10],
    constant main-phase loss [1/2]. *)
Lemma early_stop_bound_witness :
  0 <= UDMResolver.min_epochs UDMResolver.long_setting
  /\ exists n : nat,
       List.length
         (UDMResolver.result_history
            (UDMResolver.try_fit
               UDMResolver.long_setting UDMResolver.plateau_start))
       = (Z.to_nat (UDMResolver.pretrain_epochs UDMResolver.long_setting)
          + n)%nat
       /\ Z.of_nat n <= UDMResolver.min_epochs UDMResolver.long_setting + 100.
Proof.
  assert (H0 : 0 <= UDMResolver.min_epochs UDMResolver.long_setting)
    by (simpl; lia).
  split; [exact H0|].
  destruct (@early_stop_bound QN.model UDMResolver.plateau
              UDMResolver.long_setting UDMResolver.plateau_start
              (QN.rat (1 # 2)) H0 (fun _ _ => eq_refl) eq_refl)
    as (_ & _ & _ & (n & Hn & _ & _ & Hb) & _).
  exists n. split; [exact Hn | exact Hb].
Defined.

(** C9 as stated fails when the floor is negative.  Under
    [negative_floor_setting] ([min_epochs = -50], no pretrain phase) the
    reconstruction loss of [plateau] is [1/2] in every iteration, so it is
    constant across the comparison windows, and the difference of two equal
    window means is below [10**(-6)]; but [series[-100:-80]] is empty, and
    its mean NaN, until the series has eighty-one entries.  The main phase
    runs eighty-one iterations, not at most [min_epochs + 100 = 50]. *)
Lemma early_stop_negative_floor_counterexample :
  (forall j,
     UDMResolver.distribution_loss
       (UDMResolver.trajectory UDMResolver.plateau_start 0 j)
     = QN.rat (1 # 2))
  /\ ltb (sub (np_mean (repeat (QN.rat (1 # 2)) 20))
              (np_mean (repeat (QN.rat (1 # 2)) 20)))
         (UDMResolver.threshold UDMResolver.negative_floor_setting) = true
  /\ UDMResolver.pretrain_epochs UDMResolver.negative_floor_setting = 0
  /\ List.length
       (UDMResolver.result_history
          (UDMResolver.try_fit UDMResolver.negative_floor_setting
             UDMResolver.plateau_start)) = 81%nat
  /\ ~ (81 <= UDMResolver.min_epochs UDMResolver.negative_floor_setting
              + 100).
Proof.
  split; [intros j; reflexivity|].
  split; [vm_compute; reflexivity|].
  split; [reflexivity|].
  split; [vm_compute; reflexivity|].
  cbn. lia.
Qed.

Section MoreEpochs.

Context {A : arith} {M : UDMResolver.training}.

Import UDMResolver.

(** The body of the main loop reads the minimal epoch count, the constraint
    level and the precision of the setting, and nothing else of it. *)
Lemma train_body_setting (s s' : UDMAlgorithmSetting) (epoch : Z)
  (st : fit_state) :
  min_epochs s' = min_epochs s ->
  constraint_level s' = constraint_level s ->
  precision s' = precision s ->
  train_body s' epoch st = train_body s epoch st.
Proof.
  intros Hm Hc Hp.
  unfold train_body, train_update, early_stop, total_loss, threshold,
    constraint_weight.
  now rewrite Hm, Hc, Hp.
Qed.

Lemma train_loop_setting (s s' : UDMAlgorithmSetting) (fuel : nat)
  (epoch : Z) (st : fit_state) :
  min_epochs s' = min_epochs s ->
  constraint_level s' = constraint_level s ->
  precision s' = precision s ->
  train_loop s' fuel epoch st = train_loop s fuel epoch st.
Proof.
  intros Hm Hc Hp. revert epoch st.
  induction fuel as [|fuel IH]; intros epoch st; [reflexivity|].
  cbn [train_loop]. rewrite (@train_body_setting s s' epoch st Hm Hc Hp).
  destruct (train_body s epoch st); [apply IH|reflexivity|reflexivity].
Qed.

(** One state continues another: the three lists of the first are prefixes
    of those of the second, by one common number of entries. *)
Local Notation "'continues' a b" :=
  (exists h d c,
     history b = history a ++ h
     /\ distribution_loss_series b = distribution_loss_series a ++ d
     /\ component_loss_series b = component_loss_series a ++ c
     /\ List.length h = List.length d /\ List.length d = List.length c)
  (at level 10, a at level 9, b at level 9).

Lemma train_loop_continues (s : UDMAlgorithmSetting) (fuel : nat)
  (epoch : Z) (st : fit_state) :
  continues st (train_loop s fuel epoch st).
Proof.
  destruct (train_loop_recorded s fuel epoch st)
    as (n & _ & (_ & Hd & Hc & Hh)).
  eexists _, _, _. split; [exact Hh|]. split; [exact Hd|].
  split; [exact Hc|]. rewrite !length_map, !length_seq. now split.
Qed.

(** The main loop with a longer range. *)
Lemma train_loop_more (s : UDMAlgorithmSetting) (fuel extra : nat)
  (epoch : Z) (st : fit_state) :
  continues (train_loop s fuel epoch st)
            (train_loop s (fuel + extra) epoch st)
  /\ ((List.length (history (train_loop s fuel epoch st))
       < List.length (history st) + fuel)%nat ->
      train_loop s (fuel + extra) epoch st = train_loop s fuel epoch st).
Proof.
  revert epoch st. induction fuel as [|fuel IH]; intros epoch st.
  - cbn [train_loop Nat.add]. split; [apply train_loop_continues|lia].
  - cbn [train_loop Nat.add].
    destruct (train_body_cases s epoch st)
      as [(_ & ->)|[(_ & _ & ->)|(_ & _ & ->)]].
    + split; [|reflexivity].
      exists [], [], []. now rewrite !app_nil_r.
    + split; [|reflexivity].
      exists [], [], []. now rewrite !app_nil_r.
    + destruct (IH (epoch + 1) (train_update s st)) as (Hc & He).
      split; [exact Hc|]. intros Hl. apply He.
      unfold train_update at 2. cbn [history].
      rewrite length_app. cbn [List.length]. lia.
Qed.

(** Raising [max_epochs] only lets the run go on.  Of two settings that
    differ in [max_epochs] alone, the run with the larger bound returns the
    history and the two loss series of the other run, each followed by one
    common number of further entries; and if the run with the smaller bound
    ended before its bound (it has recorded fewer than [pretrain_epochs +
    max_epochs] iterations), the two runs return the same result. *)
Theorem more_epochs_extend (s s' : UDMAlgorithmSetting)
  (udm0 : module_state) :
  pretrain_epochs s' = pretrain_epochs s ->
  min_epochs s' = min_epochs s ->
  constraint_level s' = constraint_level s ->
  precision s' = precision s ->
  max_epochs s <= max_epochs s' ->
  (exists h d c,
     result_history (try_fit s' udm0) = result_history (try_fit s udm0) ++ h
     /\ result_distribution_loss_series (try_fit s' udm0)
        = result_distribution_loss_series (try_fit s udm0) ++ d
     /\ result_component_loss_series (try_fit s' udm0)
        = result_component_loss_series (try_fit s udm0) ++ c
     /\ List.length h = List.length d /\ List.length d = List.length c)
  /\ ((List.length (result_history (try_fit s udm0))
       < Z.to_nat (pretrain_epochs s) + Z.to_nat (max_epochs s))%nat ->
      try_fit s' udm0 = try_fit s udm0).
Proof.
  intros Hp Hm Hc Hpr Hmax.
  assert (Hst : after_pretrain s' udm0 = after_pretrain s udm0)
    by (unfold after_pretrain; now rewrite Hp).
  assert (Hfin : final_state s' udm0
                 = train_loop s (Z.to_nat (max_epochs s)
                                 + (Z.to_nat (max_epochs s')
                                    - Z.to_nat (max_epochs s)))
                     0 (after_pretrain s udm0)).
  { unfold final_state. rewrite Hst, (@train_loop_setting s s' _ _ _ Hm Hc Hpr).
    f_equal. lia. }
  destruct (train_loop_more s (Z.to_nat (max_epochs s))
              (Z.to_nat (max_epochs s') - Z.to_nat (max_epochs s))
              0 (after_pretrain s udm0)) as (Hcont & Hsame).
  fold (final_state s udm0) in Hcont, Hsame. rewrite <- Hfin in Hcont, Hsame.
  split; [exact Hcont|].
  intros Hl. unfold try_fit. rewrite Hsame; [reflexivity|].
  destruct (recorded_lengths (after_pretrain_recorded s udm0))
    as (_ & _ & L0).
  cbn [initial_state history List.length] in L0.
  unfold try_fit in Hl. cbn [result_history] in Hl. lia.
Qed.

End MoreEpochs.

(** The theorem on the run whose loss turns NaN at the fourth iteration:
    with [max_epochs] raised from [10] to [500] the result is the same. *)
Lemma more_epochs_extend_witness :
  UDMResolver.try_fit (M := UDMResolver.diverging)
    {| UDMResolver.pretrain_epochs := 1; UDMResolver.max_epochs := 500;
       UDMResolver.min_epochs := 5;
       UDMResolver.constraint_level := QN.rat 0;
       UDMResolver.precision := QN.rat 6 |}
    UDMResolver.diverging_start
  = UDMResolver.try_fit UDMResolver.short_setting
      UDMResolver.diverging_start.
Proof.
  refine (proj2 (@more_epochs_extend QN.model UDMResolver.diverging
                   UDMResolver.short_setting _ UDMResolver.diverging_start
                   eq_refl eq_refl eq_refl eq_refl _) _).
  - cbn. lia.
  - vm_compute. lia.
Defined.
